(** * compare-runners: the job-history cache and the runner statistics

    A shallow embedding of [src/compare_runners/jobs.py] (with the [Runner]
    dataclass of [config_parser.py]) and the properties of its three
    operations: [fetch_jobs_data], [get_measured_jobs] and [get_job_stats]
    together with the predicate [match_runner].

    Conventions of the embedding.
    - A csv file is the sequence of rows [csv.reader] yields from it, a row
      being the list of its text fields; [csv.writer.writerow] appends one
      row.  A file that does not exist is [None].  Quoting and the
      terminator of a row are below this level: the reader takes [\r\n],
      [\n] and [\r] alike for the end of a row.  Newlines inside a field
      are part of the field: the code reads and writes its files with
      [newline=""], except where it copies the previous file, in text mode
      (lines 125-127), which rewrites them ([universal_newlines]; the line
      separator of the system is taken to be [\n]).
    - Python exceptions are values of [exn]; a function that may raise
      returns a [result].
    - A Python [float] is a rational number of [Q]: sums, comparisons and
      the division of the averages are exact; there is no [nan] or [inf].
    - A [datetime.datetime] is aware or naive.  An aware one is given by
      its instant, the integer number of microseconds since the epoch, a
      naive one by the number of microseconds its reading of the clock
      stands for.  [<], [<=] and [>] of Python are those of [Z] between
      two datetimes of a kind, and raise [TypeError] between a naive and an
      aware one.
    - The remote API is the list of the jobs of the project, which stays
      the same during a fetch; the session ([gitlab.Gitlab], [gl.auth],
      [gl.projects.get]) and the probe of the data directory are not
      modelled.
    - The library functions the code calls on text ([float],
      [datetime.fromisoformat], [re.fullmatch], [str] of a float) are the
      fields of the class [PyLib]; every general statement holds for all of
      them, and [Ref] gives one instance to run the code on examples.  The
      statements on the times of the rows a fetch has copied are for the
      libraries that read a timestamp the same once its newlines are
      translated ([NewlineStable]), as Python's does. *)

From Stdlib Require Import ZArith QArith Bool List String Ascii Lia Sorted.
From Stdlib Require Import Qround.
From Stdlib Require OrderedTypeEx.
Import ListNotations.

Local Open Scope string_scope.
Local Open Scope Z_scope.

(** ** Exceptions and results *)

Inductive exn : Type :=
| IndexError      (* row[i] with too few columns *)
| ValueError      (* float(..) or fromisoformat(..) on text it refuses *)
| TypeError       (* < <= > between a naive and an aware datetime *)
| PatternError    (* re.error: the pattern does not compile *)
| RuntimeError    (* raise RuntimeError("CSV Data file missing!") *)
| FileNotFoundError.  (* open(.., "r") on a file that does not exist *)

Inductive result (A : Type) : Type :=
| Ok (a : A)
| Raise (e : exn).
Arguments Ok {A} a.
Arguments Raise {A} e.

Definition bind {A B : Type} (r : result A) (k : A -> result B) : result B :=
  match r with
  | Ok a => k a
  | Raise e => Raise e
  end.

Notation "x <- c ;; k" := (bind c (fun x => k))
  (at level 61, c at next level, right associativity).

Definition of_option {A : Type} (e : exn) (o : option A) : result A :=
  match o with
  | Some a => Ok a
  | None => Raise e
  end.

(** ** Data *)

(** Microseconds: the instant of an aware datetime, since the epoch. *)
Definition instant := Z.

(** [datetime.datetime]: with a UTC offset ([tzinfo] set) or without. *)
Inductive datetime : Type :=
| Aware (t : instant)
| Naive (t : Z).

(** [a < b], [a <= b], [a > b] on datetimes, from the test on integers. *)
Definition compare_datetimes (test : Z -> Z -> bool) (a b : datetime)
    : result bool :=
  match a, b with
  | Aware t, Aware u => Ok (test t u)
  | Naive t, Naive u => Ok (test t u)
  | _, _ => Raise TypeError
  end.

Definition datetime_lt : datetime -> datetime -> result bool :=
  compare_datetimes Z.ltb.
Definition datetime_le : datetime -> datetime -> result bool :=
  compare_datetimes Z.leb.
Definition datetime_gt : datetime -> datetime -> result bool :=
  compare_datetimes Z.gtb.

Definition Row := list string.

(** The csv data file of one project: [None] when it does not exist. *)
Definition Store := option (list Row).

(** [config_parser.Runner]; [None] is Python's [None]. *)
Record Runner : Type := mkRunner {
  name : string;
  matcher_name : option string;
  matcher_from : option datetime;
  matcher_to : option datetime
}.

Record JobDurationStats : Type := mkStats {
  runtime_duration_avg : Q;
  runtime_duration_min : Q;
  runtime_duration_max : Q;
  queue_duration_avg : Q;
  queue_duration_min : Q;
  queue_duration_max : Q;
  total_duration_avg : Q;
  total_duration_min : Q;
  total_duration_max : Q;
  no_of_jobs : Z
}.

(** A job object of the remote API, as [fetch_jobs_data] reads it.
    [runner] is the dictionary of the runner, or [None] when the API gives
    [null]: [job.runner.get] then raises [AttributeError]. *)
Module Job.
Record t : Type := mk {
  created_at : string;
  name : string;
  status : string;
  duration : Q;
  queued_duration : Q;
  runner : option (list (string * string));
  tag_list : list string;
  web_url : string
}.
End Job.

(** The text functions of Python's library that the code calls. *)
Class PyLib : Type := {
  float : string -> option Q;                   (* None: ValueError *)
  str_float : Q -> string;                      (* the text csv.writer emits *)
  fromisoformat : string -> option datetime;    (* None: ValueError *)
  re_fullmatch : string -> string -> option bool  (* None: re.error *)
}.

(** ** Small Python idioms *)

(** What [read] gives for a text of a file opened in text mode without
    [newline=""]: every [\r\n] and every other [\r] is a [\n]. *)
Fixpoint universal_newlines (s : string) : string :=
  match s with
  | EmptyString => EmptyString
  | String c s' =>
      if Ascii.eqb c "013" then
        String "010"
               match s' with
               | String c' s'' =>
                   if Ascii.eqb c' "010" then universal_newlines s''
                   else universal_newlines s'
               | EmptyString => EmptyString
               end
      else String c (universal_newlines s')
  end.

(** [datetime.fromisoformat] reads a timestamp the same once the newlines
    of its text are translated: of a text it accepts at most the one
    character between the date and the time is a [\r], which a digit
    follows, and a [\n] in its place separates them as well.  The
    statements on the times of copied rows are for libraries with this
    property. *)
Class NewlineStable (lib : PyLib) : Prop :=
  fromisoformat_universal_newlines :
    forall s d,
      fromisoformat s = Some d ->
      fromisoformat (universal_newlines s) = Some d.

(** [row[i]] *)
Definition index (row : Row) (i : nat) : result string :=
  of_option IndexError (nth_error row i).

(** [d.get(key, default)] on a dictionary given by its items. *)
Fixpoint dict_get (d : list (string * string)) (key default : string) : string :=
  match d with
  | [] => default
  | (k, v) :: d' => if String.eqb k key then v else dict_get d' key default
  end.

(** [sep.join(l)] *)
Fixpoint join (sep : string) (l : list string) : string :=
  match l with
  | [] => ""
  | [s] => s
  | s :: l' => s ++ sep ++ join sep l'
  end.

(** Truth value of a [str] or [None]: [None] and the empty text are false. *)
Definition truthy_str (o : option string) : bool :=
  match o with
  | Some s => negb (String.eqb s "")
  | None => false
  end.

Definition Qltb (x y : Q) : bool := negb (Qle_bool y x).

(** [sorted(set)] on texts: insertion in a strictly increasing list. *)
Fixpoint set_insert (s : string) (l : list string) : list string :=
  match l with
  | [] => [s]
  | x :: l' =>
      match String.compare s x with
      | Lt => s :: l
      | Eq => l
      | Gt => x :: set_insert s l'
      end
  end.

Definition sorted_set (names : list string) : list string :=
  fold_right set_insert [] names.

Section Model.
Context {lib : PyLib}.

Definition to_float (s : string) : result Q := of_option ValueError (float s).
Definition parse_datetime (s : string) : result datetime :=
  of_option ValueError (fromisoformat s).

(** ** match_runner (jobs.py, lines 160-178) *)

Definition match_runner
    (job_created_at job_runner_description : string) (runner : Runner)
    : result bool :=
  (* if runner.matcher_name and not re.fullmatch(..): return False *)
  name_rejected <-
    (if truthy_str (matcher_name runner) then
       match matcher_name runner with
       | Some pattern =>
           m <- of_option PatternError
                  (re_fullmatch pattern job_runner_description) ;;
           Ok (negb m)
       | None => Ok false
       end
     else Ok false) ;;
  if name_rejected then Ok false else
  created_at <- parse_datetime job_created_at ;;
  (* if runner.matcher_from and created_at < runner.matcher_from *)
  too_early <- match matcher_from runner with
               | Some from => datetime_lt created_at from
               | None => Ok false
               end ;;
  if too_early then Ok false else
  (* if runner.matcher_to and created_at > runner.matcher_to *)
  too_late <- match matcher_to runner with
              | Some to => datetime_gt created_at to
              | None => Ok false
              end ;;
  if too_late then Ok false else
  Ok true.

(** ** get_job_stats (jobs.py, lines 181-261) *)

(** The local variables the loop of [get_job_stats] updates. *)
Record locals : Type := mkLocals {
  total_runtime_duration : Q;
  total_queue_duration : Q;
  total_job_duration : Q;
  cur_runtime_duration_min : Q;
  cur_runtime_duration_max : Q;
  cur_queue_duration_min : Q;
  cur_queue_duration_max : Q;
  cur_total_duration_min : Q;
  cur_total_duration_max : Q;
  cur_no_of_jobs : Z
}.

(** Lines 184-196. *)
Definition initial_locals : locals :=
  mkLocals 0 0 0 10000000 0 10000000 0 10000000 0 0.

(** Lines 217-236: the body run for a job that matches. *)
Definition count_job (st : locals) (job_duration job_queued_duration : Q)
    : locals :=
  let total_duration := (job_duration + job_queued_duration)%Q in
  mkLocals
    (total_runtime_duration st + job_duration)%Q
    (total_queue_duration st + job_queued_duration)%Q
    (total_job_duration st + total_duration)%Q
    (if Qltb job_duration (cur_runtime_duration_min st)
     then job_duration else cur_runtime_duration_min st)
    (if Qltb (cur_runtime_duration_max st) job_duration
     then job_duration else cur_runtime_duration_max st)
    (if Qltb job_queued_duration (cur_queue_duration_min st)
     then job_queued_duration else cur_queue_duration_min st)
    (if Qltb (cur_queue_duration_max st) job_queued_duration
     then job_queued_duration else cur_queue_duration_max st)
    (if Qltb total_duration (cur_total_duration_min st)
     then total_duration else cur_total_duration_min st)
    (if Qltb (cur_total_duration_max st) total_duration
     then total_duration else cur_total_duration_max st)
    (cur_no_of_jobs st + 1).

(** Lines 204-236: one turn of the loop over the rows. *)
Definition stats_row (job_name : string) (runner : Runner)
    (st : locals) (row : Row) : result locals :=
  job_created_at <- index row 0 ;;
  csv_job_name <- index row 1 ;;
  job_status <- index row 2 ;;
  field3 <- index row 3 ;;
  job_duration <- to_float field3 ;;
  field4 <- index row 4 ;;
  job_queued_duration <- to_float field4 ;;
  job_runner_description <- index row 5 ;;
  job_runner_ip_address <- index row 6 ;;
  job_runner_runner_type <- index row 7 ;;
  if negb (String.eqb csv_job_name job_name) then Ok st else
  matched <- match_runner job_created_at job_runner_description runner ;;
  if matched then Ok (count_job st job_duration job_queued_duration)
  else Ok st.

Fixpoint stats_rows (job_name : string) (runner : Runner)
    (st : locals) (rows : list Row) : result locals :=
  match rows with
  | [] => Ok st
  | row :: rows' =>
      st' <- stats_row job_name runner st row ;;
      stats_rows job_name runner st' rows'
  end.

(** Lines 238-261. *)
Definition finish (st : locals) : JobDurationStats :=
  if cur_no_of_jobs st <=? 0 then
    mkStats 0 0 (cur_runtime_duration_max st)
            0 0 (cur_queue_duration_max st)
            0 0 (cur_total_duration_max st)
            (cur_no_of_jobs st)
  else
    let n := inject_Z (cur_no_of_jobs st) in
    mkStats (total_runtime_duration st / n)%Q
            (cur_runtime_duration_min st) (cur_runtime_duration_max st)
            (total_queue_duration st / n)%Q
            (cur_queue_duration_min st) (cur_queue_duration_max st)
            (total_job_duration st / n)%Q
            (cur_total_duration_min st) (cur_total_duration_max st)
            (cur_no_of_jobs st).

Definition get_job_stats (job_name : string) (runner : Runner)
    (csv_data_file : Store) : result JobDurationStats :=
  match csv_data_file with
  | None => Raise RuntimeError
  | Some rows =>
      st <- stats_rows job_name runner initial_locals rows ;;
      Ok (finish st)
  end.

(** ** get_measured_jobs (jobs.py, lines 135-143) *)

Fixpoint job_names_of (rows : list Row) : result (list string) :=
  match rows with
  | [] => Ok []
  | row :: rows' =>
      job_name <- index row 1 ;;
      names <- job_names_of rows' ;;
      Ok (job_name :: names)
  end.

Definition get_measured_jobs (csv_data_file : Store) : result (list string) :=
  match csv_data_file with
  | None => Raise FileNotFoundError
  | Some rows =>
      job_names <- job_names_of rows ;;
      Ok (sorted_set job_names)
  end.

(** ** fetch_jobs_data (jobs.py, lines 16-132) *)

Definition per_page : nat := 100.

(** [project.jobs.list(page, per_page, order_by="created_at", sort="desc",
    scope=["success"])]: the server keeps the successful jobs of its list
    and returns the slice of the page asked for; pages count from 1. *)
Definition successful (remote : list Job.t) : list Job.t :=
  filter (fun job => String.eqb (Job.status job) "success") remote.

Definition jobs_list (remote : list Job.t) (page : nat) : list Job.t :=
  firstn per_page (skipn ((page - 1) * per_page) (successful remote)).

(** Lines 104-115: the row of a job; [None] is the [AttributeError] of
    [job.runner.get] on a job without runner. *)
Definition job_row (job : Job.t) : option Row :=
  match Job.runner job with
  | None => None
  | Some runner =>
      Some [ Job.created_at job;
             Job.name job;
             Job.status job;
             str_float (Job.duration job);
             str_float (Job.queued_duration job);
             dict_get runner "description" "";
             dict_get runner "ip_address" "";
             dict_get runner "runner_type" "";
             join "," (Job.tag_list job);
             Job.web_url job ]
  end.

(** Lines 86-119: the loop over the jobs of one page.  [written] is the
    content of the temporary file; the result gives [hit_cutoff] too. *)
Fixpoint scan_batch (cutoff_date : datetime)
    (latest_data_cutoff : option datetime)
    (job_batch : list Job.t) (written : list Row)
    : result (bool * list Row) :=
  match job_batch with
  | [] => Ok (false, written)
  | job :: job_batch' =>
      job_created <- parse_datetime (Job.created_at job) ;;
      (* if job_created < cutoff_date *)
      before_cutoff <- datetime_lt job_created cutoff_date ;;
      if before_cutoff then Ok (true, written) else
      (* if latest_data_cutoff and job_created <= latest_data_cutoff *)
      already_seen <- match latest_data_cutoff with
                      | Some latest => datetime_le job_created latest
                      | None => Ok false
                      end ;;
      if already_seen then Ok (true, written) else
      match job_row job with
      | Some row =>
          scan_batch cutoff_date latest_data_cutoff job_batch'
                     (written ++ [row])%list
      | None =>      (* except AttributeError: warning, next job *)
          scan_batch cutoff_date latest_data_cutoff job_batch' written
      end
  end.

(** Lines 70-121: the loop over the pages.  [None] when [fuel] turns of the
    loop were not enough. *)
Fixpoint fetch_pages (fuel : nat) (remote : list Job.t)
    (cutoff_date : datetime) (latest_data_cutoff : option datetime)
    (page : nat) (written : list Row) : option (result (list Row)) :=
  match fuel with
  | O => None
  | S fuel' =>
      match jobs_list remote page with
      | [] => Some (Ok written)
      | job_batch =>
          match scan_batch cutoff_date latest_data_cutoff job_batch written with
          | Raise e => Some (Raise e)
          | Ok (true, written') => Some (Ok written')
          | Ok (false, written') =>
              fetch_pages fuel' remote cutoff_date latest_data_cutoff
                          (page + 1) written'
          end
      end
  end.

(** Lines 49-55: the time of the first row of the data file. *)
Definition load_latest_data_cutoff (csv_data_file : Store)
    : result (option datetime) :=
  match csv_data_file with
  | Some (row :: _) =>
      field0 <- index row 0 ;;
      latest <- parse_datetime field0 ;;
      Ok (Some latest)
  | _ => Ok None
  end.

(** Lines 125-127: [csvfile_new.write(csvfile_prev.read())], both files
    opened in text mode without [newline=""].  Reading translates the
    newlines of the whole text, those inside a quoted field too, and
    writing leaves [\n] as it is: of every row, the fields come out with
    universal newlines. *)
Definition text_mode_copy (rows : list Row) : list Row :=
  map (map universal_newlines) rows.

(** Lines 123-127: what is appended to the temporary file. *)
Definition previous_content (csv_data_file : Store) : list Row :=
  match csv_data_file with
  | Some rows => text_mode_copy rows
  | None => []
  end.

(** The rows the fetch writes to the temporary file (lines 49-121). *)
Definition fetch_new_rows (fuel : nat) (remote : list Job.t)
    (measure_since : string) (csv_data_file : Store)
    : option (result (list Row)) :=
  match load_latest_data_cutoff csv_data_file with
  | Raise e => Some (Raise e)
  | Ok latest_data_cutoff =>
      match parse_datetime (measure_since ++ "T00:00:00.0Z") with
      | Raise e => Some (Raise e)
      | Ok cutoff_date =>
          fetch_pages fuel remote cutoff_date latest_data_cutoff 1%nat []
      end
  end.

(** The data file after [fetch_jobs_data]: the temporary file, with the
    previous content appended as the copy in text mode gives it
    ([previous_content]), replaces it.  An exception leaves the data file
    as it was, since [shutil.move] is the last statement. *)
Definition fetch_jobs_data (fuel : nat) (remote : list Job.t)
    (measure_since : string) (csv_data_file : Store)
    : option (result Store) :=
  match fetch_new_rows fuel remote measure_since csv_data_file with
  | None => None
  | Some (Raise e) => Some (Raise e)
  | Some (Ok written) =>
      Some (Ok (Some (written ++ previous_content csv_data_file)%list))
  end.

(** One run of the program on a project: the data file it leaves behind. *)
Definition fetch_then_merge (remote : list Job.t) (measure_since : string)
    (csv_data_file : Store) : Store :=
  match fetch_jobs_data (S (List.length remote)) remote measure_since
                        csv_data_file with
  | Some (Ok csv_data_file') => csv_data_file'
  | _ => csv_data_file
  end.

(** The data files after each of a sequence of runs. *)
Fixpoint fetch_runs (runs : list (list Job.t * string))
    (csv_data_file : Store) : list Store :=
  match runs with
  | [] => []
  | (remote, measure_since) :: runs' =>
      let csv_data_file' := fetch_then_merge remote measure_since csv_data_file in
      csv_data_file' :: fetch_runs runs' csv_data_file'
  end.

End Model.

(** * A reference instance of the library functions

    Enough of Python's [float], [str], [datetime.fromisoformat] and
    [re.fullmatch] to run the code on examples: decimal numerals, UTC
    timestamps of the shape the remote API gives and the same without
    offset, and patterns made of plain characters, [.] and [*]. *)

Module Ref.

Definition digit_of (c : ascii) : option Z :=
  let n := Z.of_nat (nat_of_ascii c) in
  if (48 <=? n) && (n <=? 57) then Some (n - 48) else None.

(** The value of a text made of digits only; [acc] is the value so far. *)
Fixpoint digits_value (s : string) (acc : Z) : option Z :=
  match s with
  | EmptyString => Some acc
  | String c s' =>
      match digit_of c with
      | Some d => digits_value s' (10 * acc + d)
      | None => None
      end
  end.

Definition number (s : string) : option Z :=
  match s with
  | EmptyString => None
  | _ => digits_value s 0
  end.

(** The text before the first [c], and the text after it when there is one. *)
Fixpoint split_at (c : ascii) (s : string) : string * option string :=
  match s with
  | EmptyString => (EmptyString, None)
  | String x s' =>
      if Ascii.eqb x c then (EmptyString, Some s')
      else let (a, b) := split_at c s' in (String x a, b)
  end.

Definition unsigned_float (s : string) : option Q :=
  match split_at "."%char s with
  | (whole, None) =>
      match number whole with
      | Some n => Some (inject_Z n)
      | None => None
      end
  | (whole, Some frac) =>
      match number whole, digits_value frac 0 with
      | Some n, Some f =>
          let scale := 10 ^ Z.of_nat (String.length frac) in
          Some (Qmake (n * scale + f) (Z.to_pos scale))
      | _, _ => None
      end
  end.

(** [float(s)] on the numerals [d+], [d+.d*] and their negatives. *)
Definition float (s : string) : option Q :=
  match s with
  | String "-"%char s' =>
      match unsigned_float s' with
      | Some q => Some (Qopp q)
      | None => None
      end
  | _ => unsigned_float s
  end.

Definition digit_char (d : Z) : ascii := ascii_of_nat (Z.to_nat (48 + d)).

(** The decimal digits of [n >= 0], most significant first. *)
Fixpoint digits_of (fuel : nat) (n : Z) (acc : string) : string :=
  match fuel with
  | O => acc
  | S fuel' =>
      let acc' := String (digit_char (n mod 10)) acc in
      if n <? 10 then acc' else digits_of fuel' (n / 10) acc'
  end.

Definition str_nat (n : Z) : string :=
  digits_of (S (Z.to_nat (Z.log2 n))) n EmptyString.

(** The digits after the point of [r / d], at most [fuel] of them. *)
Fixpoint fraction_digits (fuel : nat) (r d : Z) : string :=
  match fuel with
  | O => EmptyString
  | S fuel' =>
      let r10 := 10 * r in
      String (digit_char (r10 / d))
             (if r10 mod d =? 0 then EmptyString
              else fraction_digits fuel' (r10 mod d) d)
  end.

(** [str(x)] of a float: [10.0], [12.5], [-0.25]. *)
Definition str_float (x : Q) : string :=
  let n := Z.abs (Qnum x) in
  let d := Zpos (Qden x) in
  (if Qnum x <? 0 then "-" else "")
    ++ str_nat (n / d) ++ "." ++ fraction_digits 16 (n mod d) d.

Definition is_leap (y : Z) : bool :=
  ((y mod 4 =? 0) && negb (y mod 100 =? 0)) || (y mod 400 =? 0).

Definition days_in_month (y m : Z) : Z :=
  if m =? 2 then (if is_leap y then 29 else 28)
  else if (m =? 4) || (m =? 6) || (m =? 9) || (m =? 11) then 30
  else 31.

(** Days from 1970-01-01 to the day [y-m-d] of the Gregorian calendar. *)
Definition days_from_civil (y m d : Z) : Z :=
  let y' := if m <=? 2 then y - 1 else y in
  let era := y' / 400 in
  let yoe := y' - era * 400 in
  let doy := (153 * (if m <=? 2 then m + 9 else m - 3) + 2) / 5 + d - 1 in
  let doe := yoe * 365 + yoe / 4 - yoe / 100 + doy in
  era * 146097 + doe - 719468.

Definition field (s : string) (pos len : nat) : option Z :=
  number (substring pos len s).

Definition char_at (s : string) (pos : nat) (c : ascii) : bool :=
  match get pos s with
  | Some x => Ascii.eqb x c
  | None => false
  end.

(** Microseconds of a fraction of a second given by its digits. *)
Definition micros_of (frac : string) : option Z :=
  let k := String.length frac in
  if (1 <=? k)%nat && (k <=? 6)%nat then
    match digits_value frac 0 with
    | Some f => Some (f * 10 ^ Z.of_nat (6 - k))
    | None => None
    end
  else None.

(** The part after the seconds: an optional fraction, then [Z] or [+00:00]
    or nothing.  The result is the microseconds of the fraction and
    whether there is an offset. *)
Definition fraction_and_zone (rest : string) : option (Z * bool) :=
  let zone_ok (z : string) := String.eqb z "Z" || String.eqb z "+00:00" in
  let fraction (frac : string) (offset : bool) :=
    match micros_of frac with
    | Some us => Some (us, offset)
    | None => None
    end in
  match rest with
  | EmptyString => Some (0, false)
  | String "."%char rest' =>
      match split_at "Z"%char rest', split_at "+"%char rest' with
      | (frac, Some EmptyString), _ => fraction frac true
      | _, (frac, Some "00:00") => fraction frac true
      | (frac, None), (_, None) => fraction frac false
      | _, _ => None
      end
  | _ => if zone_ok rest then Some (0, true) else None
  end.

(** The characters of the timestamps read here. *)
Definition timestamp_char (c : ascii) : bool :=
  match digit_of c with
  | Some _ => true
  | None => existsb (Ascii.eqb c) (list_ascii_of_string "-T:.Z+")
  end.

Fixpoint all_chars (f : ascii -> bool) (s : string) : bool :=
  match s with
  | EmptyString => true
  | String c s' => f c && all_chars f s'
  end.

(** [datetime.fromisoformat] on [YYYY-MM-DDTHH:MM:SS[.f]], followed by [Z]
    or [+00:00] (an aware datetime: microseconds since
    1970-01-01T00:00:00Z) or by nothing (a naive one: microseconds of the
    reading since 1970-01-01T00:00:00). *)
Definition fromisoformat (s : string) : option datetime :=
  if negb (all_chars timestamp_char s) then None else
  match field s 0 4, field s 5 2, field s 8 2,
        field s 11 2, field s 14 2, field s 17 2,
        fraction_and_zone (substring 19 (String.length s - 19) s) with
  | Some y, Some m, Some d, Some hh, Some mm, Some ss, Some (us, offset) =>
      if char_at s 4 "-" && char_at s 7 "-" && char_at s 10 "T"
         && char_at s 13 ":" && char_at s 16 ":"
         && (1 <=? y) && (1 <=? m) && (m <=? 12)
         && (1 <=? d) && (d <=? days_in_month y m)
         && (hh <=? 23) && (mm <=? 59) && (ss <=? 59)
      then
        let t := (((days_from_civil y m d * 24 + hh) * 60 + mm) * 60 + ss)
                 * 1000000 + us in
        Some (if offset then Aware t else Naive t)
      else None
  | _, _, _, _, _, _, _ => None
  end.

(** Patterns: a sequence of items, each a plain character or [.], with or
    without a [*] after it. *)
Inductive atom : Type :=
| AnyChar
| Lit (c : ascii).

Definition is_meta (c : ascii) : bool :=
  existsb (Ascii.eqb c)
    (list_ascii_of_string "\^$*+?{}[]|()").

Fixpoint compile (fuel : nat) (p : string) : option (list (atom * bool)) :=
  match fuel, p with
  | _, EmptyString => Some []
  | O, _ => None
  | S fuel', String c p' =>
      if is_meta c then None else
      let a := if Ascii.eqb c "." then AnyChar else Lit c in
      match p' with
      | String "*"%char p'' =>
          match compile fuel' p'' with
          | Some items => Some ((a, true) :: items)
          | None => None
          end
      | _ =>
          match compile fuel' p' with
          | Some items => Some ((a, false) :: items)
          | None => None
          end
      end
  end.

Definition atom_accepts (a : atom) (c : ascii) : bool :=
  match a with
  | AnyChar => negb (Ascii.eqb c "010")
  | Lit x => Ascii.eqb x c
  end.

Fixpoint matches (items : list (atom * bool)) (s : string) : bool :=
  match items with
  | [] => String.eqb s ""
  | (a, false) :: items' =>
      match s with
      | String c s' => atom_accepts a c && matches items' s'
      | EmptyString => false
      end
  | (a, true) :: items' =>
      (fix star (s : string) : bool :=
         matches items' s
         || match s with
            | String c s' => atom_accepts a c && star s'
            | EmptyString => false
            end) s
  end.

(** [re.fullmatch(pattern, s) is not None]; [None] on a pattern outside
    the fragment. *)
Definition re_fullmatch (pattern s : string) : option bool :=
  match compile (String.length pattern) pattern with
  | Some items => Some (matches items s)
  | None => None
  end.

#[export] Instance lib : PyLib :=
  Build_PyLib float str_float fromisoformat re_fullmatch.

End Ref.


(** * Vocabulary of the statements *)

Section Vocabulary.
Context {lib : PyLib}.

(** What [get_job_stats] reads of a row: the fields of a job record. *)
Record JobRecord : Type := mkRecord {
  rec_created_at : string;
  rec_job_name : string;
  rec_run_duration : Q;
  rec_queue_duration : Q;
  rec_runner_description : string
}.

(** A row is well formed when it has the eight columns [get_job_stats]
    indexes and [float] reads its two durations. *)
Definition read_row (row : Row) : option JobRecord :=
  match row with
  | created :: job :: _ :: field3 :: field4 :: description :: _ :: _ :: _ =>
      match float field3, float field4 with
      | Some run, Some queue =>
          Some (mkRecord created job run queue description)
      | _, _ => None
      end
  | _ => None
  end.

(** A record contributes when it has the job name asked for and the
    matcher accepts it. *)
Definition contributes (job_name : string) (runner : Runner)
    (r : JobRecord) : result bool :=
  if String.eqb (rec_job_name r) job_name
  then match_runner (rec_created_at r) (rec_runner_description r) runner
  else Ok false.

(** The store can be scanned for [(job_name, runner)]: every row is well
    formed and the matcher decides every record it is asked about. *)
Definition scannable (job_name : string) (runner : Runner)
    (rows : list Row) : Prop :=
  Forall (fun row => exists r b,
            read_row row = Some r /\ contributes job_name runner r = Ok b)
         rows.

(** The records of the store that contribute, in the order of the store. *)
Fixpoint accepted (job_name : string) (runner : Runner)
    (rows : list Row) : list JobRecord :=
  match rows with
  | [] => []
  | row :: rows' =>
      match read_row row with
      | Some r =>
          match contributes job_name runner r with
          | Ok true => r :: accepted job_name runner rows'
          | _ => accepted job_name runner rows'
          end
      | None => accepted job_name runner rows'
      end
  end.

Definition total_duration (r : JobRecord) : Q :=
  (rec_run_duration r + rec_queue_duration r)%Q.

Definition Qsum (l : list Q) : Q := fold_right Qplus 0%Q l.

(** [m] is the least (greatest) number of [l]. *)
Definition is_min (m : Q) (l : list Q) : Prop :=
  (exists x, In x l /\ x == m)%Q /\ (forall x, In x l -> m <= x)%Q.
Definition is_max (m : Q) (l : list Q) : Prop :=
  (exists x, In x l /\ x == m)%Q /\ (forall x, In x l -> x <= m)%Q.

(** The number of microseconds a datetime is given by. *)
Definition reading (d : datetime) : Z :=
  match d with
  | Aware t => t
  | Naive t => t
  end.

(** A datetime with a UTC offset. *)
Definition aware (d : datetime) : Prop :=
  match d with
  | Aware _ => True
  | Naive _ => False
  end.

(** Two datetimes Python can compare: both aware, or both naive. *)
Definition comparable (a b : datetime) : Prop :=
  match a, b with
  | Aware _, Aware _ => True
  | Naive _, Naive _ => True
  | _, _ => False
  end.

(** The three filters of a matcher on a record created at [created_at]:
    a filter that is not set accepts, and so does an empty pattern.  The
    two bounds are read where [created_at] and the bound are comparable. *)
Definition name_accepts (runner : Runner) (description : string) : bool :=
  match matcher_name runner with
  | None => true
  | Some pattern =>
      String.eqb pattern ""
      || match re_fullmatch pattern description with
         | Some true => true
         | _ => false
         end
  end.

Definition from_accepts (runner : Runner) (created_at : datetime) : bool :=
  match matcher_from runner with
  | None => true
  | Some from => reading from <=? reading created_at
  end.

Definition to_accepts (runner : Runner) (created_at : datetime) : bool :=
  match matcher_to runner with
  | None => true
  | Some to => reading created_at <=? reading to
  end.

(** A row of the store read as a record of job [build] with the given
    durations, which the matcher accepts. *)
Definition build_record (runner : Runner) (row : Row) (run queue : Q) : Prop :=
  exists r,
    read_row row = Some r /\
    rec_job_name r = "build" /\
    (rec_run_duration r == run)%Q /\
    (rec_queue_duration r == queue)%Q /\
    match_runner (rec_created_at r) (rec_runner_description r) runner = Ok true.

(** The instant a text stands for, when it is a timestamp with an
    offset. *)
Definition instant_of (s : string) : option instant :=
  match fromisoformat s with
  | Some (Aware t) => Some t
  | _ => None
  end.

(** The time of a job of the remote list, and of a row of the store. *)
Definition job_time (job : Job.t) : option instant :=
  instant_of (Job.created_at job).

Definition row_time (row : Row) : option instant :=
  match row with
  | created_at :: _ => instant_of created_at
  | [] => None
  end.

(** [a] and [b] have times, in the relation [R]. *)
Definition later_by (R : instant -> instant -> Prop) {A : Type}
    (time : A -> option instant) (a b : A) : Prop :=
  exists t u, time a = Some t /\ time b = Some u /\ R t u.

(** Every element has a time, and the time of an element is in the
    relation [R] with the time of every element after it. *)
Definition ordered_by (R : instant -> instant -> Prop) {A : Type}
    (time : A -> option instant) (l : list A) : Prop :=
  Forall (fun a => exists t, time a = Some t) l /\
  StronglySorted (later_by R time) l.

(** [a] was created at the time of [b] or later (strictly later). *)
Definition not_before {A : Type} (time : A -> option instant) (a b : A)
    : Prop :=
  later_by Z.ge time a b.

Definition after {A : Type} (time : A -> option instant) (a b : A) : Prop :=
  later_by Z.gt time a b.

(** The times do not increase (decrease strictly) along the list. *)
Definition newest_first {A : Type} (time : A -> option instant)
    (l : list A) : Prop :=
  ordered_by Z.ge time l.

Definition strictly_newest_first {A : Type} (time : A -> option instant)
    (l : list A) : Prop :=
  ordered_by Z.gt time l.

(** The invariant of a data file: absent, or ordered by creation time. *)
Definition store_ordered_by (R : instant -> instant -> Prop)
    (csv_data_file : Store) : Prop :=
  match csv_data_file with
  | None => True
  | Some rows => ordered_by R row_time rows
  end.

Definition store_ordered : Store -> Prop := store_ordered_by Z.ge.
Definition store_strictly_ordered : Store -> Prop := store_ordered_by Z.gt.

(** A time in the range of a fetch: not before the cutoff date, and after
    the latest time of the data file when there is one. *)
Definition in_range (cutoff_date : instant)
    (latest_data_cutoff : option instant) (t : instant) : bool :=
  (cutoff_date <=? t)
  && match latest_data_cutoff with
     | Some latest => latest <? t
     | None => true
     end.

(** The rows of the jobs of a list whose time is in range and whose runner
    is known, in the order of the list. *)
Fixpoint kept (cutoff_date : instant) (latest_data_cutoff : option instant)
    (jobs : list Job.t) : list Row :=
  match jobs with
  | [] => []
  | job :: jobs' =>
      match job_time job, job_row job with
      | Some t, Some row =>
          if in_range cutoff_date latest_data_cutoff t
          then row :: kept cutoff_date latest_data_cutoff jobs'
          else kept cutoff_date latest_data_cutoff jobs'
      | _, _ => kept cutoff_date latest_data_cutoff jobs'
      end
  end.

(** [row] is the row of a job of [jobs] whose time is in range. *)
Definition written_from (cutoff_date : instant)
    (latest_data_cutoff : option instant) (jobs : list Job.t) (row : Row)
    : Prop :=
  exists job t,
    In job jobs /\ job_row job = Some row /\ job_time job = Some t /\
    in_range cutoff_date latest_data_cutoff t = true.

(** The locals after the records [rs] were counted, in order. *)
Definition tally (st : locals) (rs : list JobRecord) : locals :=
  fold_left
    (fun st r => count_job st (rec_run_duration r) (rec_queue_duration r))
    rs st.

(** A text without carriage return, and rows whose fields are such texts:
    what the copy in text mode leaves as it is. *)
Fixpoint no_carriage_return (s : string) : bool :=
  match s with
  | EmptyString => true
  | String c s' => negb (Ascii.eqb c "013") && no_carriage_return s'
  end.

Definition plain_row (row : Row) : Prop :=
  Forall (fun field => no_carriage_return field = true) row.

Definition plain_rows (rows : list Row) : Prop := Forall plain_row rows.

End Vocabulary.

(** * Example data *)

Module Examples.

Definition row (created_at job_name duration queued_duration description : string)
    : Row :=
  [created_at; job_name; "success"; duration; queued_duration; description;
   "10.0.0.7"; "instance_type"; "docker,linux";
   "https://gitlab.example/group/project/-/jobs/1"].

(** Three jobs [build] and one job [test], newest first. *)
Definition build1 : Row :=
  row "2024-03-03T09:00:00.000Z" "build" "10.0" "2.0" "shared-1".
Definition build2 : Row :=
  row "2024-03-02T09:00:00.000Z" "build" "20.0" "3.0" "shared-2".
Definition build3 : Row :=
  row "2024-03-01T09:00:00.000Z" "build" "30.0" "1.0" "shared-1".
Definition test1 : Row :=
  row "2024-02-28T09:00:00.000Z" "test" "7.5" "0.5" "private-1".

Definition store : list Row := [build1; build2; build3; test1].

(** A matcher on the name and on a window whose ends are the times of
    [build3] and [build1]. *)
Definition shared_runner : Runner :=
  mkRunner "shared" (Some "shared-.*")
           (Some (Aware 1709283600000000)) (Some (Aware 1709456400000000)).

(** A matcher with no filter, one with an empty pattern. *)
Definition any_runner : Runner := mkRunner "any" None None None.
Definition empty_pattern_runner : Runner := mkRunner "empty" (Some "") None None.

(** A matcher whose lower bound was written without offset in the
    configuration, [2024-03-01T00:00:00], and one whose pattern does not
    compile. *)
Definition march_runner : Runner :=
  mkRunner "march" None (Some (Naive 1709251200000000)) None.
Definition broken_runner : Runner := mkRunner "broken" (Some "(") None None.

(** A job that ran for 20000000 seconds. *)
Definition long_build : Row :=
  row "2024-03-03T09:00:00.000Z" "build" "20000000.0" "5.0" "shared-1".

(** A row cut after its first column, and one whose duration is no
    number. *)
Definition one_column_row : Row := ["2024-03-02T09:00:00.000Z"].
Definition bad_duration_row : Row :=
  row "2024-03-02T09:00:00.000Z" "build" "None" "3.0" "shared-2".

(** A job [build] whose runner description has two lines, ended the way
    of a Windows host ([\r\n]) and the way of an old Mac ([\r]), and the
    same job with the description ended by [\n]. *)
Definition two_lines (newline : string) : Row :=
  row "2024-03-03T09:00:00.000Z" "build" "10.0" "2.0"
      ("shared-1" ++ newline ++ "rack 2").

Definition crlf_build : Row :=
  two_lines (String "013" (String "010" EmptyString)).
Definition cr_build : Row := two_lines (String "013" EmptyString).
Definition lf_build : Row := two_lines (String "010" EmptyString).

(** Jobs of the remote list.  The runner of [orphan_job] is not known to
    the API any more. *)
Definition shared1 : list (string * string) :=
  [("id", "7"); ("description", "shared-1"); ("ip_address", "10.0.0.7");
   ("runner_type", "instance_type")].

Definition job (created_at status : string)
    (runner : option (list (string * string))) : Job.t :=
  Job.mk created_at "build" status 10 2 runner ["docker"; "linux"]
         "https://gitlab.example/group/project/-/jobs/1".

Definition job5 : Job.t := job "2024-03-05T09:00:00.000Z" "success" (Some shared1).
Definition orphan_job : Job.t := job "2024-03-04T09:00:00.000Z" "success" None.
Definition job3 : Job.t := job "2024-03-03T09:00:00.000Z" "success" (Some shared1).
Definition job2 : Job.t := job "2024-03-02T09:00:00.000Z" "success" (Some shared1).
Definition old_job : Job.t := job "2024-02-20T09:00:00.000Z" "success" (Some shared1).

(** A job whose runner has the description of two lines of
    [crlf_build]. *)
Definition two_line_job : Job.t :=
  job "2024-03-03T09:00:00.000Z" "success"
      (Some [("description",
              "shared-1" ++ String "013" (String "010" "rack 2"));
             ("ip_address", "10.0.0.7"); ("runner_type", "instance_type")]).

Definition remote : list Job.t := [job5; orphan_job; job3; job2; old_job].
Definition remote_later : list Job.t := [job5; job3; job2; old_job].
Definition remote_before : list Job.t := [job3; job2; old_job].

End Examples.

(** * The configuration (config_parser.py) *)

(** [datetime.date]: the days of the proleptic Gregorian calendar from
    0001-01-01 to 9999-12-31, with the operations [load_config] uses. *)
Module Date.

Record t : Type := mk {
  year : Z;
  month : Z;
  day : Z
}.

Definition valid (d : t) : Prop :=
  1 <= year d <= 9999 /\ 1 <= month d <= 12 /\
  1 <= day d <= Ref.days_in_month (year d) (month d).

(** [d.toordinal()]: 0001-01-01 is day 1. *)
Definition toordinal (d : t) : Z :=
  Ref.days_from_civil (year d) (month d) (day d) + 719163.

(** [date.fromordinal(n)] *)
Definition fromordinal (n : Z) : t :=
  let z := n - 719163 + 719468 in
  let era := z / 146097 in
  let doe := z - era * 146097 in
  let yoe := (doe - doe / 1460 + doe / 36524 - doe / 146096) / 365 in
  let doy := doe - (365 * yoe + yoe / 4 - yoe / 100) in
  let mp := (5 * doy + 2) / 153 in
  let d := doy - (153 * mp + 2) / 5 + 1 in
  let m := if mp <? 10 then mp + 3 else mp - 9 in
  mk (yoe + era * 400 + (if m <=? 2 then 1 else 0)) m d.

(** [d.replace(day=n)] *)
Definition replace_day (d : t) (n : Z) : t := mk (year d) (month d) n.

(** [d - datetime.timedelta(days=k)]; [None] is the [OverflowError] of a
    date before 0001-01-01. *)
Definition sub_days (d : t) (k : Z) : option t :=
  let n := toordinal d - k in
  if n <? 1 then None else Some (fromordinal n).

Definition pad2 (n : Z) : string :=
  if n <? 10 then "0" ++ Ref.str_nat n else Ref.str_nat n.

(** [%Y], with four digits as the documentation of [strftime] gives it
    (the C library may drop the leading zeros of a year below 1000). *)
Definition pad4 (n : Z) : string :=
  if n <? 10 then "000" ++ Ref.str_nat n
  else if n <? 100 then "00" ++ Ref.str_nat n
  else if n <? 1000 then "0" ++ Ref.str_nat n
  else Ref.str_nat n.

(** [d.strftime("%Y-%m-01")] *)
Definition strftime_Y_m_01 (d : t) : string :=
  pad4 (year d) ++ "-" ++ pad2 (month d) ++ "-01".

End Date.

(** The tables of the configuration file as [tomllib.load] gives them,
    with the keys [load_config] reads; [None] is a key that is absent.
    The [name] of a runner and the [path] of a repository are taken as
    present. *)
Record FilterTable : Type := mkFilterTable {
  name_match_pattern : option string;
  from_datetime : option string;
  to_datetime : option string
}.

Record RunnerTable : Type := mkRunnerTable {
  table_name : string;
  table_filters : option (list FilterTable)
}.

Record RepoTable : Type := mkRepoTable {
  table_gitlab_instance : option string;
  table_auth_token_env_var : option string;
  table_path : string
}.

Record ConfigData : Type := mkConfigData {
  data_since : option string;
  data_repos : option (list RepoTable);
  data_runners : option (list RunnerTable)
}.

Record Repo : Type := mkRepo {
  gitlab_instance : string;
  auth_token_env_var : string;
  path : string
}.

Record Config : Type := mkConfig {
  repos : list Repo;
  measure_since : string;
  runners : list Runner
}.

Inductive load_exn : Type :=
| LoadOverflowError   (* the date before 0001-01-01 *)
| LoadValueError.     (* fromisoformat on a text it refuses *)

(** [d.get(key, default)] on a key that may be absent. *)
Definition get_default {A : Type} (o : option A) (default : A) : A :=
  match o with
  | Some a => a
  | None => default
  end.

Section Config.
Context {lib : PyLib}.

(** Lines 39-49. *)
Definition load_repo (repo : RepoTable) : Repo :=
  mkRepo (get_default (table_gitlab_instance repo) "https://gitlab.com")
         (get_default (table_auth_token_env_var repo) "GITLAB_TOKEN")
         (table_path repo).

(** Lines 62-65: a timestamp of a filter, parsed when it is a text that is
    not empty. *)
Definition load_timestamp (timestamp : option string)
    : load_exn + option datetime :=
  if truthy_str timestamp then
    match timestamp with
    | Some text =>
        match fromisoformat text with
        | Some t => inr (Some t)
        | None => inl LoadValueError
        end
    | None => inr None
    end
  else inr None.

(** Lines 53-75: the loop over the filters ends after its first turn. *)
Definition load_runner (runner : RunnerTable) : load_exn + Runner :=
  match get_default (table_filters runner) [] with
  | [] => inr (mkRunner (table_name runner) None None None)
  | runner_filter :: _ =>
      match load_timestamp (from_datetime runner_filter) with
      | inl e => inl e
      | inr matcher_from =>
          match load_timestamp (to_datetime runner_filter) with
          | inl e => inl e
          | inr matcher_to =>
              inr (mkRunner (table_name runner)
                            (name_match_pattern runner_filter)
                            matcher_from matcher_to)
          end
      end
  end.

Fixpoint load_runners (tables : list RunnerTable) : load_exn + list Runner :=
  match tables with
  | [] => inr []
  | table :: tables' =>
      match load_runner table with
      | inl e => inl e
      | inr runner =>
          match load_runners tables' with
          | inl e => inl e
          | inr runners => inr (runner :: runners)
          end
      end
  end.

(** [load_config], from the parsed file and the date of the day. *)
Definition load_config (today : Date.t) (data : ConfigData)
    : load_exn + Config :=
  match Date.sub_days (Date.replace_day today 1) 1 with
  | None => inl LoadOverflowError
  | Some last_month =>
      let measure_since :=
        get_default (data_since data) (Date.strftime_Y_m_01 last_month) in
      let repo_configs := map load_repo (get_default (data_repos data) []) in
      match load_runners (get_default (data_runners data) []) with
      | inl e => inl e
      | inr runners_configs =>
          inr (mkConfig repo_configs measure_since runners_configs)
      end
  end.

End Config.

(** * The program (main.py) and the report (reports.py) *)

(** A Python [dict] with text keys: its items in insertion order.  Setting
    a key that is present keeps its place. *)
Fixpoint dset {V : Type} (d : list (string * V)) (key : string) (v : V)
    : list (string * V) :=
  match d with
  | [] => [(key, v)]
  | (k, w) :: d' =>
      if String.eqb k key then (key, v) :: d' else (k, w) :: dset d' key v
  end.

(** [d[key]]; [None] is the [KeyError]. *)
Fixpoint dfind {V : Type} (d : list (string * V)) (key : string) : option V :=
  match d with
  | [] => None
  | (k, w) :: d' => if String.eqb k key then Some w else dfind d' key
  end.

(** [runner_stats]: repository path, then job name, then runner name. *)
Definition RunnerDict := list (string * JobDurationStats).
Definition JobDict := list (string * RunnerDict).
Definition RunnerStats := list (string * JobDict).

(** The data files of the projects, by the path of the repository. *)
Definition Files := list (string * list Row).

(** A cell of a table given to [tabulate]. *)
Inductive cell : Type :=
| CellText (s : string)
| CellNumber (q : Q).

(** [round(x, 2)] and [tabulate(rows, headers=.., floatfmt=".2f",
    tablefmt="html")]. *)
Class PyReport : Type := {
  round2 : Q -> Q;
  tabulate : list (list cell) -> list string -> string
}.

Inductive main_exn : Type :=
| UnboundLocalError   (* a local variable read before any assignment *)
| KeyError
| Raised (e : exn).

Definition lift {A : Type} (r : result A) : main_exn + A :=
  match r with
  | Ok a => inr a
  | Raise e => inl (Raised e)
  end.

Definition mbind {A B : Type} (r : main_exn + A) (k : A -> main_exn + B)
    : main_exn + B :=
  match r with
  | inr a => k a
  | inl e => inl e
  end.

Notation "x <-- c ;; k" := (mbind c (fun x => k))
  (at level 61, c at next level, right associativity).

Definition html_top : string :=
"<html>
<head>
    <!-- Thanks to https://dev.to/dcodeyt/creating-beautiful-html-tables-with-css-428l -->
    <style>
        h1 {
            font-family: sans-serif;
        }

        table {
            border-collapse: collapse;
            margin: 25px 0;
            font-size: 0.9em;
            font-family: sans-serif;
            min-width: 400px;
            box-shadow: 0 0 20px rgba(0, 0, 0, 0.15);
        }

        table thead tr {
            background-color: #009879;
            color: #ffffff;
            text-align: left;
        }

        table th,
        table td {
            padding: 12px 15px;
        }

        table tbody tr {
            border-bottom: 1px solid #dddddd;
        }

        table tbody tr:nth-of-type(even) {
            background-color: #f3f3f3;
        }

        table tbody tr:last-of-type {
            border-bottom: 2px solid #009879;
        }
        table tbody tr.active-row {
            font-weight: bold;
            color: #009879;
        }
    </style>
</head>
<body>".

Definition html_bottom : string :=
"</body>
</html>".

Section Program.
Context {lib : PyLib} {report : PyReport}.

(** ** make_html_table (reports.py, lines 5-92) *)

(** Lines 66-70: the headers come from the first job. *)
Definition table_headers (jobs : JobDict) : list string :=
  "Job" :: match jobs with
           | [] => []
           | (_, runner_dict) :: _ => map fst runner_dict
           end.

(** Lines 72-82: one row for each job, one cell for each runner. *)
Definition table_rows (field : JobDurationStats -> Q) (jobs : JobDict)
    : list (list cell) :=
  map (fun job =>
         CellText (fst job)
         :: map (fun runner => CellNumber (field (snd runner))) (snd job))
      jobs.

(** Lines 83-88. *)
Definition repo_html (repo : string * JobDict) : string :=
  let headers := table_headers (snd repo) in
  "<h1>" ++ fst repo
    ++ " (Average Total Duration aka Run Time + Queue Time)</h1>"
    ++ tabulate (table_rows total_duration_avg (snd repo)) headers
    ++ "<h1>" ++ fst repo ++ " (Average Queue Time)</h1>"
    ++ tabulate (table_rows queue_duration_avg (snd repo)) headers
    ++ "<h1>" ++ fst repo ++ " (Average Run Time)</h1>"
    ++ tabulate (table_rows runtime_duration_avg (snd repo)) headers.

(** The text written to [runner_statistics.html]. *)
Definition make_html_table (runner_stats : RunnerStats) : string :=
  html_top ++ String.concat "" (map repo_html runner_stats) ++ html_bottom.

(** ** main (main.py, lines 52-114) *)

(** One fetch of the program: the rows of the data file after it, the
    new rows and then the previous file as the copy in text mode gives
    it.  The loop over the pages has the fuel it needs. *)
Definition run_fetch (remote : list Job.t) (since : string)
    (csv_data_file : Store) : result (list Row) :=
  match fetch_new_rows (S (List.length remote)) remote since csv_data_file with
  | Some (Ok written) => Ok (written ++ previous_content csv_data_file)%list
  | Some (Raise e) => Raise e
  | None => Raise RuntimeError
  end.

(** Lines 72-77: the fetch of every repository.  [remote_of] gives the
    jobs of the project of a path; the data file of a project is named by
    its path. *)
Fixpoint fetch_repos (remote_of : string -> list Job.t) (since : string)
    (repo_list : list Repo) (csv_data_files : list (string * string))
    (files : Files) : main_exn + (list (string * string) * Files) :=
  match repo_list with
  | [] => inr (csv_data_files, files)
  | repo :: repo_list' =>
      rows <-- lift (run_fetch (remote_of (path repo)) since
                               (dfind files (path repo))) ;;
      fetch_repos remote_of since repo_list'
                  (dset csv_data_files (path repo) (path repo))
                  (dset files (path repo) rows)
  end.

(** Lines 93-104: the statistics as written in [runner_stats]. *)
Definition rounded (job_stats : JobDurationStats) : JobDurationStats :=
  mkStats (round2 (runtime_duration_avg job_stats))
          (round2 (runtime_duration_min job_stats))
          (round2 (runtime_duration_max job_stats))
          (round2 (queue_duration_avg job_stats))
          (round2 (queue_duration_min job_stats))
          (round2 (queue_duration_max job_stats))
          (round2 (total_duration_avg job_stats))
          (round2 (total_duration_min job_stats))
          (round2 (total_duration_max job_stats))
          (no_of_jobs job_stats).

(** [runner_stats[repo][job_name] = value] *)
Definition set_job (runner_stats : RunnerStats) (repo job_name : string)
    (value : RunnerDict) : main_exn + RunnerStats :=
  match dfind runner_stats repo with
  | None => inl KeyError
  | Some jobs => inr (dset runner_stats repo (dset jobs job_name value))
  end.

(** [runner_stats[repo][job_name][runner_name] = value] *)
Definition set_runner (runner_stats : RunnerStats)
    (repo job_name runner_name : string) (value : JobDurationStats)
    : main_exn + RunnerStats :=
  match dfind runner_stats repo with
  | None => inl KeyError
  | Some jobs =>
      match dfind jobs job_name with
      | None => inl KeyError
      | Some runner_dict =>
          inr (dset runner_stats repo
                    (dset jobs job_name (dset runner_dict runner_name value)))
      end
  end.

(** Lines 90-105: the loop over the runners. *)
Fixpoint crunch_runners (runner_list : list Runner) (repo job_name : string)
    (csv_data_file : Store) (runner_stats : RunnerStats)
    : main_exn + RunnerStats :=
  match runner_list with
  | [] => inr runner_stats
  | runner :: runner_list' =>
      job_stats <-- lift (get_job_stats job_name runner csv_data_file) ;;
      runner_stats' <-- set_runner runner_stats repo job_name (name runner)
                                   (rounded job_stats) ;;
      crunch_runners runner_list' repo job_name csv_data_file runner_stats'
  end.

(** Lines 87-105: the loop over the job names. *)
Fixpoint crunch_jobs (project_jobs : list string) (runner_list : list Runner)
    (repo : string) (csv_data_file : Store) (runner_stats : RunnerStats)
    : main_exn + RunnerStats :=
  match project_jobs with
  | [] => inr runner_stats
  | job_name :: project_jobs' =>
      runner_stats1 <-- set_job runner_stats repo job_name [] ;;
      runner_stats2 <-- crunch_runners runner_list repo job_name csv_data_file
                                       runner_stats1 ;;
      crunch_jobs project_jobs' runner_list repo csv_data_file runner_stats2
  end.

(** Lines 82-105: the loop over the repositories.  [csv_data_files] is
    [None] as long as the variable has not been assigned. *)
Fixpoint crunch_repos (repo_list : list Repo) (runner_list : list Runner)
    (csv_data_files : option (list (string * string))) (files : Files)
    (runner_stats : RunnerStats) : main_exn + RunnerStats :=
  match repo_list with
  | [] => inr runner_stats
  | repo :: repo_list' =>
      let runner_stats1 := dset runner_stats (path repo) [] in
      match csv_data_files with
      | None => inl UnboundLocalError
      | Some assigned =>
          match dfind assigned (path repo) with
          | None => inl KeyError
          | Some csv_data_file =>
              project_jobs <--
                lift (get_measured_jobs (dfind files csv_data_file)) ;;
              runner_stats2 <--
                crunch_jobs project_jobs runner_list (path repo)
                            (dfind files csv_data_file) runner_stats1 ;;
              crunch_repos repo_list' runner_list csv_data_files files
                           runner_stats2
          end
      end
  end.

(** [main], after the configuration is loaded: what it writes to
    [runner_statistics.json] and to [runner_statistics.html], and the data
    files it leaves. *)
Definition main (no_fetch : bool) (config : Config)
    (remote_of : string -> list Job.t) (files : Files)
    : main_exn + (RunnerStats * string * Files) :=
  fetched <--
    (if no_fetch then inr (None, files)
     else
       r <-- fetch_repos remote_of (measure_since config) (repos config)
                         [] files ;;
       inr (Some (fst r), snd r)) ;;
  runner_stats <--
    crunch_repos (repos config) (runners config) (fst fetched) (snd fetched)
                 [] ;;
  inr (runner_stats, make_html_table runner_stats, snd fetched).

End Program.

(** An instance of [round] and of [tabulate] to run the program on
    examples: rounding to the nearest hundredth, the even one on a tie,
    and a table of plain cells. *)
Module RefReport.

Definition round2 (q : Q) : Q :=
  let scaled := (q * 100)%Q in
  let lower := Qfloor scaled in
  let rest := (scaled - inject_Z lower)%Q in
  let nearest :=
    match Qcompare rest (1 # 2) with
    | Lt => lower
    | Gt => lower + 1
    | Eq => if Z.even lower then lower else lower + 1
    end in
  Qmake nearest 100.

Definition cell_text (c : cell) : string :=
  match c with
  | CellText s => s
  | CellNumber q => Ref.str_float q
  end.

Definition table_row (tag : string) (cells : list string) : string :=
  "<tr>" ++ String.concat "" (map (fun c => "<" ++ tag ++ ">" ++ c
                                            ++ "</" ++ tag ++ ">") cells)
         ++ "</tr>".

Definition tabulate (rows : list (list cell)) (headers : list string)
    : string :=
  "<table>" ++ table_row "th" headers
    ++ String.concat "" (map (fun r => table_row "td" (map cell_text r)) rows)
    ++ "</table>".

#[export] Instance report : PyReport := Build_PyReport round2 tabulate.

End RefReport.

(** A configuration and a remote list to run the program on. *)
Module ProgramExample.

Definition config : Config :=
  mkConfig [mkRepo "https://gitlab.com" "GITLAB_TOKEN" "group/project"]
           "2024-03-01"
           [Examples.shared_runner; Examples.any_runner;
            mkRunner "shared" None None None].

Definition remote_of (_ : string) : list Job.t := Examples.remote.

End ProgramExample.

(** * Vocabulary of the further statements *)

Section MoreVocabulary.
Context {lib : PyLib}.

(** The order of [sorted] on texts. *)
Definition str_lt (s1 s2 : string) : Prop := String.compare s1 s2 = Lt.

(** The job name of a row of the store: its second column. *)
Definition job_name_of (row : Row) : option string := nth_error row 1.

Definition has_job_name (job_name : string) (row : Row) : bool :=
  match job_name_of row with
  | Some n => String.eqb n job_name
  | None => false
  end.

(** A row that is well formed and whose [created_at] is a timestamp. *)
Definition dated_row (row : Row) : Prop :=
  exists r t, read_row row = Some r /\ fromisoformat (rec_created_at r) = Some t.

(** The sum of [f] over a list of names. *)
Definition Zsum (f : string -> Z) (names : list string) : Z :=
  fold_right (fun x acc => f x + acc) 0 names.

(** The jobs of a list before the first one whose time is out of range
    (or is no time). *)
Fixpoint in_range_prefix (cutoff_date : instant)
    (latest_data_cutoff : option instant) (jobs : list Job.t)
    : list Job.t :=
  match jobs with
  | [] => []
  | job :: jobs' =>
      match job_time job with
      | Some t =>
          if in_range cutoff_date latest_data_cutoff t
          then job :: in_range_prefix cutoff_date latest_data_cutoff jobs'
          else []
      | None => []
      end
  end.

(** [float] reads the text [str] gives for [q] as the number [q]. *)
Definition float_reads_back (q : Q) : Prop :=
  exists q', float (str_float q) = Some q' /\ (q' == q)%Q.

(** The month before the month [m] of the year [y]. *)
Definition previous_month (y m : Z) : Z * Z :=
  if m =? 1 then (y - 1, 12) else (y, m - 1).

(** The day before the first of the month is the last day of the month
    before. *)
Definition last_month_ok (y m : Z) : bool :=
  match Date.sub_days (Date.mk y m 1) 1 with
  | Some d =>
      let (y', m') := previous_month y m in
      (Date.year d =? y') && (Date.month d =? m')
      && (Date.day d =? Ref.days_in_month y' m')
  | None => false
  end.

(** The [n] integers from [lo] on. *)
Fixpoint Zrange (lo : Z) (n : nat) : list Z :=
  match n with
  | O => []
  | S n' => lo :: Zrange (lo + 1) n'
  end.

(** A runner table whose first filter, if any, sets no pattern and no
    timestamp (or sets them to the empty text). *)
Definition no_filter (table : RunnerTable) : Prop :=
  match get_default (table_filters table) [] with
  | [] => True
  | runner_filter :: _ =>
      truthy_str (name_match_pattern runner_filter) = false /\
      truthy_str (from_datetime runner_filter) = false /\
      truthy_str (to_datetime runner_filter) = false
  end.

(** The keys of a dictionary after a key is set, and after the keys of a
    list are set one after the other in an empty dictionary: the keys of
    the list without repeats, in the order of their first occurrence. *)
Definition add_key (keys : list string) (key : string) : list string :=
  if existsb (String.eqb key) keys then keys else (keys ++ [key])%list.

Definition distinct_keys (keys : list string) : list string :=
  fold_left add_key keys [].

End MoreVocabulary.

Section ProgramVocabulary.
Context {lib : PyLib} {report : PyReport}.

(** The dictionary of a job after the loop over the runners, from [d]. *)
Fixpoint runner_dict (runner_list : list Runner) (job_name : string)
    (csv_data_file : Store) (d : RunnerDict) : main_exn + RunnerDict :=
  match runner_list with
  | [] => inr d
  | runner :: runner_list' =>
      job_stats <-- lift (get_job_stats job_name runner csv_data_file) ;;
      runner_dict runner_list' job_name csv_data_file
                  (dset d (name runner) (rounded job_stats))
  end.

(** The dictionary of a repository after the loop over the job names. *)
Fixpoint job_dict (project_jobs : list string) (runner_list : list Runner)
    (csv_data_file : Store) (jobs : JobDict) : main_exn + JobDict :=
  match project_jobs with
  | [] => inr jobs
  | job_name :: project_jobs' =>
      d <-- runner_dict runner_list job_name csv_data_file [] ;;
      job_dict project_jobs' runner_list csv_data_file (dset jobs job_name d)
  end.

End ProgramVocabulary.

(** * Properties of the aggregation *)

Section Aggregation.
Context {lib : PyLib}.

Lemma Qltb_lt (x y : Q) : Qltb x y = true <-> (x < y)%Q.
Proof.
  unfold Qltb. rewrite negb_true_iff. split; intro H.
  - apply Qnot_le_lt. intro Hle. apply Qle_bool_iff in Hle. congruence.
  - destruct (Qle_bool y x) eqn:E; [|reflexivity].
    apply Qle_bool_iff in E. exfalso. exact (Qlt_not_le _ _ H E).
Qed.

Lemma Qltb_ge (x y : Q) : Qltb x y = false <-> (y <= x)%Q.
Proof.
  unfold Qltb. rewrite negb_false_iff. apply Qle_bool_iff.
Qed.

(** The turn of the loop on a well-formed row. *)
Lemma stats_row_read job_name runner st row r :
  read_row row = Some r ->
  stats_row job_name runner st row =
    (b <- contributes job_name runner r ;;
     Ok (if b then count_job st (rec_run_duration r) (rec_queue_duration r)
         else st)).
Proof.
  intro H. unfold read_row in H.
  do 8 (destruct row as [|? row]; [discriminate|]).
  destruct (float s2) as [run|] eqn:E3; [|discriminate].
  destruct (float s3) as [queue|] eqn:E4; [|discriminate].
  injection H as <-.
  unfold stats_row, contributes, index, to_float. cbn.
  rewrite E3, E4. cbn.
  destruct (String.eqb s0 job_name); cbn; [|reflexivity].
  destruct (match_runner s s4 runner) as [[|]|]; reflexivity.
Qed.

(** The turn of the loop on a malformed row raises. *)
Lemma stats_row_malformed job_name runner st row :
  read_row row = None ->
  stats_row job_name runner st row = Raise IndexError \/
  stats_row job_name runner st row = Raise ValueError.
Proof.
  intro H. unfold read_row in H. unfold stats_row, index, to_float.
  do 3 (destruct row as [|? row]; [left; reflexivity|]).
  destruct row as [|f3 row]; [left; reflexivity|]. cbn.
  destruct (float f3) as [run|] eqn:E3; [|right; reflexivity].
  destruct row as [|f4 row]; [left; reflexivity|]. cbn.
  destruct (float f4) as [queue|] eqn:E4; [|right; reflexivity].
  do 3 (destruct row as [|? row]; [left; reflexivity|]).
  discriminate.
Qed.

Lemma tally_cons st r rs :
  tally st (r :: rs) =
  tally (count_job st (rec_run_duration r) (rec_queue_duration r)) rs.
Proof. reflexivity. Qed.

Lemma stats_rows_scannable job_name runner rows :
  scannable job_name runner rows ->
  forall st,
    stats_rows job_name runner st rows =
      Ok (tally st (accepted job_name runner rows)).
Proof.
  induction 1 as [|row rows (r & b & Hr & Hb) _ IH]; intro st.
  - reflexivity.
  - cbn [stats_rows accepted]. rewrite (stats_row_read _ _ _ _ _ Hr).
    rewrite Hr, Hb. cbn [bind]. destruct b; [rewrite tally_cons|]; apply IH.
Qed.

Lemma stats_rows_malformed job_name runner rows :
  Exists (fun row => read_row row = None) rows ->
  forall st, exists e, stats_rows job_name runner st rows = Raise e.
Proof.
  induction 1 as [row rows H | row rows _ IH]; intro st; cbn [stats_rows].
  - destruct (stats_row_malformed job_name runner st row H) as [-> | ->];
      eexists; reflexivity.
  - destruct (stats_row job_name runner st row) as [st'|e]; cbn [bind].
    + apply IH.
    + eexists; reflexivity.
Qed.

Lemma tally_count st rs :
  cur_no_of_jobs (tally st rs) = cur_no_of_jobs st + Z.of_nat (List.length rs).
Proof.
  revert st. induction rs as [|r rs IH]; intro st.
  - cbn. lia.
  - rewrite tally_cons, IH. cbn [count_job cur_no_of_jobs List.length]. lia.
Qed.

(** A sum of the locals grows by the quantity [f] of each record. *)
Lemma tally_sum (g : locals -> Q) (f : JobRecord -> Q) :
  (forall st r,
     g (count_job st (rec_run_duration r) (rec_queue_duration r))
     = (g st + f r)%Q) ->
  forall rs st, (g (tally st rs) == g st + Qsum (map f rs))%Q.
Proof.
  intros Hg. induction rs as [|r rs IH]; intro st.
  - cbn. ring.
  - rewrite tally_cons, IH, Hg. cbn [map Qsum fold_right].
    fold (Qsum (map f rs)). ring.
Qed.

(** A running minimum of the locals is the least of its first value and
    the quantity [f] of each record. *)
Lemma tally_min (g : locals -> Q) (f : JobRecord -> Q) :
  (forall st r,
     g (count_job st (rec_run_duration r) (rec_queue_duration r))
     = if Qltb (f r) (g st) then f r else g st) ->
  forall rs st, is_min (g (tally st rs)) (g st :: map f rs).
Proof.
  intros Hg. induction rs as [|r rs IH]; intro st.
  - split.
    + exists (g st). split; [left; reflexivity | reflexivity].
    + intros x [<-|[]]. apply Qle_refl.
  - rewrite tally_cons. cbn [map].
    destruct (IH (count_job st (rec_run_duration r) (rec_queue_duration r)))
      as [(x & Hin & Hx) Hle].
    rewrite Hg in Hin, Hle.
    set (m := g (tally _ rs)) in *.
    destruct (Qltb (f r) (g st)) eqn:E.
    + apply Qltb_lt in E. split.
      * exists x. split; [|exact Hx].
        destruct Hin as [<-|Hin];
          [right; left; reflexivity | right; right; exact Hin].
      * intros y [<-|[<-|Hy]].
        -- apply Qle_trans with (f r); [apply Hle; left; reflexivity|].
           apply Qlt_le_weak, E.
        -- apply Hle; left; reflexivity.
        -- apply Hle; right; exact Hy.
    + apply Qltb_ge in E. split.
      * exists x. split; [|exact Hx].
        destruct Hin as [<-|Hin];
          [left; reflexivity | right; right; exact Hin].
      * intros y [<-|[<-|Hy]].
        -- apply Hle; left; reflexivity.
        -- apply Qle_trans with (g st);
             [apply Hle; left; reflexivity | exact E].
        -- apply Hle; right; exact Hy.
Qed.

Lemma tally_max (g : locals -> Q) (f : JobRecord -> Q) :
  (forall st r,
     g (count_job st (rec_run_duration r) (rec_queue_duration r))
     = if Qltb (g st) (f r) then f r else g st) ->
  forall rs st, is_max (g (tally st rs)) (g st :: map f rs).
Proof.
  intros Hg. induction rs as [|r rs IH]; intro st.
  - split.
    + exists (g st). split; [left; reflexivity | reflexivity].
    + intros x [<-|[]]. apply Qle_refl.
  - rewrite tally_cons. cbn [map].
    destruct (IH (count_job st (rec_run_duration r) (rec_queue_duration r)))
      as [(x & Hin & Hx) Hle].
    rewrite Hg in Hin, Hle.
    set (m := g (tally _ rs)) in *.
    destruct (Qltb (g st) (f r)) eqn:E.
    + apply Qltb_lt in E. split.
      * exists x. split; [|exact Hx].
        destruct Hin as [<-|Hin];
          [right; left; reflexivity | right; right; exact Hin].
      * intros y [<-|[<-|Hy]].
        -- apply Qle_trans with (f r); [|apply Hle; left; reflexivity].
           apply Qlt_le_weak, E.
        -- apply Hle; left; reflexivity.
        -- apply Hle; right; exact Hy.
    + apply Qltb_ge in E. split.
      * exists x. split; [|exact Hx].
        destruct Hin as [<-|Hin];
          [left; reflexivity | right; right; exact Hin].
      * intros y [<-|[<-|Hy]].
        -- apply Hle; left; reflexivity.
        -- apply Qle_trans with (g st);
             [exact E | apply Hle; left; reflexivity].
        -- apply Hle; right; exact Hy.
Qed.

Lemma tally_total st rs :
  (total_job_duration st == total_runtime_duration st + total_queue_duration st)%Q ->
  (total_job_duration (tally st rs)
   == total_runtime_duration (tally st rs) + total_queue_duration (tally st rs))%Q.
Proof.
  revert st. induction rs as [|r rs IH]; intros st H; [exact H|].
  rewrite tally_cons. apply IH. cbn. rewrite H. ring.
Qed.

Lemma get_job_stats_scannable job_name runner rows :
  scannable job_name runner rows ->
  get_job_stats job_name runner (Some rows) =
    Ok (finish (tally initial_locals (accepted job_name runner rows))).
Proof.
  intro H. unfold get_job_stats.
  rewrite (stats_rows_scannable _ _ _ H). reflexivity.
Qed.

Lemma finish_counted st :
  0 < cur_no_of_jobs st ->
  finish st =
    mkStats (total_runtime_duration st / inject_Z (cur_no_of_jobs st))%Q
            (cur_runtime_duration_min st) (cur_runtime_duration_max st)
            (total_queue_duration st / inject_Z (cur_no_of_jobs st))%Q
            (cur_queue_duration_min st) (cur_queue_duration_max st)
            (total_job_duration st / inject_Z (cur_no_of_jobs st))%Q
            (cur_total_duration_min st) (cur_total_duration_max st)
            (cur_no_of_jobs st).
Proof.
  intro H. unfold finish.
  destruct (Z.leb_spec (cur_no_of_jobs st) 0); [lia | reflexivity].
Qed.

Lemma tally_initial_count rs :
  cur_no_of_jobs (tally initial_locals rs) = Z.of_nat (List.length rs).
Proof. rewrite tally_count. reflexivity. Qed.

Lemma is_min_unique m m' l : is_min m l -> is_min m' l -> (m == m')%Q.
Proof.
  intros [(x & Hx & Ex) Hm] [(y & Hy & Ey) Hm'].
  apply Qle_antisym.
  - rewrite <- Ey. apply Hm, Hy.
  - rewrite <- Ex. apply Hm', Hx.
Qed.

Lemma is_max_unique m m' l : is_max m l -> is_max m' l -> (m == m')%Q.
Proof.
  intros [(x & Hx & Ex) Hm] [(y & Hy & Ey) Hm'].
  apply Qle_antisym.
  - rewrite <- Ex. apply Hm', Hx.
  - rewrite <- Ey. apply Hm, Hy.
Qed.

(** The first value of a running minimum does not count when some
    quantity is not above it. *)
Lemma is_min_drop_sentinel m s l :
  is_min m (s :: l) -> (exists x, In x l /\ x <= s)%Q -> is_min m l.
Proof.
  intros [(x & [<-|Hx] & Ex) Hm] (y & Hy & Hys); split.
  - exists y. split; [exact Hy|]. apply Qle_antisym.
    + rewrite <- Ex. exact Hys.
    + apply Hm. right. exact Hy.
  - intros z Hz. apply Hm. right. exact Hz.
  - exists x. split; assumption.
  - intros z Hz. apply Hm. right. exact Hz.
Qed.

Lemma is_max_drop_sentinel m s l :
  is_max m (s :: l) -> (exists x, In x l /\ s <= x)%Q -> is_max m l.
Proof.
  intros [(x & [<-|Hx] & Ex) Hm] (y & Hy & Hys); split.
  - exists y. split; [exact Hy|]. apply Qle_antisym.
    + apply Hm. right. exact Hy.
    + rewrite <- Ex. exact Hys.
  - intros z Hz. apply Hm. right. exact Hz.
  - exists x. split; assumption.
  - intros z Hz. apply Hm. right. exact Hz.
Qed.

Lemma Qsum_total rs :
  (Qsum (map total_duration rs)
   == Qsum (map rec_run_duration rs) + Qsum (map rec_queue_duration rs))%Q.
Proof.
  induction rs as [|r rs IH]; cbn [map Qsum fold_right].
  - ring.
  - fold (Qsum (map total_duration rs)) (Qsum (map rec_run_duration rs))
         (Qsum (map rec_queue_duration rs)).
    rewrite IH. unfold total_duration. ring.
Qed.

(** What [get_job_stats] returns when at least one record contributes:
    the count and the three averages are those of the records; each
    maximum is the greatest of 0 and the quantities, each minimum the
    least of 10000000 and the quantities. *)
Lemma get_job_stats_counted job_name runner rows :
  scannable job_name runner rows ->
  accepted job_name runner rows <> [] ->
  exists stats,
    get_job_stats job_name runner (Some rows) = Ok stats /\
    let rs := accepted job_name runner rows in
    let n := inject_Z (Z.of_nat (List.length rs)) in
    no_of_jobs stats = Z.of_nat (List.length rs) /\
    (runtime_duration_avg stats == Qsum (map rec_run_duration rs) / n)%Q /\
    (queue_duration_avg stats == Qsum (map rec_queue_duration rs) / n)%Q /\
    (total_duration_avg stats == Qsum (map total_duration rs) / n)%Q /\
    is_min (runtime_duration_min stats) (10000000%Q :: map rec_run_duration rs) /\
    is_max (runtime_duration_max stats) (0%Q :: map rec_run_duration rs) /\
    is_min (queue_duration_min stats) (10000000%Q :: map rec_queue_duration rs) /\
    is_max (queue_duration_max stats) (0%Q :: map rec_queue_duration rs) /\
    is_min (total_duration_min stats) (10000000%Q :: map total_duration rs) /\
    is_max (total_duration_max stats) (0%Q :: map total_duration rs).
Proof.
  intros Hscan Hne. eexists. split; [apply get_job_stats_scannable, Hscan|].
  set (rs := accepted job_name runner rows) in *.
  assert (Hpos : 0 < cur_no_of_jobs (tally initial_locals rs)).
  { rewrite tally_initial_count. destruct rs; [congruence | cbn; lia]. }
  rewrite (finish_counted _ Hpos). cbn zeta.
  cbn [no_of_jobs runtime_duration_avg queue_duration_avg total_duration_avg
       runtime_duration_min runtime_duration_max queue_duration_min
       queue_duration_max total_duration_min total_duration_max].
  rewrite tally_initial_count.
  repeat split.
  - rewrite (tally_sum total_runtime_duration rec_run_duration)
      by reflexivity.
    cbn [initial_locals total_runtime_duration]. rewrite Qplus_0_l. reflexivity.
  - rewrite (tally_sum total_queue_duration rec_queue_duration)
      by reflexivity.
    cbn [initial_locals total_queue_duration]. rewrite Qplus_0_l. reflexivity.
  - rewrite (tally_sum total_job_duration total_duration) by reflexivity.
    cbn [initial_locals total_job_duration]. rewrite Qplus_0_l. reflexivity.
  - apply (tally_min cur_runtime_duration_min rec_run_duration
             (fun _ _ => eq_refl) rs initial_locals).
  - apply (tally_min cur_runtime_duration_min rec_run_duration
             (fun _ _ => eq_refl) rs initial_locals).
  - apply (tally_max cur_runtime_duration_max rec_run_duration
             (fun _ _ => eq_refl) rs initial_locals).
  - apply (tally_max cur_runtime_duration_max rec_run_duration
             (fun _ _ => eq_refl) rs initial_locals).
  - apply (tally_min cur_queue_duration_min rec_queue_duration
             (fun _ _ => eq_refl) rs initial_locals).
  - apply (tally_min cur_queue_duration_min rec_queue_duration
             (fun _ _ => eq_refl) rs initial_locals).
  - apply (tally_max cur_queue_duration_max rec_queue_duration
             (fun _ _ => eq_refl) rs initial_locals).
  - apply (tally_max cur_queue_duration_max rec_queue_duration
             (fun _ _ => eq_refl) rs initial_locals).
  - apply (tally_min cur_total_duration_min total_duration
             (fun _ _ => eq_refl) rs initial_locals).
  - apply (tally_min cur_total_duration_min total_duration
             (fun _ _ => eq_refl) rs initial_locals).
  - apply (tally_max cur_total_duration_max total_duration
             (fun _ _ => eq_refl) rs initial_locals).
  - apply (tally_max cur_total_duration_max total_duration
             (fun _ _ => eq_refl) rs initial_locals).
Qed.

End Aggregation.

(** * The matcher and the aggregation: statements *)

Section Matcher.
Context {lib : PyLib}.

Lemma compare_comparable test a b :
  comparable a b ->
  compare_datetimes test a b = Ok (test (reading a) (reading b)).
Proof. destruct a, b; cbn; intro H; [reflexivity | destruct H | destruct H | reflexivity]. Qed.

Lemma compare_not_comparable test a b :
  ~ comparable a b -> compare_datetimes test a b = Raise TypeError.
Proof.
  destruct a, b; cbn; intro H;
    [exfalso; apply H; exact I | reflexivity | reflexivity
    | exfalso; apply H; exact I].
Qed.

Lemma compare_ok_comparable test a b v :
  compare_datetimes test a b = Ok v -> comparable a b.
Proof. destruct a, b; cbn; intro H; [exact I | discriminate | discriminate | exact I]. Qed.

(** [match_runner] as one boolean, when nothing raises. *)
Lemma match_runner_value job_created_at description runner created_at :
  fromisoformat job_created_at = Some created_at ->
  (forall pattern, matcher_name runner = Some pattern -> pattern <> "" ->
     re_fullmatch pattern description <> None) ->
  (forall from, matcher_from runner = Some from -> comparable created_at from) ->
  (forall to, matcher_to runner = Some to -> comparable created_at to) ->
  match_runner job_created_at description runner =
    Ok (name_accepts runner description
        && from_accepts runner created_at
        && to_accepts runner created_at).
Proof.
  intros Hc Hp Hfrom Hto.
  unfold match_runner, parse_datetime, truthy_str,
         name_accepts, from_accepts, to_accepts.
  destruct runner as [nm pat from to].
  cbn [matcher_name matcher_from matcher_to] in *.
  assert (Hwin :
    (created_at' <- of_option ValueError (fromisoformat job_created_at) ;;
     too_early <- match from with
                  | Some f => datetime_lt created_at' f
                  | None => Ok false
                  end ;;
     if too_early then Ok false else
     too_late <- match to with
                 | Some t => datetime_gt created_at' t
                 | None => Ok false
                 end ;;
     if too_late then Ok false else Ok true)
    = Ok (match from with
          | Some f => reading f <=? reading created_at
          | None => true
          end
          && match to with
             | Some t => reading created_at <=? reading t
             | None => true
             end)).
  { rewrite Hc. cbn [of_option bind]. unfold datetime_lt, datetime_gt.
    destruct from as [f|];
      [rewrite (compare_comparable _ _ _ (Hfrom f eq_refl)),
               (Z.ltb_antisym (reading f) (reading created_at))|];
      (destruct to as [t|];
       [rewrite (compare_comparable _ _ _ (Hto t eq_refl)),
                (Z.gtb_ltb (reading created_at) (reading t)),
                (Z.ltb_antisym (reading created_at) (reading t))|]);
      cbn [bind];
      repeat match goal with |- context [?a <=? ?b] => destruct (a <=? b) end;
      reflexivity. }
  destruct pat as [p|]; [|cbn [bind orb andb]; exact Hwin].
  destruct (String.eqb_spec p "") as [->|Hne]; cbn [negb bind orb andb];
    [exact Hwin|].
  destruct (re_fullmatch p description) as [[|]|] eqn:Em.
  - cbn [of_option bind negb]. exact Hwin.
  - reflexivity.
  - exfalso. exact (Hp p eq_refl Hne Em).
Qed.

Lemma name_accepts_iff runner description :
  name_accepts runner description = true <->
  (matcher_name runner = None \/ matcher_name runner = Some "" \/
   exists pattern, matcher_name runner = Some pattern /\
                   re_fullmatch pattern description = Some true).
Proof.
  unfold name_accepts. destruct (matcher_name runner) as [p|].
  - rewrite orb_true_iff. split.
    + intros [H|H].
      * apply String.eqb_eq in H. subst p. right; left; reflexivity.
      * right; right. exists p. split; [reflexivity|].
        destruct (re_fullmatch p description) as [[|]|];
          [reflexivity | discriminate | discriminate].
    + intros [H|[H|(q & H & Hq)]]; [discriminate | |].
      * injection H as ->. left. reflexivity.
      * injection H as <-. right. rewrite Hq. reflexivity.
  - split; [intros _; left; reflexivity | reflexivity].
Qed.

Lemma from_accepts_iff runner created_at :
  from_accepts runner created_at = true <->
  (matcher_from runner = None \/
   exists from, matcher_from runner = Some from /\
                reading created_at >= reading from).
Proof.
  unfold from_accepts. destruct (matcher_from runner) as [f|].
  - rewrite Z.leb_le. split.
    + intro H. right. exists f. split; [reflexivity | lia].
    + intros [H|(g & H & Hg)]; [discriminate | injection H as <-; lia].
  - split; [intros _; left; reflexivity | reflexivity].
Qed.

Lemma to_accepts_iff runner created_at :
  to_accepts runner created_at = true <->
  (matcher_to runner = None \/
   exists to, matcher_to runner = Some to /\
              reading created_at <= reading to).
Proof.
  unfold to_accepts. destruct (matcher_to runner) as [t|].
  - rewrite Z.leb_le. split.
    + intro H. right. exists t. split; [reflexivity | lia].
    + intros [H|(g & H & Hg)]; [discriminate | injection H as <-; lia].
  - split; [intros _; left; reflexivity | reflexivity].
Qed.

(** X19.  A bound that is consulted and cannot be compared with
    [created_at] (one is naive, the other aware) makes [match_runner]
    raise [TypeError]: the bound [from] once the name is accepted, the
    bound [to] once the record is not before [from] as well. *)
Theorem match_runner_not_comparable job_created_at description runner
    created_at :
  fromisoformat job_created_at = Some created_at ->
  name_accepts runner description = true ->
  (forall pattern, matcher_name runner = Some pattern -> pattern <> "" ->
     re_fullmatch pattern description <> None) ->
  ((exists from, matcher_from runner = Some from /\
                 ~ comparable created_at from)
   \/
   (from_accepts runner created_at = true /\
    (forall from, matcher_from runner = Some from ->
                  comparable created_at from) /\
    exists to, matcher_to runner = Some to /\ ~ comparable created_at to)) ->
  match_runner job_created_at description runner = Raise TypeError.
Proof.
  intros Hc Hname Hp Hbad.
  unfold match_runner, parse_datetime, truthy_str, name_accepts,
         from_accepts in *.
  destruct runner as [nm pat from to].
  cbn [matcher_name matcher_from matcher_to] in *.
  assert (Hwin :
    (created_at' <- of_option ValueError (fromisoformat job_created_at) ;;
     too_early <- match from with
                  | Some f => datetime_lt created_at' f
                  | None => Ok false
                  end ;;
     if too_early then Ok false else
     too_late <- match to with
                 | Some t => datetime_gt created_at' t
                 | None => Ok false
                 end ;;
     if too_late then Ok false else Ok true)
    = Raise TypeError).
  { rewrite Hc. cbn [of_option bind]. unfold datetime_lt, datetime_gt.
    destruct Hbad as [(f & -> & Hf) | (Hacc & Hfrom & t & -> & Ht)].
    - rewrite (compare_not_comparable _ _ _ Hf). reflexivity.
    - destruct from as [f|].
      + rewrite (compare_comparable _ _ _ (Hfrom f eq_refl)).
        rewrite (Z.ltb_antisym (reading f) (reading created_at)), Hacc.
        cbn [negb bind]. rewrite (compare_not_comparable _ _ _ Ht).
        reflexivity.
      + cbn [bind]. rewrite (compare_not_comparable _ _ _ Ht). reflexivity. }
  destruct pat as [p|]; [|cbn [bind]; exact Hwin].
  destruct (String.eqb_spec p "") as [->|Hne]; cbn [negb bind];
    [exact Hwin|].
  cbn [orb] in Hname.
  destruct (re_fullmatch p description) as [[|]|] eqn:Em.
  - cbn [of_option bind negb]. exact Hwin.
  - discriminate.
  - exfalso. exact (Hp p eq_refl Hne Em).
Qed.

(** C7 (amended).  For every record whose [created_at] is a timestamp and
    every matcher whose pattern compiles and whose bounds can be compared
    with [created_at] (both with a UTC offset, or both without),
    [match_runner] accepts the record iff (name_pattern is unset, or is the
    empty text, or fully matches the record's runner_description) and
    (from is unset or created_at >= from) and (to is unset or
    created_at <= to).  Both bounds are inclusive, and a matcher with all
    fields unset accepts every such record. *)
Theorem match_runner_accepts job_created_at description runner created_at :
  fromisoformat job_created_at = Some created_at ->
  (forall pattern, matcher_name runner = Some pattern -> pattern <> "" ->
     re_fullmatch pattern description <> None) ->
  (forall from, matcher_from runner = Some from -> comparable created_at from) ->
  (forall to, matcher_to runner = Some to -> comparable created_at to) ->
  exists accepts,
    match_runner job_created_at description runner = Ok accepts /\
    (accepts = true <->
       (matcher_name runner = None \/ matcher_name runner = Some "" \/
        exists pattern, matcher_name runner = Some pattern /\
                        re_fullmatch pattern description = Some true) /\
       (matcher_from runner = None \/
        exists from, matcher_from runner = Some from /\
                     reading created_at >= reading from) /\
       (matcher_to runner = None \/
        exists to, matcher_to runner = Some to /\
                   reading created_at <= reading to)).
Proof.
  intros Hc Hp Hfrom Hto.
  eexists. split; [apply match_runner_value; eassumption|].
  rewrite !andb_true_iff, name_accepts_iff, from_accepts_iff, to_accepts_iff.
  tauto.
Qed.

End Matcher.

Section Statistics.
Context {lib : PyLib}.

Lemma build_record_contributes runner row run queue :
  build_record runner row run queue ->
  exists r, read_row row = Some r /\
            contributes "build" runner r = Ok true /\
            (rec_run_duration r == run)%Q /\
            (rec_queue_duration r == queue)%Q.
Proof.
  intros (r & Hr & Hn & Hrun & Hq & Hm). exists r.
  unfold contributes. rewrite Hn, Hm. cbn. auto.
Qed.

Ltac in_cases H :=
  repeat (destruct H as [<-|H]); [..|destruct H].

(** C4.  For a store of exactly three records of job [build] with the
    durations (run=10,queue=2), (run=20,queue=3), (run=30,queue=1) and a
    matcher that accepts all three, [get_job_stats] returns count=3,
    runtime_avg=20, runtime_min=10, runtime_max=30, total_min=12 and
    total_max=31. *)
Theorem get_job_stats_three_builds runner row1 row2 row3 :
  build_record runner row1 10 2 ->
  build_record runner row2 20 3 ->
  build_record runner row3 30 1 ->
  exists stats,
    get_job_stats "build" runner (Some [row1; row2; row3]) = Ok stats /\
    no_of_jobs stats = 3 /\
    (runtime_duration_avg stats == 20)%Q /\
    (runtime_duration_min stats == 10)%Q /\
    (runtime_duration_max stats == 30)%Q /\
    (total_duration_min stats == 12)%Q /\
    (total_duration_max stats == 31)%Q.
Proof.
  intros H1 H2 H3.
  apply build_record_contributes in H1, H2, H3.
  destruct H1 as (r1 & R1 & C1 & E1 & Q1), H2 as (r2 & R2 & C2 & E2 & Q2),
           H3 as (r3 & R3 & C3 & E3 & Q3).
  assert (Hscan : scannable "build" runner [row1; row2; row3]).
  { repeat constructor; eauto. }
  assert (Hacc : accepted "build" runner [row1; row2; row3] = [r1; r2; r3]).
  { cbn [accepted]. rewrite R1, R2, R3, C1, C2, C3. reflexivity. }
  destruct (get_job_stats_counted "build" runner _ Hscan)
    as (stats & Hstats & Hn & Hra & _ & _ & Hrmin & Hrmax & _ & _ & Htmin & Htmax).
  { rewrite Hacc. discriminate. }
  rewrite Hacc in *. cbn [List.length map] in *.
  assert (T1 : (total_duration r1 == 12)%Q)
    by (unfold total_duration; rewrite E1, Q1; reflexivity).
  assert (T2 : (total_duration r2 == 23)%Q)
    by (unfold total_duration; rewrite E2, Q2; reflexivity).
  assert (T3 : (total_duration r3 == 31)%Q)
    by (unfold total_duration; rewrite E3, Q3; reflexivity).
  exists stats. split; [exact Hstats|]. split; [exact Hn|].
  split; [|split; [|split; [|split]]].
  - rewrite Hra. cbn [Qsum fold_right]. rewrite E1, E2, E3. reflexivity.
  - apply (is_min_unique _ _ _ Hrmin). split.
    + exists (rec_run_duration r1). split; [right; left; reflexivity | exact E1].
    + intros x Hx. in_cases Hx; [| rewrite E1 | rewrite E2 | rewrite E3];
        discriminate.
  - apply (is_max_unique _ _ _ Hrmax). split.
    + exists (rec_run_duration r3).
      split; [do 3 right; left; reflexivity | exact E3].
    + intros x Hx. in_cases Hx; [| rewrite E1 | rewrite E2 | rewrite E3];
        discriminate.
  - apply (is_min_unique _ _ _ Htmin). split.
    + exists (total_duration r1). split; [right; left; reflexivity | exact T1].
    + intros x Hx. in_cases Hx; [| rewrite T1 | rewrite T2 | rewrite T3];
        discriminate.
  - apply (is_max_unique _ _ _ Htmax). split.
    + exists (total_duration r3).
      split; [do 3 right; left; reflexivity | exact T3].
    + intros x Hx. in_cases Hx; [| rewrite T1 | rewrite T2 | rewrite T3];
        discriminate.
Qed.


(** C10.  For every store that can be scanned and every (job_name,
    matcher) pair with at least one accepted record, the returned
    total_duration_avg is runtime_duration_avg plus queue_duration_avg. *)
Theorem total_avg_is_sum_of_avgs job_name runner rows :
  scannable job_name runner rows ->
  accepted job_name runner rows <> [] ->
  exists stats,
    get_job_stats job_name runner (Some rows) = Ok stats /\
    (total_duration_avg stats
     == runtime_duration_avg stats + queue_duration_avg stats)%Q.
Proof.
  intros Hscan Hne.
  destruct (get_job_stats_counted _ _ _ Hscan Hne)
    as (stats & Hstats & _ & Hr & Hq & Ht & _).
  exists stats. split; [exact Hstats|].
  rewrite Hr, Hq, Ht, Qsum_total. unfold Qdiv. ring.
Qed.

Lemma stats_rows_app job_name runner rows1 rows2 :
  forall st,
    stats_rows job_name runner st (rows1 ++ rows2) =
      (st' <- stats_rows job_name runner st rows1 ;;
       stats_rows job_name runner st' rows2).
Proof.
  induction rows1 as [|row rows1 IH]; intro st; [reflexivity|].
  cbn [app stats_rows].
  destruct (stats_row job_name runner st row) as [st'|e]; cbn [bind];
    [apply IH | reflexivity].
Qed.

(** The rows before the first malformed row of a store. *)
Lemma first_malformed_row rows :
  Exists (fun row => read_row row = None) rows ->
  exists before row after,
    rows = (before ++ row :: after)%list /\
    Forall (fun row => read_row row <> None) before /\
    read_row row = None.
Proof.
  induction 1 as [row rows H | row rows _ (before & bad & after & -> & Hb & H)].
  - exists [], row, rows. split; [reflexivity|]. split; [constructor | exact H].
  - destruct (read_row row) as [r|] eqn:Hr.
    + exists (row :: before), bad, after. split; [reflexivity|].
      split; [|exact H]. constructor; [congruence | exact Hb].
    + exists [], row, (before ++ bad :: after)%list.
      split; [reflexivity|]. split; [constructor | exact Hr].
Qed.

(** What [match_runner] raises: the pattern does not compile, the
    creation time is no timestamp, or it cannot be compared with a
    bound. *)
Lemma match_runner_raises job_created_at description runner e :
  match_runner job_created_at description runner = Raise e ->
  e = PatternError \/ e = ValueError \/ e = TypeError.
Proof.
  unfold match_runner, parse_datetime.
  destruct (truthy_str (matcher_name runner)).
  - destruct (matcher_name runner) as [pattern|].
    + destruct (re_fullmatch pattern description) as [[|]|];
        cbn [of_option bind negb]; [| intros [= <-]; discriminate
                                    | intros [= <-]; auto].
      destruct (fromisoformat job_created_at) as [created_at|];
        cbn [of_option bind]; [|intros [= <-]; auto].
      destruct (match matcher_from runner with
                | Some from => datetime_lt created_at from
                | None => Ok false
                end) as [[|]|e1] eqn:E1; cbn [bind]; try discriminate.
      * destruct (match matcher_to runner with
                  | Some to => datetime_gt created_at to
                  | None => Ok false
                  end) as [[|]|e2] eqn:E2; cbn [bind]; try discriminate.
        intros [= <-]. destruct (matcher_to runner) as [to|]; [|discriminate].
        destruct created_at, to; cbn in E2; try discriminate;
          injection E2 as <-; auto.
      * intros [= <-]. destruct (matcher_from runner) as [from|]; [|discriminate].
        destruct created_at, from; cbn in E1; try discriminate;
          injection E1 as <-; auto.
    + cbn [bind].
      destruct (fromisoformat job_created_at) as [created_at|];
        cbn [of_option bind]; [|intros [= <-]; auto].
      destruct (match matcher_from runner with
                | Some from => datetime_lt created_at from
                | None => Ok false
                end) as [[|]|e1] eqn:E1; cbn [bind]; try discriminate.
      * destruct (match matcher_to runner with
                  | Some to => datetime_gt created_at to
                  | None => Ok false
                  end) as [[|]|e2] eqn:E2; cbn [bind]; try discriminate.
        intros [= <-]. destruct (matcher_to runner) as [to|]; [|discriminate].
        destruct created_at, to; cbn in E2; try discriminate;
          injection E2 as <-; auto.
      * intros [= <-]. destruct (matcher_from runner) as [from|]; [|discriminate].
        destruct created_at, from; cbn in E1; try discriminate;
          injection E1 as <-; auto.
  - cbn [bind].
    destruct (fromisoformat job_created_at) as [created_at|];
      cbn [of_option bind]; [|intros [= <-]; auto].
    destruct (match matcher_from runner with
              | Some from => datetime_lt created_at from
              | None => Ok false
              end) as [[|]|e1] eqn:E1; cbn [bind]; try discriminate.
    + destruct (match matcher_to runner with
                | Some to => datetime_gt created_at to
                | None => Ok false
                end) as [[|]|e2] eqn:E2; cbn [bind]; try discriminate.
      intros [= <-]. destruct (matcher_to runner) as [to|]; [|discriminate].
      destruct created_at, to; cbn in E2; try discriminate;
        injection E2 as <-; auto.
    + intros [= <-]. destruct (matcher_from runner) as [from|]; [|discriminate].
      destruct created_at, from; cbn in E1; try discriminate;
        injection E1 as <-; auto.
Qed.

(** On well-formed rows the loop ends unless the matcher raises on a
    record of the job, after rows it can scan. *)
Lemma stats_rows_well_formed job_name runner rows :
  Forall (fun row => read_row row <> None) rows ->
  scannable job_name runner rows \/
  exists rows1 row1 rows2 r1 e,
    rows = (rows1 ++ row1 :: rows2)%list /\
    scannable job_name runner rows1 /\
    read_row row1 = Some r1 /\
    contributes job_name runner r1 = Raise e.
Proof.
  induction 1 as [|row rows Hr _ IH]; [left; constructor|].
  destruct (read_row row) as [r|] eqn:Er; [|congruence].
  destruct (contributes job_name runner r) as [b|e] eqn:Eb.
  - destruct IH as [Hs|(rows1 & row1 & rows2 & r1 & e & -> & Hs & Hr1 & He)].
    + left. constructor; [exists r, b; auto | exact Hs].
    + right. exists (row :: rows1), row1, rows2, r1, e.
      split; [reflexivity|].
      split; [constructor; [exists r, b; auto | exact Hs]|]. auto.
  - right. exists [], row, rows, r, e.
    split; [reflexivity|]. split; [constructor|]. auto.
Qed.

(** The loop raises what the matcher raises, whatever the rows after. *)
Lemma stats_rows_matcher_raises job_name runner rows1 row1 r1 e :
  scannable job_name runner rows1 ->
  read_row row1 = Some r1 ->
  contributes job_name runner r1 = Raise e ->
  forall rows2 st,
    stats_rows job_name runner st (rows1 ++ row1 :: rows2) = Raise e.
Proof.
  intros Hs Hr He rows2 st.
  rewrite stats_rows_app, (stats_rows_scannable _ _ _ Hs).
  cbn [bind stats_rows]. rewrite (stats_row_read _ _ _ _ _ Hr), He.
  reflexivity.
Qed.

(** The exception of a malformed row does not depend on the locals. *)
Lemma stats_row_malformed_exn job_name runner row :
  read_row row = None ->
  exists e, (e = IndexError \/ e = ValueError) /\
            forall st, stats_row job_name runner st row = Raise e.
Proof.
  intro H. unfold read_row in H. unfold stats_row, index, to_float.
  do 3 (destruct row as [|? row];
        [exists IndexError; split; [left|]; reflexivity|]).
  destruct row as [|f3 row];
    [exists IndexError; split; [left|]; reflexivity|]. cbn.
  destruct (float f3) as [run|] eqn:E3;
    [|exists ValueError; split; [right|]; reflexivity].
  destruct row as [|f4 row];
    [exists IndexError; split; [left|]; reflexivity|]. cbn.
  destruct (float f4) as [queue|] eqn:E4;
    [|exists ValueError; split; [right|]; reflexivity].
  do 3 (destruct row as [|? row];
        [exists IndexError; split; [left|]; reflexivity|]).
  discriminate.
Qed.

(** C9 (amended).  For every store file containing at least one malformed
    row, the reads raise instead of skipping it, and the rows after it are
    not processed.  [get_job_stats] raises at the first row that has fewer
    than eight columns or a duration that is no number: [IndexError] or
    [ValueError] when the matcher raised on none of the rows before it,
    and otherwise the exception the matcher raised at that earlier row (a
    pattern that does not compile, a [created_at] that is no timestamp or
    that cannot be compared with a bound).  [get_measured_jobs] raises
    [IndexError] when a row has fewer than two columns. *)
Theorem reads_raise_on_malformed_row job_name runner rows :
  (Exists (fun row => read_row row = None) rows ->
   exists before row after e,
     rows = (before ++ row :: after)%list /\
     Forall (fun row => read_row row <> None) before /\
     read_row row = None /\
     get_job_stats job_name runner (Some rows) = Raise e /\
     (forall after',
        get_job_stats job_name runner (Some (before ++ row :: after')%list)
        = Raise e) /\
     ((scannable job_name runner before /\
       (e = IndexError \/ e = ValueError))
      \/
      (exists rows1 row1 rows2 r1,
         before = (rows1 ++ row1 :: rows2)%list /\
         scannable job_name runner rows1 /\
         read_row row1 = Some r1 /\
         rec_job_name r1 = job_name /\
         match_runner (rec_created_at r1) (rec_runner_description r1) runner
         = Raise e /\
         (e = PatternError \/ e = ValueError \/ e = TypeError))))
  /\
  (Exists (fun row => (List.length row < 2)%nat) rows ->
   get_measured_jobs (Some rows) = Raise IndexError).
Proof.
  split; intro H.
  - destruct (first_malformed_row rows H) as (before & row & after & -> & Hb & Hr).
    exists before, row, after.
    destruct (stats_rows_well_formed job_name runner before Hb)
      as [Hs|(rows1 & row1 & rows2 & r1 & e & -> & Hs & Hr1 & He)].
    + destruct (stats_row_malformed_exn job_name runner row Hr)
        as (e & Hkind & He).
      assert (Hall : forall after',
                get_job_stats job_name runner
                              (Some (before ++ row :: after')%list) = Raise e).
      { intro after'. unfold get_job_stats.
        rewrite stats_rows_app, (stats_rows_scannable _ _ _ Hs).
        cbn [bind stats_rows]. rewrite He. reflexivity. }
      exists e. repeat split; auto.
    + assert (Hall : forall after',
                get_job_stats job_name runner
                  (Some ((rows1 ++ row1 :: rows2) ++ row :: after')%list)
                = Raise e).
      { intro after'. unfold get_job_stats.
        rewrite <- app_assoc, <- app_comm_cons.
        rewrite (stats_rows_matcher_raises _ _ _ _ _ _ Hs Hr1 He).
        reflexivity. }
      exists e. split; [reflexivity|]. split; [exact Hb|]. split; [exact Hr|].
      split; [apply Hall|]. split; [exact Hall|].
      right. exists rows1, row1, rows2, r1. split; [reflexivity|].
      split; [exact Hs|]. split; [exact Hr1|].
      unfold contributes in He.
      destruct (String.eqb_spec (rec_job_name r1) job_name) as [Hn|];
        [|discriminate].
      split; [exact Hn|]. split; [exact He|].
      exact (match_runner_raises _ _ _ _ He).
  - unfold get_measured_jobs.
    assert (Hn : job_names_of rows = Raise IndexError).
    { induction H as [row rows H | row rows _ IH]; cbn [job_names_of].
      - destruct row as [|? [|? ?]]; cbn in H; [reflexivity | reflexivity | lia].
      - unfold index. destruct (nth_error row 1); [|reflexivity].
        cbn [of_option bind]. rewrite IH. reflexivity. }
    rewrite Hn. reflexivity.
Qed.

(** Where the first values of the running minima and maxima do not show:
    when every accepted record has durations that are not negative and
    that add up to 10000000 seconds at most, the six bounds returned are
    those of the accepted records. *)
Lemma get_job_stats_bounds_within_range job_name runner rows :
  scannable job_name runner rows ->
  accepted job_name runner rows <> [] ->
  (forall r, In r (accepted job_name runner rows) ->
     0 <= rec_run_duration r /\ 0 <= rec_queue_duration r /\
     total_duration r <= 10000000)%Q ->
  exists stats,
    get_job_stats job_name runner (Some rows) = Ok stats /\
    let rs := accepted job_name runner rows in
    is_min (runtime_duration_min stats) (map rec_run_duration rs) /\
    is_max (runtime_duration_max stats) (map rec_run_duration rs) /\
    is_min (queue_duration_min stats) (map rec_queue_duration rs) /\
    is_max (queue_duration_max stats) (map rec_queue_duration rs) /\
    is_min (total_duration_min stats) (map total_duration rs) /\
    is_max (total_duration_max stats) (map total_duration rs).
Proof.
  intros Hscan Hne Hrange.
  destruct (get_job_stats_counted _ _ _ Hscan Hne)
    as (stats & Hstats & _ & _ & _ & _ & H1 & H2 & H3 & H4 & H5 & H6).
  exists stats. split; [exact Hstats|]. cbn zeta in *.
  destruct (accepted job_name runner rows) as [|r rs]; [congruence|].
  destruct (Hrange r (or_introl eq_refl)) as (Hr & Hq & Ht).
  unfold total_duration in Ht.
  assert (Hr' : (rec_run_duration r <= 10000000)%Q).
  { apply Qle_trans with (rec_run_duration r + rec_queue_duration r)%Q;
      [|exact Ht].
    rewrite <- (Qplus_0_r (rec_run_duration r)) at 1.
    apply Qplus_le_r, Hq. }
  assert (Hq' : (rec_queue_duration r <= 10000000)%Q).
  { apply Qle_trans with (rec_run_duration r + rec_queue_duration r)%Q;
      [|exact Ht].
    rewrite <- (Qplus_0_l (rec_queue_duration r)) at 1.
    apply Qplus_le_l, Hr. }
  assert (Ht' : (0 <= total_duration r)%Q).
  { unfold total_duration.
    apply Qle_trans with (0 + 0)%Q; [discriminate|].
    apply Qplus_le_compat; assumption. }
  split; [|split; [|split; [|split; [|split]]]].
  - apply (is_min_drop_sentinel _ _ _ H1). eexists. split; [left; reflexivity|exact Hr'].
  - apply (is_max_drop_sentinel _ _ _ H2). eexists. split; [left; reflexivity|exact Hr].
  - apply (is_min_drop_sentinel _ _ _ H3). eexists. split; [left; reflexivity|exact Hq'].
  - apply (is_max_drop_sentinel _ _ _ H4). eexists. split; [left; reflexivity|exact Hq].
  - apply (is_min_drop_sentinel _ _ _ H5). eexists. split; [left; reflexivity|exact Ht].
  - apply (is_max_drop_sentinel _ _ _ H6). eexists. split; [left; reflexivity|exact Ht'].
Qed.

End Statistics.

(** ** The statements on the example data *)

(** C5, at a store whose only record of job [build] ran for 20000000
    seconds: the returned runtime and total minima are the first value
    10000000 of the running minimum, which is the duration of no record;
    the runtime minimum is not the least run duration of the accepted
    records. *)
Theorem get_job_stats_min_of_long_build :
  exists stats,
    @get_job_stats Ref.lib "build" Examples.any_runner
                   (Some [Examples.long_build]) = Ok stats /\
    no_of_jobs stats = 1 /\
    map rec_run_duration
        (@accepted Ref.lib "build" Examples.any_runner [Examples.long_build])
    = [Qmake 200000000 10] /\
    runtime_duration_min stats = 10000000%Q /\
    total_duration_min stats = 10000000%Q /\
    ~ is_min (runtime_duration_min stats)
             (map rec_run_duration
                  (@accepted Ref.lib "build" Examples.any_runner
                             [Examples.long_build])).
Proof.
  eexists. split; [vm_compute; reflexivity|].
  split; [reflexivity|]. split; [reflexivity|].
  split; [reflexivity|]. split; [reflexivity|].
  intros [(x & Hx & Ex) _].
  destruct Hx as [<-|[]]. vm_compute in Ex. discriminate.
Qed.

(** C7 as stated fails at a matcher whose pattern is the empty text: the
    record is accepted although the pattern is set and does not fully
    match its runner description [private-1].  It fails as well at a
    matcher whose lower bound has no offset: the bound is before the time
    of the record, which has an offset, and the record is not accepted,
    since the comparison raises. *)
Lemma match_runner_not_as_stated :
  ~ (@match_runner Ref.lib "2024-03-03T09:00:00.000Z" "private-1"
                   Examples.empty_pattern_runner = Ok true <->
     (matcher_name Examples.empty_pattern_runner = None \/
      exists pattern,
        matcher_name Examples.empty_pattern_runner = Some pattern /\
        Ref.re_fullmatch pattern "private-1" = Some true) /\
     (matcher_from Examples.empty_pattern_runner = None \/
      exists from, matcher_from Examples.empty_pattern_runner = Some from /\
                   1709456400000000 >= reading from) /\
     (matcher_to Examples.empty_pattern_runner = None \/
      exists to, matcher_to Examples.empty_pattern_runner = Some to /\
                 1709456400000000 <= reading to))
  /\
  ~ (@match_runner Ref.lib "2024-03-03T09:00:00.000Z" "shared-1"
                   Examples.march_runner = Ok true <->
     (matcher_name Examples.march_runner = None \/
      exists pattern,
        matcher_name Examples.march_runner = Some pattern /\
        Ref.re_fullmatch pattern "shared-1" = Some true) /\
     (matcher_from Examples.march_runner = None \/
      exists from, matcher_from Examples.march_runner = Some from /\
                   1709456400000000 >= reading from) /\
     (matcher_to Examples.march_runner = None \/
      exists to, matcher_to Examples.march_runner = Some to /\
                 1709456400000000 <= reading to)).
Proof.
  split.
  - intros [H _].
    destruct (H eq_refl) as ([H1|(p & H1 & H2)] & _); [discriminate|].
    injection H1 as <-. vm_compute in H2. discriminate.
  - intros [_ H].
    assert (Hno : @match_runner Ref.lib "2024-03-03T09:00:00.000Z" "shared-1"
                                Examples.march_runner = Raise TypeError)
      by (vm_compute; reflexivity).
    rewrite Hno in H. enough (Raise TypeError = Ok true) by discriminate.
    apply H. split; [left; reflexivity|]. split; [|left; reflexivity].
    right. exists (Naive 1709251200000000). split; [reflexivity|].
    cbn [reading]. lia.
Qed.

(** C9 as stated fails at a store with a row of one column between two
    well-formed rows, and at one with a row whose duration is no number:
    the reads raise, and the well-formed rows are not processed. *)
Lemma reads_abort_on_malformed_row :
  @get_job_stats Ref.lib "test" Examples.any_runner
     (Some [Examples.build1; Examples.one_column_row; Examples.test1])
  = Raise IndexError /\
  get_measured_jobs
     (Some [Examples.build1; Examples.one_column_row; Examples.test1])
  = Raise IndexError /\
  @get_job_stats Ref.lib "test" Examples.any_runner
     (Some [Examples.build1; Examples.bad_duration_row; Examples.test1])
  = Raise ValueError.
Proof. repeat split; vm_compute; reflexivity. Qed.

(** The job names of the example store, in lexicographic order. *)
Example get_measured_jobs_of_store :
  get_measured_jobs
    (Some [Examples.test1; Examples.build1; Examples.build2; Examples.build3])
  = Ok ["build"; "test"].
Proof. reflexivity. Qed.

Ltac scan_examples :=
  repeat (apply Forall_cons; [eexists; eexists; split; reflexivity|]);
  apply Forall_nil.

Ltac example_record :=
  eexists; split; [reflexivity|];
  split; [reflexivity|];
  split; [vm_compute; reflexivity|];
  split; [vm_compute; reflexivity|];
  vm_compute; reflexivity.

(** [build1] was created at the upper end of the window of the matcher,
    [build3] at its lower end: both are accepted. *)
Lemma match_runner_accepts_witness :
  @match_runner Ref.lib "2024-03-03T09:00:00.000Z" "shared-1"
                Examples.shared_runner = Ok true /\
  @match_runner Ref.lib "2024-03-01T09:00:00.000Z" "shared-1"
                Examples.shared_runner = Ok true.
Proof.
  split.
  - destruct (@match_runner_accepts Ref.lib "2024-03-03T09:00:00.000Z"
                "shared-1" Examples.shared_runner (Aware 1709456400000000))
      as (accepts & -> & Hiff).
    + vm_compute. reflexivity.
    + intros pattern H _. injection H as <-. vm_compute. discriminate.
    + intros from H. injection H as <-. exact I.
    + intros to H. injection H as <-. exact I.
    + f_equal. apply Hiff. split; [|split]; right.
      * right. exists "shared-.*". split; [reflexivity | vm_compute; reflexivity].
      * exists (Aware 1709283600000000). split; [reflexivity | simpl; lia].
      * exists (Aware 1709456400000000). split; [reflexivity | simpl; lia].
  - destruct (@match_runner_accepts Ref.lib "2024-03-01T09:00:00.000Z"
                "shared-1" Examples.shared_runner (Aware 1709283600000000))
      as (accepts & -> & Hiff).
    + vm_compute. reflexivity.
    + intros pattern H _. injection H as <-. vm_compute. discriminate.
    + intros from H. injection H as <-. exact I.
    + intros to H. injection H as <-. exact I.
    + f_equal. apply Hiff. split; [|split]; right.
      * right. exists "shared-.*". split; [reflexivity | vm_compute; reflexivity].
      * exists (Aware 1709283600000000). split; [reflexivity | simpl; lia].
      * exists (Aware 1709456400000000). split; [reflexivity | simpl; lia].
Defined.

(** The bound [2024-03-01T00:00:00] of a filter is read by [load_config]
    as a datetime without offset; with the runner it gives,
    [match_runner] raises on a record of the store. *)
Lemma match_runner_not_comparable_witness :
  @load_runner Ref.lib
     (mkRunnerTable "march"
        (Some [mkFilterTable None (Some "2024-03-01T00:00:00") None]))
  = inr Examples.march_runner /\
  @match_runner Ref.lib "2024-03-03T09:00:00.000Z" "shared-1"
                Examples.march_runner
  = Raise TypeError.
Proof.
  split; [vm_compute; reflexivity|].
  apply (@match_runner_not_comparable Ref.lib "2024-03-03T09:00:00.000Z"
           "shared-1" Examples.march_runner (Aware 1709456400000000)).
  - vm_compute. reflexivity.
  - reflexivity.
  - intros pattern H. discriminate.
  - left. exists (Naive 1709251200000000).
    split; [reflexivity | exact (fun H => H)].
Defined.

Lemma get_job_stats_three_builds_witness :
  exists stats,
    @get_job_stats Ref.lib "build" Examples.shared_runner
                   (Some [Examples.build1; Examples.build2; Examples.build3])
    = Ok stats /\
    no_of_jobs stats = 3 /\
    (runtime_duration_avg stats == 20)%Q /\
    (runtime_duration_min stats == 10)%Q /\
    (runtime_duration_max stats == 30)%Q /\
    (total_duration_min stats == 12)%Q /\
    (total_duration_max stats == 31)%Q.
Proof.
  apply (@get_job_stats_three_builds Ref.lib Examples.shared_runner
           Examples.build1 Examples.build2 Examples.build3);
    example_record.
Defined.


Lemma total_avg_is_sum_of_avgs_witness :
  exists stats,
    @get_job_stats Ref.lib "build" Examples.shared_runner (Some Examples.store)
    = Ok stats /\
    (total_duration_avg stats
     == runtime_duration_avg stats + queue_duration_avg stats)%Q.
Proof.
  apply (@total_avg_is_sum_of_avgs Ref.lib "build" Examples.shared_runner
           Examples.store).
  - scan_examples.
  - vm_compute. discriminate.
Defined.

(** The store with a row whose duration is no number: the first malformed
    row is found, and what is raised does not depend on the rows after
    it. *)
Lemma reads_raise_on_malformed_row_witness :
  (exists before row after e,
     [Examples.build1; Examples.bad_duration_row; Examples.test1]
     = (before ++ row :: after)%list /\
     Forall (fun row => @read_row Ref.lib row <> None) before /\
     @read_row Ref.lib row = None /\
     @get_job_stats Ref.lib "test" Examples.any_runner
       (Some [Examples.build1; Examples.bad_duration_row; Examples.test1])
     = Raise e /\
     (forall after',
        @get_job_stats Ref.lib "test" Examples.any_runner
          (Some (before ++ row :: after')%list) = Raise e) /\
     ((@scannable Ref.lib "test" Examples.any_runner before /\
       (e = IndexError \/ e = ValueError))
      \/
      (exists rows1 row1 rows2 r1,
         before = (rows1 ++ row1 :: rows2)%list /\
         @scannable Ref.lib "test" Examples.any_runner rows1 /\
         @read_row Ref.lib row1 = Some r1 /\
         rec_job_name r1 = "test" /\
         @match_runner Ref.lib (rec_created_at r1) (rec_runner_description r1)
                       Examples.any_runner
         = Raise e /\
         (e = PatternError \/ e = ValueError \/ e = TypeError)))) /\
  get_measured_jobs
    (Some [Examples.build1; Examples.one_column_row; Examples.test1])
  = Raise IndexError.
Proof.
  split.
  - apply (@reads_raise_on_malformed_row Ref.lib "test" Examples.any_runner
             [Examples.build1; Examples.bad_duration_row; Examples.test1]).
    apply Exists_cons_tl, Exists_cons_hd. vm_compute. reflexivity.
  - apply (@reads_raise_on_malformed_row Ref.lib "test" Examples.any_runner
             [Examples.build1; Examples.one_column_row; Examples.test1]).
    apply Exists_cons_tl, Exists_cons_hd. simpl. lia.
Defined.

(** Where the matcher raises first: the pattern of the matcher does not
    compile, and the read of the store with a row of one column after a
    row of job [build] raises on the first row already. *)
Example matcher_raises_before_malformed_row :
  @get_job_stats Ref.lib "build" Examples.broken_runner
     (Some [Examples.build1; Examples.one_column_row])
  = Raise PatternError /\
  @get_job_stats Ref.lib "build" Examples.broken_runner
     (Some [Examples.build1])
  = Raise PatternError.
Proof. split; vm_compute; reflexivity. Qed.

(** * Properties of the copy in text mode *)

Section Copy.

Lemma universal_newlines_no_carriage_return_upto n :
  forall s, (String.length s <= n)%nat ->
            no_carriage_return (universal_newlines s) = true.
Proof.
  induction n as [|n IH]; intros s Hn.
  - destruct s; [reflexivity | cbn in Hn; lia].
  - destruct s as [|c s]; [reflexivity|].
    cbn [universal_newlines String.length] in *.
    destruct (Ascii.eqb c "013") eqn:Ec.
    + cbn [no_carriage_return].
      change (Ascii.eqb "010" "013") with false. cbn [negb andb].
      destruct s as [|c' s']; [reflexivity|].
      cbn [String.length] in Hn.
      destruct (Ascii.eqb c' "010"); apply IH; cbn [String.length]; lia.
    + cbn [no_carriage_return]. rewrite Ec. cbn [negb andb].
      apply IH. lia.
Qed.

(** What the copy gives has no carriage return. *)
Lemma universal_newlines_no_carriage_return s :
  no_carriage_return (universal_newlines s) = true.
Proof. apply (universal_newlines_no_carriage_return_upto (String.length s)), le_n. Qed.

(** A text without carriage return is copied as it is. *)
Lemma universal_newlines_plain s :
  no_carriage_return s = true -> universal_newlines s = s.
Proof.
  induction s as [|c s IH]; [reflexivity|].
  cbn [no_carriage_return universal_newlines].
  destruct (Ascii.eqb c "013"); cbn [negb andb]; [discriminate|].
  intro H. rewrite (IH H). reflexivity.
Qed.

Lemma universal_newlines_idempotent s :
  universal_newlines (universal_newlines s) = universal_newlines s.
Proof. apply universal_newlines_plain, universal_newlines_no_carriage_return. Qed.

Lemma text_mode_copy_plain rows :
  plain_rows rows -> text_mode_copy rows = rows.
Proof.
  unfold text_mode_copy.
  induction 1 as [|row rows Hrow _ IH]; [reflexivity|].
  cbn [map]. rewrite IH. f_equal.
  induction Hrow as [|field row Hfield _ IHrow]; [reflexivity|].
  cbn [map]. rewrite IHrow, (universal_newlines_plain _ Hfield). reflexivity.
Qed.

Lemma text_mode_copy_is_plain rows : plain_rows (text_mode_copy rows).
Proof.
  unfold text_mode_copy, plain_rows, plain_row.
  apply Forall_map, Forall_forall. intros row _.
  apply Forall_map, Forall_forall. intros field _.
  apply universal_newlines_no_carriage_return.
Qed.

Lemma text_mode_copy_idempotent rows :
  text_mode_copy (text_mode_copy rows) = text_mode_copy rows.
Proof. apply text_mode_copy_plain, text_mode_copy_is_plain. Qed.

Lemma text_mode_copy_app rows1 rows2 :
  text_mode_copy (rows1 ++ rows2)
  = (text_mode_copy rows1 ++ text_mode_copy rows2)%list.
Proof. apply map_app. Qed.

Lemma plain_rows_app rows1 rows2 :
  plain_rows rows1 -> plain_rows rows2 -> plain_rows (rows1 ++ rows2).
Proof. intros H1 H2. apply Forall_app. split; assumption. Qed.

Context {lib : PyLib} {stable : NewlineStable lib}.

(** The time of a row is the time of its copy. *)
Lemma row_time_copy row t :
  row_time row = Some t -> row_time (map universal_newlines row) = Some t.
Proof.
  destruct row as [|created_at row]; [discriminate|].
  cbn [row_time map]. unfold instant_of.
  destruct (fromisoformat created_at) as [[u|u]|] eqn:E; try discriminate.
  intros [= ->]. rewrite (fromisoformat_universal_newlines _ _ E). reflexivity.
Qed.

End Copy.

(** * Properties of the fetch *)

Section Fetch.
Context {lib : PyLib}.

(** The loop over a list in two parts. *)
Lemma scan_batch_app cutoff_date latest_data_cutoff jobs1 jobs2 written :
  scan_batch cutoff_date latest_data_cutoff (jobs1 ++ jobs2) written =
    match scan_batch cutoff_date latest_data_cutoff jobs1 written with
    | Ok (false, written') =>
        scan_batch cutoff_date latest_data_cutoff jobs2 written'
    | stopped => stopped
    end.
Proof.
  revert written. induction jobs1 as [|job jobs1 IH]; intro written.
  - reflexivity.
  - rewrite <- app_comm_cons. cbn [scan_batch].
    destruct (parse_datetime (Job.created_at job)) as [job_created|e];
      cbn [bind]; [|reflexivity].
    destruct (datetime_lt job_created cutoff_date) as [[|]|e];
      cbn [bind]; [reflexivity | | reflexivity].
    destruct (match latest_data_cutoff with
              | Some latest => datetime_le job_created latest
              | None => Ok false
              end) as [[|]|e]; cbn [bind]; [reflexivity | | reflexivity].
    destruct (job_row job); apply IH.
Qed.

(** The loop stops without writing, or raises, at a job whose time cannot
    be compared with the cutoff date. *)
Lemma scan_batch_naive_cutoff cutoff latest_data_cutoff job jobs written t :
  job_time job = Some t ->
  scan_batch (Naive cutoff) latest_data_cutoff (job :: jobs) written
  = Raise TypeError.
Proof.
  unfold job_time, instant_of. intro Ht. cbn [scan_batch].
  unfold parse_datetime.
  destruct (fromisoformat (Job.created_at job)) as [[u|u]|]; try discriminate.
  reflexivity.
Qed.

Section Scan.
Variable cutoff_date : instant.
Variable latest_data_cutoff : option instant.

Lemma in_range_iff t :
  in_range cutoff_date latest_data_cutoff t = true <->
  cutoff_date <= t /\ (forall latest, latest_data_cutoff = Some latest -> latest < t).
Proof.
  unfold in_range. rewrite andb_true_iff, Z.leb_le.
  destruct latest_data_cutoff as [l|].
  - rewrite Z.ltb_lt. split.
    + intros [H1 H2]. split; [exact H1|]. intros ? [= <-]. exact H2.
    + intros [H1 H2]. split; [exact H1 | apply H2; reflexivity].
  - split; [intros [H1 _]; split; [exact H1 | discriminate] | intros [H1 _]; auto].
Qed.

Lemma in_range_later t u :
  u <= t -> in_range cutoff_date latest_data_cutoff u = true ->
  in_range cutoff_date latest_data_cutoff t = true.
Proof.
  rewrite !in_range_iff. intros Hut [H1 H2]. split; [lia|].
  intros l Hl. specialize (H2 l Hl). lia.
Qed.

(** One turn of the loop over the jobs, by the range of the job, when the
    cutoff date and the latest time of the data file are aware. *)
Lemma scan_batch_cons job jobs written t :
  job_time job = Some t ->
  scan_batch (Aware cutoff_date) (option_map Aware latest_data_cutoff)
             (job :: jobs) written =
    if in_range cutoff_date latest_data_cutoff t then
      scan_batch (Aware cutoff_date) (option_map Aware latest_data_cutoff) jobs
        match job_row job with
        | Some row => (written ++ [row])%list
        | None => written
        end
    else Ok (true, written).
Proof.
  intro Ht. unfold job_time, instant_of in Ht.
  destruct (fromisoformat (Job.created_at job)) as [[u|u]|] eqn:Ep;
    try discriminate.
  injection Ht as ->.
  cbn [scan_batch]. unfold parse_datetime. rewrite Ep.
  unfold datetime_lt, datetime_le. cbn [of_option bind compare_datetimes].
  unfold in_range. rewrite (Z.ltb_antisym cutoff_date t).
  destruct (cutoff_date <=? t); cbn [negb andb]; [|reflexivity].
  destruct latest_data_cutoff as [l|]; cbn [option_map compare_datetimes bind].
  - rewrite (Z.leb_antisym l t). destruct (l <? t); cbn [negb]; [|reflexivity].
    destruct (job_row job); reflexivity.
  - destruct (job_row job); reflexivity.
Qed.

(** A job whose [created_at] is no timestamp, or one without offset, makes
    the loop raise: [ValueError], or [TypeError] at the comparison with
    the cutoff date. *)
Lemma scan_batch_no_time job jobs written :
  job_time job = None ->
  exists e,
    scan_batch (Aware cutoff_date) (option_map Aware latest_data_cutoff)
               (job :: jobs) written
    = Raise e /\ (e = ValueError \/ e = TypeError).
Proof.
  intro Ht. unfold job_time, instant_of in Ht.
  cbn [scan_batch]. unfold parse_datetime.
  destruct (fromisoformat (Job.created_at job)) as [[u|u]|];
    [discriminate | exists TypeError | exists ValueError];
    (split; [reflexivity | auto]).
Qed.

Lemma written_from_incl jobs jobs' row :
  incl jobs jobs' -> written_from cutoff_date latest_data_cutoff jobs row -> written_from cutoff_date latest_data_cutoff jobs' row.
Proof.
  intros Hi (job & t & Hin & H). exists job, t. split; [apply Hi, Hin | exact H].
Qed.

Lemma scan_batch_sound jobs written hit written' :
  scan_batch (Aware cutoff_date) (option_map Aware latest_data_cutoff)
             jobs written = Ok (hit, written') ->
  exists new, written' = (written ++ new)%list /\ Forall (written_from cutoff_date latest_data_cutoff jobs) new.
Proof.
  revert written. induction jobs as [|job jobs IH]; intros written H.
  - injection H as _ <-. exists []. split; [symmetry; apply app_nil_r | constructor].
  - destruct (job_time job) as [t|] eqn:Ht;
      [|destruct (scan_batch_no_time job jobs written Ht) as (e & He & _);
        rewrite He in H; discriminate].
    rewrite (scan_batch_cons _ _ _ _ Ht) in H.
    destruct (in_range cutoff_date latest_data_cutoff t) eqn:Hr.
    + apply IH in H. destruct H as (new & -> & Hnew).
      assert (Hnew' : Forall (written_from cutoff_date latest_data_cutoff (job :: jobs)) new).
      { eapply Forall_impl; [|exact Hnew]. intro row.
        apply written_from_incl, incl_tl, incl_refl. }
      destruct (job_row job) as [row|] eqn:Hrow.
      * exists (row :: new). split; [rewrite <- app_assoc; reflexivity|].
        constructor; [|exact Hnew'].
        exists job, t. split; [left; reflexivity | auto].
      * exists new. split; [reflexivity | exact Hnew'].
    + injection H as _ <-. exists []. split; [symmetry; apply app_nil_r | constructor].
Qed.

Lemma kept_out_of_range jobs t :
  Forall (fun job => exists u, job_time job = Some u /\ t >= u) jobs ->
  in_range cutoff_date latest_data_cutoff t = false ->
  kept cutoff_date latest_data_cutoff jobs = [].
Proof.
  intros H Ht. induction H as [|job jobs (u & Hu & Hle) _ IH]; [reflexivity|].
  cbn [kept]. rewrite Hu, IH.
  destruct (in_range cutoff_date latest_data_cutoff u) eqn:Hr.
  - rewrite (in_range_later t u) in Ht; [discriminate | lia | exact Hr].
  - destruct (job_row job); reflexivity.
Qed.

(** On a list that is newest first the loop writes the rows of the jobs in
    range, all of them. *)
Lemma scan_batch_newest_first jobs :
  newest_first job_time jobs ->
  forall written, exists hit,
    scan_batch (Aware cutoff_date) (option_map Aware latest_data_cutoff)
               jobs written
    = Ok (hit, (written ++ kept cutoff_date latest_data_cutoff jobs)%list).
Proof.
  intros [Htimes Hsorted].
  induction Hsorted as [|job jobs Hs IH Hjob]; intro written.
  - exists false. cbn. rewrite app_nil_r. reflexivity.
  - inversion Htimes as [|? ? (t & Ht) Htimes']; subst.
    rewrite (scan_batch_cons _ _ _ _ Ht). cbn [kept]. rewrite Ht.
    destruct (in_range cutoff_date latest_data_cutoff t) eqn:Hr.
    + destruct (job_row job) as [row|].
      * destruct (IH Htimes' (written ++ [row])%list) as (hit & ->).
        exists hit. rewrite <- app_assoc. reflexivity.
      * apply IH, Htimes'.
    + exists true. rewrite (kept_out_of_range jobs t).
      * destruct (job_row job); rewrite app_nil_r; reflexivity.
      * eapply Forall_impl; [|exact Hjob].
        intros b (t' & u & Ht' & Hu & Hle). exists u. split; [exact Hu|].
        rewrite Ht in Ht'. injection Ht' as <-. exact Hle.
      * exact Hr.
Qed.

Lemma kept_in jobs row :
  In row (kept cutoff_date latest_data_cutoff jobs) <-> written_from cutoff_date latest_data_cutoff jobs row.
Proof.
  induction jobs as [|job jobs IH]; cbn [kept].
  - split; [intros [] | intros (? & ? & [] & _)].
  - split.
    + intro H.
      assert (Htl : In row (kept cutoff_date latest_data_cutoff jobs) ->
                    written_from cutoff_date latest_data_cutoff (job :: jobs) row).
      { intro H'. apply IH in H'.
        eapply written_from_incl; [apply incl_tl, incl_refl | exact H']. }
      destruct (job_time job) as [t|] eqn:Ht; [|auto].
      destruct (job_row job) as [r|] eqn:Hrow; [|auto].
      destruct (in_range cutoff_date latest_data_cutoff t) eqn:Hr; [|auto].
      destruct H as [<-|H]; [|auto].
      exists job, t. split; [left; reflexivity | auto].
    + intros (j & t & [<-|Hin] & Hrow & Ht & Hr).
      * rewrite Ht, Hrow, Hr. left. reflexivity.
      * assert (H : In row (kept cutoff_date latest_data_cutoff jobs)).
        { apply IH. exists j, t. auto. }
        destruct (job_time job) as [u|]; [|exact H].
        destruct (job_row job); [|exact H].
        destruct (in_range cutoff_date latest_data_cutoff u);
          [right; exact H | exact H].
Qed.

End Scan.

Lemma per_page_pos : (0 < per_page)%nat.
Proof. unfold per_page. lia. Qed.

Lemma jobs_list_incl remote page :
  incl (jobs_list remote page) (successful remote).
Proof.
  unfold jobs_list. intros job H.
  set (l := skipn ((page - 1) * per_page) (successful remote)) in *.
  rewrite <- (firstn_skipn ((page - 1) * per_page) (successful remote)).
  apply in_or_app. right. fold l.
  rewrite <- (firstn_skipn per_page l).
  apply in_or_app. left. exact H.
Qed.

(** What a turn of the loop over the pages has written comes from jobs
    in range. *)
Lemma fetch_pages_sound remote cutoff_date latest_data_cutoff fuel :
  forall page written written',
    fetch_pages fuel remote (Aware cutoff_date)
                (option_map Aware latest_data_cutoff) page written
    = Some (Ok written') ->
    exists new,
      written' = (written ++ new)%list /\
      Forall (written_from cutoff_date latest_data_cutoff (successful remote))
             new.
Proof.
  induction fuel as [|fuel IH]; intros page written written' H; [discriminate|].
  cbn [fetch_pages] in H.
  pose proof (jobs_list_incl remote page) as Hincl.
  destruct (jobs_list remote page) as [|job batch].
  - injection H as <-. exists []. split; [symmetry; apply app_nil_r | constructor].
  - destruct (scan_batch (Aware cutoff_date)
                         (option_map Aware latest_data_cutoff)
                         (job :: batch) written)
      as [[hit w]|e] eqn:Hscan; [|discriminate].
    apply scan_batch_sound in Hscan. destruct Hscan as (new1 & -> & Hnew1).
    assert (Hnew1' : Forall (written_from cutoff_date latest_data_cutoff
                               (successful remote)) new1).
    { eapply Forall_impl; [|exact Hnew1]. intro row.
      apply written_from_incl, Hincl. }
    destruct hit.
    + injection H as <-. exists new1. split; [reflexivity | exact Hnew1'].
    + apply IH in H. destruct H as (new2 & -> & Hnew2).
      exists (new1 ++ new2)%list. split; [symmetry; apply app_assoc|].
      apply Forall_app. split; assumption.
Qed.

(** With fuel for every page, the loop over the pages is the loop over
    the jobs of the remote list from the first job of the page on. *)
Lemma fetch_pages_linear remote cutoff_date latest_data_cutoff fuel :
  forall page written,
    (1 <= page)%nat ->
    (List.length (skipn ((page - 1) * per_page) (successful remote)) < fuel)%nat ->
    fetch_pages fuel remote cutoff_date latest_data_cutoff page written =
      Some match scan_batch cutoff_date latest_data_cutoff
                   (skipn ((page - 1) * per_page) (successful remote)) written with
           | Ok (_, written') => Ok written'
           | Raise e => Raise e
           end.
Proof.
  induction fuel as [|fuel IH]; intros page written Hpage Hfuel; [lia|].
  cbn [fetch_pages]. unfold jobs_list.
  set (l := skipn ((page - 1) * per_page) (successful remote)) in *.
  pose proof (scan_batch_app cutoff_date latest_data_cutoff
                (firstn per_page l) (skipn per_page l) written) as Happ.
  rewrite firstn_skipn in Happ.
  pose proof per_page_pos as Hpos.
  destruct (firstn per_page l) as [|job batch] eqn:E.
  - assert (l = []) as ->.
    { destruct l; [reflexivity|].
      destruct per_page; [lia | discriminate]. }
    reflexivity.
  - rewrite Happ.
    destruct (scan_batch cutoff_date latest_data_cutoff (job :: batch) written)
      as [[[|] w]|e]; [reflexivity | | reflexivity].
    rewrite IH; [| lia |].
    + replace (page + 1 - 1)%nat with (S (page - 1)) by lia.
      rewrite Nat.mul_succ_l, Nat.add_comm, <- skipn_skipn.
      reflexivity.
    + replace (page + 1 - 1)%nat with (S (page - 1)) by lia.
      rewrite Nat.mul_succ_l, Nat.add_comm, <- skipn_skipn.
      fold l. rewrite length_skipn.
      destruct l; [discriminate|]. cbn [List.length] in *. lia.
Qed.

Lemma successful_length remote :
  (List.length (successful remote) <= List.length remote)%nat.
Proof. apply filter_length_le. Qed.

Lemma successful_in remote job :
  In job (successful remote) <->
  In job remote /\ Job.status job = "success".
Proof.
  unfold successful. rewrite filter_In, String.eqb_eq. reflexivity.
Qed.

(** The rows a fetch writes, once the two cutoffs are known. *)
Lemma fetch_new_rows_linear fuel remote measure_since csv_data_file
    cutoff_date latest_data_cutoff :
  fromisoformat (measure_since ++ "T00:00:00.0Z") = Some cutoff_date ->
  load_latest_data_cutoff csv_data_file = Ok latest_data_cutoff ->
  (List.length remote < fuel)%nat ->
  fetch_new_rows fuel remote measure_since csv_data_file =
    Some match scan_batch cutoff_date latest_data_cutoff
                 (successful remote) [] with
         | Ok (_, written) => Ok written
         | Raise e => Raise e
         end.
Proof.
  intros Hc Hl Hfuel. unfold fetch_new_rows, parse_datetime.
  rewrite Hl, Hc. cbn [of_option].
  pose proof (successful_length remote).
  rewrite fetch_pages_linear; [reflexivity | lia | cbn; lia].
Qed.

(** The loop over the pages ends: with fuel for the pages a fetch returns
    or raises, and more fuel does not change what it does. *)
Lemma fetch_jobs_data_fuel fuel fuel' remote measure_since csv_data_file :
  (List.length remote < fuel)%nat ->
  (List.length remote < fuel')%nat ->
  fetch_jobs_data fuel remote measure_since csv_data_file
  = fetch_jobs_data fuel' remote measure_since csv_data_file /\
  fetch_jobs_data fuel remote measure_since csv_data_file <> None.
Proof.
  intros H H'. unfold fetch_jobs_data.
  destruct (load_latest_data_cutoff csv_data_file) as [latest|e] eqn:Hl.
  - destruct (fromisoformat (measure_since ++ "T00:00:00.0Z"))
      as [cutoff|] eqn:Hc.
    + rewrite (fetch_new_rows_linear _ _ _ _ _ _ Hc Hl H),
              (fetch_new_rows_linear _ _ _ _ _ _ Hc Hl H').
      split; [reflexivity|].
      destruct (scan_batch cutoff latest (successful remote) [])
        as [[hit written]|e]; discriminate.
    + unfold fetch_new_rows, parse_datetime. rewrite Hl, Hc.
      split; [reflexivity | discriminate].
  - unfold fetch_new_rows. rewrite Hl. split; [reflexivity | discriminate].
Qed.

(** On a remote list that is newest first, a fetch writes the rows of the
    jobs in range. *)
Lemma fetch_new_rows_newest_first fuel remote measure_since csv_data_file
    cutoff_date latest_data_cutoff :
  fromisoformat (measure_since ++ "T00:00:00.0Z") = Some (Aware cutoff_date) ->
  load_latest_data_cutoff csv_data_file
  = Ok (option_map Aware latest_data_cutoff) ->
  (List.length remote < fuel)%nat ->
  newest_first job_time (successful remote) ->
  fetch_new_rows fuel remote measure_since csv_data_file =
    Some (Ok (kept cutoff_date latest_data_cutoff (successful remote))).
Proof.
  intros Hc Hl Hfuel Hsorted.
  rewrite (fetch_new_rows_linear _ _ _ _ _ _ Hc Hl Hfuel).
  destruct (scan_batch_newest_first cutoff_date latest_data_cutoff _ Hsorted [])
    as (hit & ->).
  reflexivity.
Qed.

End Fetch.

Section FetchStatements.
Context {lib : PyLib}.

Lemma job_row_time job row :
  job_row job = Some row -> row_time row = job_time job.
Proof.
  unfold job_row. destruct (Job.runner job); [|discriminate].
  intros [= <-]. reflexivity.
Qed.

Lemma job_row_known job :
  Job.runner job <> None -> exists row, job_row job = Some row.
Proof.
  unfold job_row. destruct (Job.runner job); [eexists; reflexivity | congruence].
Qed.

Lemma strictly_newest_first_weaken {A : Type} (time : A -> option instant) l :
  strictly_newest_first time l -> newest_first time l.
Proof.
  intros [Ht Hs]. split; [exact Ht|]. clear Ht.
  induction Hs as [|a l _ IH Ha]; constructor; [exact IH|].
  eapply Forall_impl; [|exact Ha].
  intros b (t & u & H1 & H2 & H3). exists t, u. repeat split; auto; lia.
Qed.

(** What a fetch that returns has put before the previous content. *)
Lemma fetch_jobs_data_written fuel remote measure_since csv_data_file
    cutoff_date latest_data_cutoff csv_data_file' :
  fromisoformat (measure_since ++ "T00:00:00.0Z") = Some (Aware cutoff_date) ->
  load_latest_data_cutoff csv_data_file
  = Ok (option_map Aware latest_data_cutoff) ->
  fetch_jobs_data fuel remote measure_since csv_data_file
  = Some (Ok csv_data_file') ->
  exists new,
    csv_data_file' = Some (new ++ previous_content csv_data_file)%list /\
    Forall (written_from cutoff_date latest_data_cutoff (successful remote)) new.
Proof.
  intros Hc Hl H. unfold fetch_jobs_data, fetch_new_rows, parse_datetime in H.
  rewrite Hl, Hc in H. cbn [of_option] in H.
  destruct (fetch_pages fuel remote (Aware cutoff_date)
                        (option_map Aware latest_data_cutoff) 1 [])
    as [[new|e]|] eqn:Hp; try discriminate.
  injection H as <-.
  apply fetch_pages_sound in Hp. destruct Hp as (new' & -> & Hnew).
  exists new'. split; [reflexivity | exact Hnew].
Qed.

(** C1 (amended).  For every fetch with configured since_date D and a
    store whose newest stored timestamp is L (or L unset when the store is
    empty), every record newly written by the fetch has created_at >= D at
    00:00:00 UTC and, when L is set, created_at strictly greater than L;
    and, when the remote list is in strictly descending created_at order,
    the fetch returns and no remote successful record satisfying both
    bounds whose runner is known is dropped.  The new records stand before
    the previous content, as the fetch copies it. *)
Theorem fetch_cutoff_correct remote measure_since csv_data_file
    cutoff_date latest_data_cutoff :
  fromisoformat (measure_since ++ "T00:00:00.0Z") = Some (Aware cutoff_date) ->
  load_latest_data_cutoff csv_data_file
  = Ok (option_map Aware latest_data_cutoff) ->
  (forall fuel csv_data_file',
     fetch_jobs_data fuel remote measure_since csv_data_file
     = Some (Ok csv_data_file') ->
     exists new,
       csv_data_file' = Some (new ++ previous_content csv_data_file)%list /\
       forall row, In row new ->
         exists t, row_time row = Some t /\ cutoff_date <= t /\
                   forall latest, latest_data_cutoff = Some latest -> latest < t)
  /\
  (strictly_newest_first job_time (successful remote) ->
   forall fuel, (List.length remote < fuel)%nat ->
     exists new,
       fetch_jobs_data fuel remote measure_since csv_data_file
       = Some (Ok (Some (new ++ previous_content csv_data_file)%list)) /\
       forall job t,
         In job remote -> Job.status job = "success" ->
         job_time job = Some t ->
         cutoff_date <= t ->
         (forall latest, latest_data_cutoff = Some latest -> latest < t) ->
         Job.runner job <> None ->
         exists row, job_row job = Some row /\ In row new).
Proof.
  intros Hc Hl. split.
  - intros fuel csv' H.
    destruct (fetch_jobs_data_written _ _ _ _ _ _ _ Hc Hl H) as (new & -> & Hnew).
    exists new. split; [reflexivity|]. intros row Hrow.
    rewrite Forall_forall in Hnew.
    destruct (Hnew row Hrow) as (job & t & _ & Hjr & Ht & Hr).
    exists t. rewrite (job_row_time _ _ Hjr).
    apply in_range_iff in Hr. tauto.
  - intros Hsorted fuel Hfuel. apply strictly_newest_first_weaken in Hsorted.
    exists (kept cutoff_date latest_data_cutoff (successful remote)). split.
    + unfold fetch_jobs_data.
      rewrite (fetch_new_rows_newest_first _ _ _ _ _ _ Hc Hl Hfuel Hsorted).
      reflexivity.
    + intros job t Hin Hst Ht Hcut Hlat Hrun.
      destruct (job_row_known job Hrun) as (row & Hrow).
      exists row. split; [exact Hrow|]. apply kept_in.
      exists job, t. split; [apply successful_in; auto|].
      split; [exact Hrow|]. split; [exact Ht|].
      apply in_range_iff. auto.
Qed.

(** With fuel for its pages a fetch raises, and the data file is not
    replaced, or returns the new rows followed by the rows of the previous
    file as the copy in text mode gives them, in their order: row [i] of
    the previous file is row [length new + i] of the new one, with
    universal newlines in its fields, and as it was when none of its
    fields holds a carriage return. *)
Lemma merge_copies_previous_content fuel remote measure_since csv_data_file :
  (List.length remote < fuel)%nat ->
  (exists e,
     fetch_jobs_data fuel remote measure_since csv_data_file = Some (Raise e))
  \/
  (exists new,
     fetch_new_rows fuel remote measure_since csv_data_file = Some (Ok new) /\
     fetch_jobs_data fuel remote measure_since csv_data_file
     = Some (Ok (Some (new ++ previous_content csv_data_file)%list)) /\
     forall rows i row,
       csv_data_file = Some rows ->
       nth_error rows i = Some row ->
       nth_error (new ++ previous_content csv_data_file)%list
                 (List.length new + i)
       = Some (map universal_newlines row) /\
       (plain_row row -> map universal_newlines row = row)).
Proof.
  intro Hfuel. unfold fetch_jobs_data.
  assert (Hret : exists r,
             fetch_new_rows fuel remote measure_since csv_data_file = Some r).
  { destruct (load_latest_data_cutoff csv_data_file) as [latest|e] eqn:Hl;
      [|unfold fetch_new_rows; rewrite Hl; eexists; reflexivity].
    destruct (fromisoformat (measure_since ++ "T00:00:00.0Z")) as [cutoff|] eqn:Hc.
    - rewrite (fetch_new_rows_linear _ _ _ _ _ _ Hc Hl Hfuel).
      eexists; reflexivity.
    - unfold fetch_new_rows, parse_datetime. rewrite Hl, Hc.
      eexists; reflexivity. }
  destruct Hret as ([new|e] & ->).
  - right. exists new. split; [reflexivity|]. split; [reflexivity|].
    intros rows i row -> Hrow. split.
    + rewrite nth_error_app2 by lia.
      replace (List.length new + i - List.length new)%nat with i by lia.
      cbn [previous_content]. unfold text_mode_copy, Row in *.
      rewrite nth_error_map, Hrow. reflexivity.
    + clear Hrow. intro Hplain.
      induction Hplain as [|field row' Hfield _ IH]; [reflexivity|].
      cbn [map]. rewrite (universal_newlines_plain _ Hfield), IH.
      reflexivity.
  - left. exists e. reflexivity.
Qed.

Lemma load_latest_of_first_row row rows latest :
  row_time row = Some latest ->
  load_latest_data_cutoff (Some (row :: rows)) = Ok (Some (Aware latest)).
Proof.
  intro H. destruct row as [|created_at row]; [discriminate|].
  cbn [row_time] in H. unfold instant_of in H.
  destruct (fromisoformat created_at) as [[u|u]|] eqn:E; try discriminate.
  injection H as ->.
  cbn. unfold parse_datetime. rewrite E. reflexivity.
Qed.

(** X20.  For every store that is not empty, when the remote list has no
    successful job newer than the time of the first row of the store, a
    fetch writes nothing new: it returns the store as the copy in text
    mode gives it, with as many rows, and the store as it was when no
    field of it holds a carriage return. *)
Theorem fetch_again_copies_store fuel remote measure_since row rows
    cutoff_date latest :
  fromisoformat (measure_since ++ "T00:00:00.0Z") = Some (Aware cutoff_date) ->
  row_time row = Some latest ->
  Forall (fun job => exists t, job_time job = Some t /\ t <= latest)
         (successful remote) ->
  (List.length remote < fuel)%nat ->
  fetch_jobs_data fuel remote measure_since (Some (row :: rows))
  = Some (Ok (Some (text_mode_copy (row :: rows)))) /\
  List.length (text_mode_copy (row :: rows)) = List.length (row :: rows) /\
  (plain_rows (row :: rows) ->
   fetch_jobs_data fuel remote measure_since (Some (row :: rows))
   = Some (Ok (Some (row :: rows)))).
Proof.
  intros Hc Hrow Hold Hfuel.
  assert (H : fetch_jobs_data fuel remote measure_since (Some (row :: rows))
              = Some (Ok (Some (text_mode_copy (row :: rows))))).
  { unfold fetch_jobs_data.
    rewrite (fetch_new_rows_linear _ _ _ _ _ _ Hc
               (load_latest_of_first_row _ rows _ Hrow) Hfuel).
    destruct Hold as [|job jobs (t & Ht & Hle) _]; [reflexivity|].
    rewrite (scan_batch_cons cutoff_date (Some latest) _ _ _ _ Ht).
    assert (in_range cutoff_date (Some latest) t = false) as ->.
    { unfold in_range. destruct (Z.ltb_spec latest t); [lia|].
      apply andb_false_r. }
    reflexivity. }
  split; [exact H|]. split; [apply length_map|].
  intro Hplain. rewrite H, (text_mode_copy_plain _ Hplain). reflexivity.
Qed.

Section Order.
Context {stable : NewlineStable lib}.

(** The order of the times: [>=], or [>]. *)
Variable R : instant -> instant -> Prop.
Hypothesis R_ge : forall t u, R t u -> t >= u.
Hypothesis R_after : forall t latest u, t > latest -> latest >= u -> R t u.

Lemma ordered_by_nil {A : Type} (time : A -> option instant) :
  ordered_by R time [].
Proof. split; constructor. Qed.

Lemma ordered_by_cons_inv {A : Type} (time : A -> option instant) a l :
  ordered_by R time (a :: l) ->
  (exists t, time a = Some t /\
             Forall (fun b => exists u, time b = Some u /\ R t u) l) /\
  ordered_by R time l.
Proof.
  intros [Ht Hs]. inversion Ht as [|? ? (t & Ha) Ht']; subst.
  apply StronglySorted_inv in Hs. destruct Hs as [Hs Hall].
  split; [|split; assumption].
  exists t. split; [exact Ha|].
  eapply Forall_impl; [|exact Hall].
  intros b (t' & u & H1 & H2 & H3). exists u. split; [exact H2|].
  rewrite Ha in H1. injection H1 as <-. exact H3.
Qed.

Lemma ordered_by_cons {A : Type} (time : A -> option instant) a l t :
  time a = Some t ->
  Forall (fun b => exists u, time b = Some u /\ R t u) l ->
  ordered_by R time l ->
  ordered_by R time (a :: l).
Proof.
  intros Ha Hall [Ht Hs]. split.
  - constructor; [exists t; exact Ha | exact Ht].
  - constructor; [exact Hs|].
    eapply Forall_impl; [|exact Hall].
    intros b (u & Hu & Hle). exists t, u. auto.
Qed.

Lemma ordered_by_app {A : Type} (time : A -> option instant) l1 l2 :
  ordered_by R time l1 ->
  ordered_by R time l2 ->
  (forall a b, In a l1 -> In b l2 -> later_by R time a b) ->
  ordered_by R time (l1 ++ l2).
Proof.
  intros H1 H2. induction l1 as [|a l1 IH]; intro Hcross; [exact H2|].
  apply ordered_by_cons_inv in H1. destruct H1 as ((t & Ha & Hall) & H1).
  rewrite <- app_comm_cons. apply (ordered_by_cons time a _ t Ha).
  - apply Forall_app. split; [exact Hall|].
    apply Forall_forall. intros b Hb.
    destruct (Hcross a b (or_introl eq_refl) Hb) as (t' & u & Ht' & Hu & Hle).
    exists u. split; [exact Hu|].
    rewrite Ha in Ht'. injection Ht' as <-. exact Hle.
  - apply IH; [exact H1|].
    intros a' b Ha' Hb. apply Hcross; [right; exact Ha' | exact Hb].
Qed.

Lemma ordered_by_newest_first {A : Type} (time : A -> option instant) l :
  ordered_by R time l -> newest_first time l.
Proof.
  intros [Ht Hs]. split; [exact Ht|]. clear Ht.
  induction Hs as [|a l _ IH Ha]; constructor; [exact IH|].
  eapply Forall_impl; [|exact Ha].
  intros b (t & u & H1 & H2 & H3). exists t, u. auto.
Qed.

(** The copy of rows that are ordered is ordered: it keeps their times. *)
Lemma text_mode_copy_ordered rows :
  ordered_by R row_time rows -> ordered_by R row_time (text_mode_copy rows).
Proof.
  induction rows as [|row rows IH]; intro H; [exact H|].
  apply ordered_by_cons_inv in H. destruct H as ((t & Ht & Hall) & H).
  cbn [text_mode_copy map].
  apply (ordered_by_cons row_time _ _ t (row_time_copy _ _ Ht)).
  - apply Forall_map. eapply Forall_impl; [|exact Hall].
    intros b (u & Hu & HR). exists u. split; [apply row_time_copy, Hu | exact HR].
  - apply IH, H.
Qed.

(** The rows kept of an ordered list are ordered. *)
Lemma kept_ordered cutoff_date latest_data_cutoff jobs :
  ordered_by R job_time jobs ->
  ordered_by R row_time (kept cutoff_date latest_data_cutoff jobs).
Proof.
  induction jobs as [|job jobs IH]; intro H; [apply ordered_by_nil|].
  apply ordered_by_cons_inv in H. destruct H as ((t & Ht & Hall) & H).
  specialize (IH H). cbn [kept]. rewrite Ht.
  destruct (job_row job) as [row|] eqn:Hrow; [|exact IH].
  destruct (in_range cutoff_date latest_data_cutoff t); [|exact IH].
  apply (ordered_by_cons row_time row _ t).
  - rewrite (job_row_time _ _ Hrow). exact Ht.
  - apply Forall_forall. intros r Hr.
    apply kept_in in Hr. destruct Hr as (j & u & Hj & Hjr & Hu & _).
    rewrite Forall_forall in Hall.
    destruct (Hall j Hj) as (u' & Hu' & Hle).
    exists u. rewrite (job_row_time _ _ Hjr). split; [exact Hu|].
    rewrite Hu in Hu'. injection Hu' as <-. exact Hle.
  - exact IH.
Qed.

(** The latest time of a data file that is ordered: the time of its first
    row, not before the time of any row, copied or not. *)
Lemma load_latest_ordered csv_data_file :
  store_ordered_by R csv_data_file ->
  exists latest_data_cutoff,
    load_latest_data_cutoff csv_data_file
    = Ok (option_map Aware latest_data_cutoff) /\
    forall row, In row (previous_content csv_data_file) ->
      exists latest u,
        latest_data_cutoff = Some latest /\ row_time row = Some u /\
        latest >= u.
Proof.
  destruct csv_data_file as [[|row rows]|]; intro H.
  - exists None. split; [reflexivity | intros ? []].
  - apply ordered_by_cons_inv in H. destruct H as ((t & Ht & Hall) & _).
    exists (Some t). split; [apply load_latest_of_first_row, Ht|].
    cbn [previous_content text_mode_copy map].
    intros r [<-|Hr].
    + exists t, t. split; [reflexivity|].
      split; [apply row_time_copy, Ht | lia].
    + apply in_map_iff in Hr. destruct Hr as (r0 & <- & Hr0).
      rewrite Forall_forall in Hall. destruct (Hall r0 Hr0) as (u & Hu & Hle).
      exists t, u. split; [reflexivity|].
      split; [apply row_time_copy, Hu | apply R_ge, Hle].
  - exists None. split; [reflexivity | intros ? []].
Qed.

Lemma previous_content_ordered csv_data_file :
  store_ordered_by R csv_data_file ->
  ordered_by R row_time (previous_content csv_data_file).
Proof.
  destruct csv_data_file as [rows|]; intro H;
    [apply text_mode_copy_ordered, H | apply ordered_by_nil].
Qed.

(** One run keeps the data file ordered. *)
Lemma fetch_then_merge_ordered remote measure_since csv_data_file :
  store_ordered_by R csv_data_file ->
  ordered_by R job_time (successful remote) ->
  store_ordered_by R (fetch_then_merge remote measure_since csv_data_file).
Proof.
  intros Hstore Hremote. unfold fetch_then_merge.
  destruct (load_latest_ordered _ Hstore) as (latest & Hl & Hprev).
  destruct (fromisoformat (measure_since ++ "T00:00:00.0Z"))
    as [[cutoff|cutoff]|] eqn:Hc.
  - unfold fetch_jobs_data.
    rewrite (fetch_new_rows_newest_first _ _ _ _ _ _ Hc Hl
               (Nat.lt_succ_diag_r _) (ordered_by_newest_first _ _ Hremote)).
    cbn [store_ordered_by]. apply ordered_by_app.
    + apply kept_ordered, Hremote.
    + apply previous_content_ordered, Hstore.
    + intros a b Ha Hb. apply kept_in in Ha.
      destruct Ha as (job & t & _ & Hjr & Ht & Hr).
      destruct (Hprev b Hb) as (l & u & -> & Hu & Hle).
      apply in_range_iff in Hr. destruct Hr as [_ Hr].
      specialize (Hr l eq_refl).
      exists t, u. rewrite (job_row_time _ _ Hjr).
      split; [exact Ht|]. split; [exact Hu|].
      apply (R_after t l u); lia.
  - unfold fetch_jobs_data.
    rewrite (fetch_new_rows_linear _ _ _ _ _ _ Hc Hl (Nat.lt_succ_diag_r _)).
    destruct (successful remote) as [|job jobs] eqn:Es.
    + cbn [scan_batch app store_ordered_by].
      apply previous_content_ordered, Hstore.
    + apply ordered_by_cons_inv in Hremote.
      destruct Hremote as ((t & Ht & _) & _).
      rewrite (scan_batch_naive_cutoff _ _ _ _ _ _ Ht). exact Hstore.
  - unfold fetch_jobs_data, fetch_new_rows, parse_datetime.
    rewrite Hl, Hc. exact Hstore.
Qed.

(** A sequence of runs keeps the data file ordered. *)
Lemma runs_keep_order runs csv_data_file :
  store_ordered_by R csv_data_file ->
  Forall (fun run => ordered_by R job_time (successful (fst run))) runs ->
  Forall (store_ordered_by R) (fetch_runs runs csv_data_file).
Proof.
  intros Hstore Hruns. revert csv_data_file Hstore.
  induction Hruns as [|[remote measure_since] runs Hrun _ IH];
    intros csv_data_file Hstore; cbn [fetch_runs]; constructor.
  - apply fetch_then_merge_ordered; assumption.
  - apply IH, fetch_then_merge_ordered; assumption.
Qed.

End Order.

(** C2.  For every store that is ordered (a new store is) and every
    sequence of fetch-and-merge operations whose remote lists are in
    descending created_at order, the record sequence on disk is
    non-increasing by created_at (newest first) after each merge; and it
    is strictly decreasing after each merge when the store was and the
    remote lists are.  The copy of the previous rows keeps their times
    ([NewlineStable]). *)
Theorem fetch_runs_ordered {stable : NewlineStable lib} runs csv_data_file :
  (store_ordered csv_data_file ->
   Forall (fun run => newest_first job_time (successful (fst run))) runs ->
   Forall store_ordered (fetch_runs runs csv_data_file))
  /\
  (store_strictly_ordered csv_data_file ->
   Forall (fun run => strictly_newest_first job_time (successful (fst run)))
          runs ->
   Forall store_strictly_ordered (fetch_runs runs csv_data_file)).
Proof.
  split.
  - apply (runs_keep_order Z.ge); intros; lia.
  - apply (runs_keep_order Z.gt); intros; lia.
Qed.

End FetchStatements.

(** ** The statements on the example jobs *)

(** The timestamps the reference instance reads have no carriage return,
    so that it reads them the same after the copy. *)
#[export] Instance Ref_newline_stable : NewlineStable Ref.lib.
Proof.
  intros s d H. cbn in *. unfold Ref.fromisoformat in H.
  destruct (Ref.all_chars Ref.timestamp_char s) eqn:Hchars;
    [|discriminate].
  assert (Hplain : no_carriage_return s = true).
  { clear H. induction s as [|c s IH]; [reflexivity|].
    cbn [Ref.all_chars] in Hchars. apply andb_true_iff in Hchars.
    destruct Hchars as [Hc Hs]. cbn [no_carriage_return].
    rewrite (IH Hs), andb_true_r.
    destruct (Ascii.eqb_spec c "013") as [->|]; [discriminate | reflexivity]. }
  rewrite (universal_newlines_plain _ Hplain).
  unfold Ref.fromisoformat. rewrite Hchars. exact H.
Qed.

Ltac has_time :=
  match goal with
  | |- exists t, ?time ?a = Some t =>
      let v := eval vm_compute in (time a) in
      match v with
      | Some ?t => exists t; vm_compute; reflexivity
      end
  end.

Ltac is_later :=
  match goal with
  | |- ?R ?time ?a ?b =>
      let va := eval vm_compute in (time a) in
      let vb := eval vm_compute in (time b) in
      match va with
      | Some ?t =>
          match vb with
          | Some ?u =>
              exists t, u;
              split; [vm_compute; reflexivity|];
              split; [vm_compute; reflexivity | lia]
          end
      end
  end.

Ltac in_order :=
  split;
  [ repeat (apply Forall_cons; [has_time|]); apply Forall_nil
  | repeat (apply SSorted_cons;
            [|repeat (apply Forall_cons; [is_later|]); apply Forall_nil]);
    apply SSorted_nil ].

(** C1 as stated fails at a remote list with a successful job whose
    runner is not known: its time is within both bounds (no latest time,
    since date 2024-03-01), yet the store has no record of that time after
    the fetch. *)
Lemma fetch_drops_job_without_runner :
  strictly_newest_first (@job_time Ref.lib) (successful Examples.remote) /\
  In Examples.orphan_job (successful Examples.remote) /\
  @job_time Ref.lib Examples.orphan_job = Some 1709542800000000 /\
  Ref.fromisoformat "2024-03-01T00:00:00.0Z" = Some (Aware 1709251200000000) /\
  1709251200000000 <= 1709542800000000 /\
  @load_latest_data_cutoff Ref.lib None = Ok None /\
  exists new,
    @fetch_jobs_data Ref.lib 6 Examples.remote "2024-03-01" None
    = Some (Ok (Some new)) /\
    ~ exists row, In row new /\ @row_time Ref.lib row = Some 1709542800000000.
Proof.
  split; [in_order|].
  split; [right; left; reflexivity|].
  split; [vm_compute; reflexivity|].
  split; [vm_compute; reflexivity|].
  split; [lia|].
  split; [reflexivity|].
  eexists. split; [vm_compute; reflexivity|].
  intros (row & Hin & Ht).
  repeat (destruct Hin as [<-|Hin]; [vm_compute in Ht; discriminate|]).
  destruct Hin.
Qed.

(** A fetch on top of the example store writes the job of 2024-03-05. *)
Lemma fetch_cutoff_correct_witness :
  exists new,
    @fetch_jobs_data Ref.lib 5 Examples.remote_later "2024-03-01"
                     (Some Examples.store)
    = Some (Ok (Some (new ++ Examples.store)%list)) /\
    exists row, @job_row Ref.lib Examples.job5 = Some row /\ In row new.
Proof.
  destruct (@fetch_cutoff_correct Ref.lib Examples.remote_later "2024-03-01"
              (Some Examples.store) 1709251200000000
              (Some 1709456400000000)) as [_ H].
  - vm_compute. reflexivity.
  - vm_compute. reflexivity.
  - destruct (H ltac:(in_order) 5%nat ltac:(simpl; lia)) as (new & Hnew & Hall).
    exists new. split; [exact Hnew|].
    apply (Hall Examples.job5 1709629200000000).
    + left. reflexivity.
    + reflexivity.
    + vm_compute. reflexivity.
    + lia.
    + intros latest [= <-]. lia.
    + discriminate.
Defined.

Lemma fetch_runs_ordered_witness :
  Forall (@store_ordered Ref.lib)
         (@fetch_runs Ref.lib
            [(Examples.remote_before, "2024-03-01");
             (Examples.remote, "2024-02-01")] None) /\
  Forall (@store_strictly_ordered Ref.lib)
         (@fetch_runs Ref.lib
            [(Examples.remote_before, "2024-03-01");
             (Examples.remote, "2024-02-01")] None).
Proof.
  split.
  - apply (@fetch_runs_ordered Ref.lib Ref_newline_stable).
    + exact I.
    + apply Forall_cons; [in_order|].
      apply Forall_cons; [in_order|].
      apply Forall_nil.
  - apply (@fetch_runs_ordered Ref.lib Ref_newline_stable).
    + exact I.
    + apply Forall_cons; [in_order|].
      apply Forall_cons; [in_order|].
      apply Forall_nil.
Defined.

(** The example store has no carriage return: a fetch with nothing new
    returns it as it was. *)
Lemma fetch_again_copies_store_witness :
  @fetch_jobs_data Ref.lib 4 Examples.remote_before "2024-03-01"
                   (Some Examples.store)
  = Some (Ok (Some Examples.store)).
Proof.
  apply (@fetch_again_copies_store Ref.lib 4 Examples.remote_before
           "2024-03-01" Examples.build1
           [Examples.build2; Examples.build3; Examples.test1]
           1709251200000000 1709456400000000).
  - vm_compute. reflexivity.
  - vm_compute. reflexivity.
  - repeat (apply Forall_cons;
            [eexists; split; [vm_compute; reflexivity | lia]|]).
    apply Forall_nil.
  - simpl. lia.
  - repeat (apply Forall_cons;
            [repeat (apply Forall_cons; [reflexivity|]); apply Forall_nil|]).
    apply Forall_nil.
Defined.

(** C3, at a store whose newest row has a runner description of two lines
    ended by [\r\n], with a remote list that has no newer job: the fetch
    writes nothing new and returns as many rows, but the description of
    the row is no longer the one that was stored. *)
Theorem fetch_again_rewrites_stored_field :
  @row_time Ref.lib Examples.crlf_build = Some 1709456400000000 /\
  Forall (fun job => exists t, @job_time Ref.lib job = Some t /\
                               t <= 1709456400000000)
         (successful Examples.remote_before) /\
  @fetch_jobs_data Ref.lib 4 Examples.remote_before "2024-03-01"
                   (Some [Examples.crlf_build; Examples.build2])
  = Some (Ok (Some [Examples.lf_build; Examples.build2])) /\
  [Examples.lf_build; Examples.build2]
  <> [Examples.crlf_build; Examples.build2] /\
  nth_error Examples.lf_build 5 <> nth_error Examples.crlf_build 5.
Proof.
  split; [vm_compute; reflexivity|].
  split.
  { repeat (apply Forall_cons;
            [eexists; split; [vm_compute; reflexivity | lia]|]).
    apply Forall_nil. }
  split; [vm_compute; reflexivity|].
  split; intro H; vm_compute in H; discriminate.
Qed.

(** C8, at a store whose newest row has a runner description of two lines
    ended by a lone [\r], with a remote list that has one newer job: the
    merge puts the row of the new job first, and the row it appends is
    not the row that was stored. *)
Theorem merge_rewrites_previous_row :
  exists new,
    @fetch_new_rows Ref.lib 5 Examples.remote_later "2024-03-01"
                    (Some [Examples.cr_build; Examples.build2])
    = Some (Ok new) /\
    @fetch_jobs_data Ref.lib 5 Examples.remote_later "2024-03-01"
                     (Some [Examples.cr_build; Examples.build2])
    = Some (Ok (Some (new ++ [Examples.lf_build; Examples.build2])%list)) /\
    nth_error (new ++ [Examples.lf_build; Examples.build2])%list
              (List.length new + 0)
    = Some Examples.lf_build /\
    nth_error [Examples.cr_build; Examples.build2] 0 = Some Examples.cr_build /\
    Examples.lf_build <> Examples.cr_build.
Proof.
  eexists. split; [vm_compute; reflexivity|].
  split; [vm_compute; reflexivity|].
  split; [reflexivity|]. split; [reflexivity|].
  intro H. vm_compute in H. discriminate.
Qed.

(** * Further properties: the job names of a store *)

Section MeasuredJobs.

Lemma str_lt_trans s1 s2 s3 : str_lt s1 s2 -> str_lt s2 s3 -> str_lt s1 s3.
Proof.
  unfold str_lt. intros H1 H2.
  apply OrderedTypeEx.String_as_OT.cmp_lt.
  apply OrderedTypeEx.String_as_OT.cmp_lt in H1, H2.
  exact (OrderedTypeEx.String_as_OT.lt_trans _ _ _ H1 H2).
Qed.

Lemma str_lt_irrefl s : ~ str_lt s s.
Proof.
  unfold str_lt. intro H.
  assert (E : String.compare s s = Eq)
    by (apply OrderedTypeEx.String_as_OT.cmp_eq; reflexivity).
  congruence.
Qed.

Lemma str_lt_gt s1 s2 : String.compare s1 s2 = Gt -> str_lt s2 s1.
Proof.
  unfold str_lt. intro H. rewrite String.compare_antisym, H. reflexivity.
Qed.

Lemma set_insert_in s l x : In x (set_insert s l) <-> x = s \/ In x l.
Proof.
  induction l as [|y l IH]; cbn [set_insert].
  - cbn. intuition.
  - destruct (String.compare s y) eqn:E.
    + apply String.compare_eq_iff in E. subst y. cbn. intuition.
    + cbn. intuition.
    + cbn [In]. rewrite IH. intuition.
Qed.

Lemma set_insert_sorted s l :
  StronglySorted str_lt l -> StronglySorted str_lt (set_insert s l).
Proof.
  induction 1 as [|y l Hl IH Hy]; cbn [set_insert].
  - repeat constructor.
  - destruct (String.compare s y) eqn:E.
    + constructor; assumption.
    + constructor; [constructor; assumption|].
      constructor; [exact E|].
      eapply Forall_impl; [|exact Hy].
      intros z Hz. exact (str_lt_trans _ _ _ E Hz).
    + constructor; [exact IH|].
      apply Forall_forall. intros z Hz. apply set_insert_in in Hz.
      destruct Hz as [->|Hz]; [apply str_lt_gt, E|].
      rewrite Forall_forall in Hy. apply Hy, Hz.
Qed.

Lemma sorted_set_in names x : In x (sorted_set names) <-> In x names.
Proof.
  induction names as [|n names IH]; cbn [sorted_set fold_right].
  - reflexivity.
  - fold (sorted_set names). rewrite set_insert_in, IH. cbn. intuition.
Qed.

Lemma sorted_set_sorted names : StronglySorted str_lt (sorted_set names).
Proof.
  induction names as [|n names IH]; cbn [sorted_set fold_right].
  - constructor.
  - apply set_insert_sorted, IH.
Qed.

(** Two strictly increasing lists with the same elements are equal. *)
Lemma sorted_unique l1 :
  forall l2,
    StronglySorted str_lt l1 -> StronglySorted str_lt l2 ->
    (forall x, In x l1 <-> In x l2) -> l1 = l2.
Proof.
  induction l1 as [|a l1 IH]; intros [|b l2] H1 H2 Hin.
  - reflexivity.
  - destruct (proj2 (Hin b) (or_introl eq_refl)).
  - destruct (proj1 (Hin a) (or_introl eq_refl)).
  - apply StronglySorted_inv in H1, H2.
    destruct H1 as [H1 Ha], H2 as [H2 Hb].
    rewrite Forall_forall in Ha, Hb.
    assert (a = b) as ->.
    { destruct (proj1 (Hin a) (or_introl eq_refl)) as [E|Ea]; [auto|].
      destruct (proj2 (Hin b) (or_introl eq_refl)) as [E|Eb]; [auto|].
      exfalso. apply (str_lt_irrefl a).
      exact (str_lt_trans _ _ _ (Ha _ Eb) (Hb _ Ea)). }
    f_equal. apply IH; [assumption | assumption |].
    intro x. split; intro Hx.
    + destruct (proj1 (Hin x) (or_intror Hx)) as [<-|Hx']; [|exact Hx'].
      exfalso. exact (str_lt_irrefl _ (Ha _ Hx)).
    + destruct (proj2 (Hin x) (or_intror Hx)) as [<-|Hx']; [|exact Hx'].
      exfalso. exact (str_lt_irrefl _ (Hb _ Hx)).
Qed.

(** The names read off the rows: all of them, or [IndexError] when a row
    has no second column. *)
Lemma job_names_of_ok rows :
  Forall (fun row => job_name_of row <> None) rows ->
  exists names,
    job_names_of rows = Ok names /\
    forall x, In x names <-> exists row, In row rows /\ job_name_of row = Some x.
Proof.
  induction 1 as [|row rows Hrow _ (names & Hn & Hin)].
  - exists []. split; [reflexivity|]. intro x. split; [intros [] | intros (? & [] & _)].
  - unfold job_name_of in Hrow.
    destruct (nth_error row 1) as [n|] eqn:E; [|congruence].
    exists (n :: names). split.
    + cbn [job_names_of]. unfold index. rewrite E. cbn [of_option bind].
      rewrite Hn. reflexivity.
    + intro x. cbn [In]. rewrite Hin. split.
      * intros [<-|(r & Hr & Hx)].
        -- exists row. split; [left; reflexivity | exact E].
        -- exists r. split; [right; exact Hr | exact Hx].
      * intros (r & [<-|Hr] & Hx).
        -- left. unfold job_name_of in Hx. congruence.
        -- right. exists r. auto.
Qed.

Lemma job_names_of_short rows :
  Exists (fun row => job_name_of row = None) rows ->
  job_names_of rows = Raise IndexError.
Proof.
  induction 1 as [row rows H | row rows _ IH]; cbn [job_names_of]; unfold index.
  - unfold job_name_of in H. rewrite H. reflexivity.
  - destruct (nth_error row 1); [|reflexivity].
    cbn [of_option bind]. rewrite IH. reflexivity.
Qed.

Lemma all_or_short rows :
  Forall (fun row => job_name_of row <> None) rows \/
  Exists (fun row => job_name_of row = None) rows.
Proof.
  induction rows as [|row rows [IH|IH]].
  - left. constructor.
  - destruct (job_name_of row) eqn:E.
    + left. constructor; [congruence | exact IH].
    + right. left. exact E.
  - right. right. exact IH.
Qed.

(** X1.  [get_measured_jobs] returns the job names of the store in
    lexicographic order: when every row has a second column, the result is
    strictly increasing (so without repeats) and holds exactly the names
    that are the second column of some row. *)
Theorem get_measured_jobs_sorted_names rows :
  Forall (fun row => job_name_of row <> None) rows ->
  exists names,
    get_measured_jobs (Some rows) = Ok names /\
    StronglySorted str_lt names /\
    forall x, In x names <-> exists row, In row rows /\ job_name_of row = Some x.
Proof.
  intro H. destruct (job_names_of_ok rows H) as (names & Hn & Hin).
  exists (sorted_set names). unfold get_measured_jobs. rewrite Hn.
  split; [reflexivity|]. split; [apply sorted_set_sorted|].
  intro x. rewrite sorted_set_in. apply Hin.
Qed.

(** X2.  The result of [get_measured_jobs], names or exception, depends
    on the set of the rows only: not on their order, nor on repeats. *)
Theorem get_measured_jobs_same_rows rows rows' :
  (forall row, In row rows <-> In row rows') ->
  get_measured_jobs (Some rows) = get_measured_jobs (Some rows').
Proof.
  intro Hsame. unfold get_measured_jobs.
  destruct (all_or_short rows) as [H|H].
  - assert (H' : Forall (fun row => job_name_of row <> None) rows').
    { rewrite Forall_forall in *. intros row Hr. apply H, Hsame, Hr. }
    destruct (job_names_of_ok rows H) as (names & -> & Hin).
    destruct (job_names_of_ok rows' H') as (names' & -> & Hin').
    cbn [bind]. f_equal.
    apply sorted_unique; [apply sorted_set_sorted | apply sorted_set_sorted |].
    intro x. rewrite !sorted_set_in, Hin, Hin'.
    split; intros (row & Hr & Hx); exists row; (split; [apply Hsame, Hr | exact Hx]).
  - assert (H' : Exists (fun row => job_name_of row = None) rows').
    { rewrite Exists_exists in *. destruct H as (row & Hr & Hx).
      exists row. split; [apply Hsame, Hr | exact Hx]. }
    rewrite (job_names_of_short _ H), (job_names_of_short _ H'). reflexivity.
Qed.

End MeasuredJobs.

Lemma get_measured_jobs_sorted_names_witness :
  exists names,
    get_measured_jobs (Some Examples.store) = Ok names /\
    StronglySorted str_lt names /\
    forall x, In x names <->
      exists row, In row Examples.store /\ job_name_of row = Some x.
Proof.
  apply get_measured_jobs_sorted_names.
  repeat (apply Forall_cons; [vm_compute; discriminate|]). apply Forall_nil.
Defined.

Lemma get_measured_jobs_same_rows_witness :
  get_measured_jobs (Some [Examples.build1; Examples.test1])
  = get_measured_jobs
      (Some [Examples.test1; Examples.build1; Examples.test1]).
Proof.
  apply get_measured_jobs_same_rows.
  intro row. simpl. tauto.
Defined.

(** * Further properties: the statistics *)

Section MoreStatistics.
Context {lib : PyLib}.

Lemma accepted_length job_name runner rows :
  (List.length (accepted job_name runner rows) <= List.length rows)%nat.
Proof.
  induction rows as [|row rows IH]; cbn [accepted List.length]; [lia|].
  destruct (read_row row) as [r|]; [|lia].
  destruct (contributes job_name runner r) as [[|]|]; cbn [List.length]; lia.
Qed.

(** X3.  On a store it can scan, [get_job_stats] returns the number of
    accepted records as count, at most the number of rows, and bounds that
    enclose every accepted record: in each of the three families the
    returned minimum is not above, and the returned maximum not below, the
    duration of any accepted record. *)
Theorem get_job_stats_bounds_enclose job_name runner rows :
  scannable job_name runner rows ->
  exists stats,
    get_job_stats job_name runner (Some rows) = Ok stats /\
    no_of_jobs stats = Z.of_nat (List.length (accepted job_name runner rows)) /\
    no_of_jobs stats <= Z.of_nat (List.length rows) /\
    forall r, In r (accepted job_name runner rows) ->
      (runtime_duration_min stats <= rec_run_duration r
       /\ rec_run_duration r <= runtime_duration_max stats
       /\ queue_duration_min stats <= rec_queue_duration r
       /\ rec_queue_duration r <= queue_duration_max stats
       /\ total_duration_min stats <= total_duration r
       /\ total_duration r <= total_duration_max stats)%Q.
Proof.
  intro Hscan. pose proof (accepted_length job_name runner rows) as Hlen.
  destruct (accepted job_name runner rows) as [|r0 rs] eqn:Hacc.
  - exists (mkStats 0 0 0 0 0 0 0 0 0 0).
    rewrite (get_job_stats_scannable _ _ _ Hscan), Hacc.
    split; [reflexivity|]. split; [reflexivity|]. split; [cbn; lia|].
    intros r [].
  - destruct (get_job_stats_counted job_name runner rows Hscan)
      as (stats & Hstats & Hn & _ & _ & _ & H1 & H2 & H3 & H4 & H5 & H6).
    { rewrite Hacc. discriminate. }
    rewrite Hacc in *. cbn zeta in *.
    exists stats. split; [exact Hstats|]. split; [exact Hn|].
    split; [rewrite Hn; lia|].
    intros r Hr.
    repeat split.
    + apply H1. right. apply (in_map rec_run_duration), Hr.
    + apply H2. right. apply (in_map rec_run_duration), Hr.
    + apply H3. right. apply (in_map rec_queue_duration), Hr.
    + apply H4. right. apply (in_map rec_queue_duration), Hr.
    + apply H5. right. apply (in_map total_duration), Hr.
    + apply H6. right. apply (in_map total_duration), Hr.
Qed.

Lemma read_row_job_name row r :
  read_row row = Some r -> job_name_of row = Some (rec_job_name r).
Proof.
  unfold read_row.
  do 8 (destruct row as [|? row]; [discriminate|]).
  destruct (float s2); [|discriminate].
  destruct (float s3); [|discriminate].
  intros [= <-]. reflexivity.
Qed.

Lemma stats_rows_other_jobs job_name runner rows :
  Forall (fun row => read_row row <> None) rows ->
  forall st,
    stats_rows job_name runner st rows
    = stats_rows job_name runner st (filter (has_job_name job_name) rows).
Proof.
  induction 1 as [|row rows Hrow _ IH]; intro st; [reflexivity|].
  destruct (read_row row) as [r|] eqn:Hr; [|congruence].
  cbn [filter]. unfold has_job_name.
  rewrite (read_row_job_name _ _ Hr).
  cbn [stats_rows]. rewrite (stats_row_read _ _ _ _ _ Hr).
  unfold contributes.
  destruct (String.eqb (rec_job_name r) job_name) eqn:E.
  - cbn [stats_rows]. rewrite (stats_row_read _ _ _ _ _ Hr).
    unfold contributes. rewrite E.
    destruct (match_runner (rec_created_at r) (rec_runner_description r) runner)
      as [b|e]; cbn [bind]; [apply IH | reflexivity].
  - cbn [bind]. apply IH.
Qed.

(** X4.  The rows of other jobs never change the statistics of a job: on
    a store whose rows are all well formed, [get_job_stats] returns for
    [job_name] what it returns on the rows of [job_name] alone. *)
Theorem get_job_stats_other_jobs_ignored job_name runner rows :
  Forall (fun row => read_row row <> None) rows ->
  get_job_stats job_name runner (Some rows)
  = get_job_stats job_name runner
      (Some (filter (has_job_name job_name) rows)).
Proof.
  intro H. unfold get_job_stats.
  rewrite (stats_rows_other_jobs _ _ _ H). reflexivity.
Qed.

Lemma datetime_lt_false a b :
  datetime_lt a b = Ok false -> comparable a b /\ reading b <= reading a.
Proof.
  intro H. pose proof (compare_ok_comparable _ _ _ _ H) as Hc.
  unfold datetime_lt in H. rewrite (compare_comparable _ _ _ Hc) in H.
  injection H as H. apply Z.ltb_ge in H. auto.
Qed.

Lemma datetime_gt_false a b :
  datetime_gt a b = Ok false -> comparable a b /\ reading a <= reading b.
Proof.
  intro H. pose proof (compare_ok_comparable _ _ _ _ H) as Hc.
  unfold datetime_gt in H. rewrite (compare_comparable _ _ _ Hc) in H.
  injection H as H. rewrite Z.gtb_ltb in H. apply Z.ltb_ge in H. auto.
Qed.

Lemma comparable_both c a b : comparable c a -> comparable c b -> comparable a b.
Proof. destruct c, a, b; cbn; auto. Qed.

(** What [match_runner] has checked when it accepts. *)
Lemma match_runner_true job_created_at description runner :
  match_runner job_created_at description runner = Ok true ->
  exists created_at,
    fromisoformat job_created_at = Some created_at /\
    from_accepts runner created_at = true /\
    to_accepts runner created_at = true /\
    (forall from, matcher_from runner = Some from ->
                  comparable created_at from) /\
    (forall to, matcher_to runner = Some to -> comparable created_at to).
Proof.
  unfold match_runner, parse_datetime, from_accepts, to_accepts.
  destruct (if truthy_str (matcher_name runner) then _ else _)
    as [[|]|]; cbn [bind]; try discriminate.
  destruct (fromisoformat job_created_at) as [t|]; cbn [of_option bind];
    [|discriminate].
  intro H. exists t. split; [reflexivity|].
  assert (Hfrom : from_accepts runner t = true /\
                  (forall from, matcher_from runner = Some from ->
                                comparable t from) /\
                  (too_late <-
                     match matcher_to runner with
                     | Some to => datetime_gt t to
                     | None => Ok false
                     end ;;
                   if too_late then Ok false else Ok true) = Ok true).
  { unfold from_accepts. destruct (matcher_from runner) as [f|].
    - destruct (datetime_lt t f) as [[|]|] eqn:Ef; cbn [bind] in H;
        try discriminate.
      apply datetime_lt_false in Ef. destruct Ef as [Cf Lf].
      split; [apply Z.leb_le, Lf|]. split; [|exact H].
      intros from [= <-]. exact Cf.
    - cbn [bind] in H. split; [reflexivity|]. split; [discriminate | exact H]. }
  destruct Hfrom as (Hf & Cf & Hto). unfold from_accepts in Hf.
  split; [exact Hf|].
  destruct (matcher_to runner) as [u|].
  - destruct (datetime_gt t u) as [[|]|] eqn:Eu; cbn [bind] in Hto;
      try discriminate.
    apply datetime_gt_false in Eu. destruct Eu as [Cu Lu].
    split; [apply Z.leb_le, Lu|]. split; [exact Cf|].
    intros to [= <-]. exact Cu.
  - split; [reflexivity|]. split; [exact Cf | discriminate].
Qed.

(** X6.  A matcher whose window is inverted (from after to), or whose
    bounds cannot be compared with each other (one with a UTC offset, one
    without), accepts no record, and the statistics of every job for it
    are the zero statistics, not an error, on a store that can be
    scanned. *)
Theorem inverted_window_matches_nothing job_name runner rows from to :
  matcher_from runner = Some from ->
  matcher_to runner = Some to ->
  (comparable from to -> reading from > reading to) ->
  scannable job_name runner rows ->
  accepted job_name runner rows = [] /\
  get_job_stats job_name runner (Some rows)
  = Ok (mkStats 0 0 0 0 0 0 0 0 0 0).
Proof.
  intros Hf Ht Hinv Hscan.
  assert (Hacc : accepted job_name runner rows = []).
  { clear Hscan. induction rows as [|row rows IH]; [reflexivity|].
    cbn [accepted]. destruct (read_row row) as [r|]; [|exact IH].
    destruct (contributes job_name runner r) as [[|]|] eqn:Hc; try exact IH.
    exfalso. unfold contributes in Hc.
    destruct (String.eqb (rec_job_name r) job_name); [|discriminate].
    apply match_runner_true in Hc.
    destruct Hc as (t & _ & H1 & H2 & C1 & C2).
    unfold from_accepts, to_accepts in H1, H2. rewrite Hf in H1. rewrite Ht in H2.
    apply Z.leb_le in H1, H2.
    specialize (Hinv (comparable_both _ _ _ (C1 _ Hf) (C2 _ Ht))). lia. }
  split; [exact Hacc|].
  rewrite (get_job_stats_scannable _ _ _ Hscan), Hacc. reflexivity.
Qed.

End MoreStatistics.

Section CountsPartition.
Context {lib : PyLib}.

Lemma Zsum_add f g names :
  Zsum (fun x => f x + g x) names = Zsum f names + Zsum g names.
Proof.
  induction names as [|n names IH]; cbn [Zsum fold_right]; [reflexivity|].
  fold (Zsum (fun x => f x + g x) names) (Zsum f names) (Zsum g names). lia.
Qed.

Lemma Zsum_ext f g names :
  (forall x, In x names -> f x = g x) -> Zsum f names = Zsum g names.
Proof.
  induction names as [|n names IH]; intro H; cbn [Zsum fold_right]; [reflexivity|].
  fold (Zsum f names) (Zsum g names).
  rewrite (H n (or_introl eq_refl)), IH; [reflexivity|].
  intros x Hx. apply H. right. exact Hx.
Qed.

Lemma Zsum_zero names : Zsum (fun _ => 0) names = 0.
Proof. induction names as [|n names IH]; cbn; [reflexivity | exact IH]. Qed.

(** A name occurs once in a list without repeats. *)
Lemma Zsum_indicator n names :
  NoDup names -> In n names ->
  Zsum (fun x => if String.eqb n x then 1 else 0) names = 1.
Proof.
  induction 1 as [|y names Hy Hnd IH]; intro Hin; [destruct Hin|].
  cbn [Zsum fold_right].
  fold (Zsum (fun x => if String.eqb n x then 1 else 0) names).
  destruct (String.eqb_spec n y) as [->|Hne].
  - rewrite (Zsum_ext _ (fun _ => 0)); [rewrite Zsum_zero; reflexivity|].
    intros x Hx. destruct (String.eqb_spec y x) as [->|]; [contradiction | reflexivity].
  - destruct Hin as [->|Hin]; [congruence|]. rewrite (IH Hin). reflexivity.
Qed.

Lemma sorted_NoDup names : StronglySorted str_lt names -> NoDup names.
Proof.
  induction 1 as [|n names _ IH Hn]; constructor; [|exact IH].
  intro Hin. rewrite Forall_forall in Hn.
  exact (str_lt_irrefl _ (Hn _ Hin)).
Qed.

(** The number of rows of each job name adds up to the number of rows. *)
Lemma rows_by_job_name names rows :
  NoDup names ->
  (forall row, In row rows ->
     exists n, job_name_of row = Some n /\ In n names) ->
  Zsum (fun name =>
          Z.of_nat (List.length (filter (has_job_name name) rows))) names
  = Z.of_nat (List.length rows).
Proof.
  intros Hnd. induction rows as [|row rows IH]; intro Hcover.
  - cbn [filter List.length]. cbn. apply Zsum_zero.
  - destruct (Hcover row (or_introl eq_refl)) as (n & Hn & Hin).
    rewrite (Zsum_ext _
               (fun name => (if String.eqb n name then 1 else 0)
                            + Z.of_nat (List.length
                                          (filter (has_job_name name) rows)))).
    + rewrite Zsum_add, (Zsum_indicator n names Hnd Hin), IH.
      * cbn [List.length]. lia.
      * intros r Hr. apply Hcover. right. exact Hr.
    + intros name _. cbn [filter]. unfold has_job_name at 1. rewrite Hn.
      destruct (String.eqb n name); cbn [List.length]; lia.
Qed.

(** A matcher without filter accepts every record that has a time. *)
Lemma contributes_unfiltered job_name runner r t :
  matcher_name runner = None ->
  matcher_from runner = None ->
  matcher_to runner = None ->
  fromisoformat (rec_created_at r) = Some t ->
  contributes job_name runner r
  = Ok (String.eqb (rec_job_name r) job_name).
Proof.
  intros Hn Hf Ht Hc. unfold contributes.
  destruct (String.eqb (rec_job_name r) job_name); [|reflexivity].
  rewrite (match_runner_value _ _ _ t Hc).
  - unfold name_accepts, from_accepts, to_accepts. rewrite Hn, Hf, Ht. reflexivity.
  - intros pattern H. congruence.
  - intros from H. congruence.
  - intros to H. congruence.
Qed.

Lemma scannable_unfiltered job_name runner rows :
  matcher_name runner = None ->
  matcher_from runner = None ->
  matcher_to runner = None ->
  Forall dated_row rows ->
  scannable job_name runner rows /\
  List.length (accepted job_name runner rows)
  = List.length (filter (has_job_name job_name) rows).
Proof.
  intros Hn Hf Ht. induction 1 as [|row rows (r & t & Hr & Hc) _ [IH1 IH2]].
  - split; [constructor | reflexivity].
  - pose proof (contributes_unfiltered job_name runner r t Hn Hf Ht Hc) as Hb.
    split.
    + constructor; [|exact IH1]. exists r. eexists. split; [exact Hr | exact Hb].
    + cbn [accepted filter]. rewrite Hr, Hb. unfold has_job_name.
      rewrite (read_row_job_name _ _ Hr).
      destruct (String.eqb (rec_job_name r) job_name); cbn [List.length];
        rewrite IH2; reflexivity.
Qed.

(** X5.  With a matcher without filter, every row of the store is counted
    once over the job names [get_measured_jobs] returns: on a store whose
    rows are well formed and dated, the counts [get_job_stats] returns for
    these names add up to the number of rows. *)
Theorem counts_add_up_to_rows runner rows :
  matcher_name runner = None ->
  matcher_from runner = None ->
  matcher_to runner = None ->
  Forall dated_row rows ->
  exists names counts,
    get_measured_jobs (Some rows) = Ok names /\
    Forall2 (fun job_name count =>
               exists stats,
                 get_job_stats job_name runner (Some rows) = Ok stats /\
                 no_of_jobs stats = count)
            names counts /\
    fold_right Z.add 0 counts = Z.of_nat (List.length rows).
Proof.
  intros Hn Hf Ht Hrows.
  assert (Hcols : Forall (fun row => job_name_of row <> None) rows).
  { eapply Forall_impl; [|exact Hrows].
    intros row (r & t & Hr & _). rewrite (read_row_job_name _ _ Hr). discriminate. }
  destruct (job_names_of_ok rows Hcols) as (names0 & Hn0 & Hin0).
  set (count := fun name =>
                  Z.of_nat (List.length (filter (has_job_name name) rows))).
  exists (sorted_set names0), (map count (sorted_set names0)).
  split; [unfold get_measured_jobs; rewrite Hn0; reflexivity|].
  split.
  - induction (sorted_set names0) as [|name names IH]; cbn [map]; constructor;
      [|exact IH].
    destruct (scannable_unfiltered name runner rows Hn Hf Ht Hrows)
      as [Hscan Hlen].
    eexists. split; [apply get_job_stats_scannable, Hscan|].
    unfold finish. rewrite tally_initial_count, Hlen.
    destruct (Z.of_nat _ <=? 0); reflexivity.
  - transitivity (Zsum count (sorted_set names0)).
    + induction (sorted_set names0) as [|name names IH]; cbn; [reflexivity|].
      f_equal. exact IH.
    + apply rows_by_job_name; [apply sorted_NoDup, sorted_set_sorted|].
      intros row Hrow. rewrite Forall_forall in Hcols.
      specialize (Hcols row Hrow).
      destruct (job_name_of row) as [n|] eqn:E; [|congruence].
      exists n. split; [reflexivity|].
      apply sorted_set_in, Hin0. exists row. auto.
Qed.

End CountsPartition.

Ltac dated_examples :=
  repeat (apply Forall_cons;
          [eexists; eexists; split; [reflexivity | vm_compute; reflexivity]|]);
  apply Forall_nil.

Lemma get_job_stats_bounds_enclose_witness :
  exists stats,
    @get_job_stats Ref.lib "build" Examples.shared_runner (Some Examples.store)
    = Ok stats /\
    no_of_jobs stats <= 4.
Proof.
  destruct (@get_job_stats_bounds_enclose Ref.lib "build" Examples.shared_runner
              Examples.store) as (stats & H & _ & Hle & _).
  - scan_examples.
  - exists stats. split; [exact H | exact Hle].
Defined.

Lemma get_job_stats_other_jobs_ignored_witness :
  @get_job_stats Ref.lib "build" Examples.shared_runner (Some Examples.store)
  = @get_job_stats Ref.lib "build" Examples.shared_runner
      (Some [Examples.build1; Examples.build2; Examples.build3]).
Proof.
  apply (@get_job_stats_other_jobs_ignored Ref.lib "build"
           Examples.shared_runner Examples.store).
  repeat (apply Forall_cons; [vm_compute; discriminate|]). apply Forall_nil.
Defined.

Lemma inverted_window_matches_nothing_witness :
  @get_job_stats Ref.lib "build"
     (mkRunner "inverted" None (Some (Aware 1709456400000000))
               (Some (Aware 1709283600000000)))
     (Some Examples.store)
  = Ok (mkStats 0 0 0 0 0 0 0 0 0 0).
Proof.
  apply (@inverted_window_matches_nothing Ref.lib "build"
           (mkRunner "inverted" None (Some (Aware 1709456400000000))
                     (Some (Aware 1709283600000000)))
           Examples.store (Aware 1709456400000000) (Aware 1709283600000000)).
  - reflexivity.
  - reflexivity.
  - intros _. simpl. lia.
  - scan_examples.
Defined.

Lemma counts_add_up_to_rows_witness :
  exists names counts,
    get_measured_jobs (Some Examples.store) = Ok names /\
    Forall2 (fun job_name count =>
               exists stats,
                 @get_job_stats Ref.lib job_name Examples.any_runner
                                (Some Examples.store) = Ok stats /\
                 no_of_jobs stats = count)
            names counts /\
    fold_right Z.add 0 counts = 4.
Proof.
  apply (@counts_add_up_to_rows Ref.lib Examples.any_runner Examples.store).
  - reflexivity.
  - reflexivity.
  - reflexivity.
  - dated_examples.
Defined.

(** * Further properties: the fetch *)

Section MoreFetch.
Context {lib : PyLib}.

Lemma fetch_jobs_data_ok_inv fuel remote measure_since csv_data_file
    csv_data_file' :
  fetch_jobs_data fuel remote measure_since csv_data_file
  = Some (Ok csv_data_file') ->
  exists cutoff_date latest_data_cutoff,
    fromisoformat (measure_since ++ "T00:00:00.0Z") = Some cutoff_date /\
    load_latest_data_cutoff csv_data_file = Ok latest_data_cutoff.
Proof.
  unfold fetch_jobs_data, fetch_new_rows, parse_datetime. intro H.
  destruct (load_latest_data_cutoff csv_data_file) as [latest|]; [|discriminate].
  destruct (fromisoformat (measure_since ++ "T00:00:00.0Z")) as [cutoff|];
    [|discriminate].
  exists cutoff, latest. auto.
Qed.

(** With fuel for the pages a fetch raises or returns. *)
Lemma fetch_jobs_data_cases fuel remote measure_since csv_data_file :
  (List.length remote < fuel)%nat ->
  (exists e,
     fetch_jobs_data fuel remote measure_since csv_data_file = Some (Raise e))
  \/
  (exists rows,
     fetch_jobs_data fuel remote measure_since csv_data_file
     = Some (Ok (Some rows))).
Proof.
  intro Hfuel.
  destruct (fetch_jobs_data_fuel fuel fuel remote measure_since csv_data_file
              Hfuel Hfuel) as [_ Hsome].
  unfold fetch_jobs_data in *.
  destruct (fetch_new_rows fuel remote measure_since csv_data_file)
    as [[new|e]|]; [right | left | congruence]; eexists; reflexivity.
Qed.

(** X9.  The pages do not show in what a fetch does: with fuel for the
    pages, it writes, or raises, what the loop over the jobs does when it
    runs once over the whole list of the successful jobs. *)
Theorem fetch_is_one_pass fuel remote measure_since csv_data_file
    cutoff_date latest_data_cutoff :
  fromisoformat (measure_since ++ "T00:00:00.0Z") = Some cutoff_date ->
  load_latest_data_cutoff csv_data_file = Ok latest_data_cutoff ->
  (List.length remote < fuel)%nat ->
  fetch_jobs_data fuel remote measure_since csv_data_file =
    match scan_batch cutoff_date latest_data_cutoff (successful remote) [] with
    | Ok (_, written) =>
        Some (Ok (Some (written ++ previous_content csv_data_file)%list))
    | Raise e => Some (Raise e)
    end.
Proof.
  intros Hc Hl Hfuel. unfold fetch_jobs_data.
  rewrite (fetch_new_rows_linear _ _ _ _ _ _ Hc Hl Hfuel).
  destruct (scan_batch cutoff_date latest_data_cutoff (successful remote) [])
    as [[hit written]|e]; reflexivity.
Qed.

Lemma scan_batch_prefix cutoff_date latest_data_cutoff jobs :
  Forall (fun job => job_time job <> None) jobs ->
  forall written, exists hit,
    scan_batch (Aware cutoff_date) (option_map Aware latest_data_cutoff)
               jobs written
    = Ok (hit, (written
                ++ kept cutoff_date latest_data_cutoff
                     (in_range_prefix cutoff_date latest_data_cutoff jobs))%list).
Proof.
  induction 1 as [|job jobs Hjob _ IH]; intro written.
  - exists false. cbn. rewrite app_nil_r. reflexivity.
  - destruct (job_time job) as [t|] eqn:Ht; [|congruence].
    rewrite (scan_batch_cons _ _ _ _ _ _ Ht). cbn [in_range_prefix]. rewrite Ht.
    destruct (in_range cutoff_date latest_data_cutoff t) eqn:Hr.
    + cbn [kept]. rewrite Ht, Hr.
      destruct (job_row job) as [row|].
      * destruct (IH (written ++ [row])%list) as (hit & ->).
        exists hit. rewrite <- app_assoc. reflexivity.
      * apply IH.
    + exists true. cbn [kept]. rewrite app_nil_r. reflexivity.
Qed.

Lemma in_range_prefix_is_prefix cutoff_date latest_data_cutoff jobs :
  exists rest,
    jobs = (in_range_prefix cutoff_date latest_data_cutoff jobs ++ rest)%list /\
    match rest with
    | [] => True
    | job :: _ =>
        forall t, job_time job = Some t ->
                  in_range cutoff_date latest_data_cutoff t = false
    end.
Proof.
  induction jobs as [|job jobs (rest & IH1 & IH2)]; [exists []; split; auto|].
  cbn [in_range_prefix].
  destruct (job_time job) as [t|] eqn:Ht.
  - destruct (in_range cutoff_date latest_data_cutoff t) eqn:Hr.
    + exists rest. split; [cbn; f_equal; exact IH1 | exact IH2].
    + exists (job :: jobs). split; [reflexivity|].
      intros u Hu. congruence.
  - exists (job :: jobs). split; [reflexivity|]. intros u Hu. congruence.
Qed.

(** X10.  A fetch stops for good at the first successful job that is out
    of range: when every successful job has a time, the rows it writes are
    the rows of the jobs (with a known runner) before that first job, and
    a job after it is never written, in range or not. *)
Theorem fetch_writes_prefix_only fuel remote measure_since csv_data_file
    cutoff_date latest_data_cutoff :
  fromisoformat (measure_since ++ "T00:00:00.0Z") = Some (Aware cutoff_date) ->
  load_latest_data_cutoff csv_data_file
  = Ok (option_map Aware latest_data_cutoff) ->
  (List.length remote < fuel)%nat ->
  Forall (fun job => job_time job <> None) (successful remote) ->
  fetch_jobs_data fuel remote measure_since csv_data_file =
    Some (Ok (Some
      (kept cutoff_date latest_data_cutoff
            (in_range_prefix cutoff_date latest_data_cutoff
                             (successful remote))
       ++ previous_content csv_data_file)%list)) /\
  exists rest,
    successful remote
    = (in_range_prefix cutoff_date latest_data_cutoff (successful remote)
       ++ rest)%list /\
    match rest with
    | [] => True
    | job :: _ =>
        forall t, job_time job = Some t ->
                  in_range cutoff_date latest_data_cutoff t = false
    end.
Proof.
  intros Hc Hl Hfuel Htimes. split; [|apply in_range_prefix_is_prefix].
  unfold fetch_jobs_data.
  rewrite (fetch_new_rows_linear _ _ _ _ _ _ Hc Hl Hfuel).
  destruct (scan_batch_prefix cutoff_date latest_data_cutoff _ Htimes [])
    as (hit & ->).
  reflexivity.
Qed.

(** The rows kept after the time of the first row kept: none. *)
Lemma kept_after_first cutoff_date latest_data_cutoff jobs row rows t :
  newest_first job_time jobs ->
  kept cutoff_date latest_data_cutoff jobs = row :: rows ->
  row_time row = Some t ->
  kept cutoff_date (Some t) jobs = [].
Proof.
  intros Hsorted Hkept Ht.
  pose proof (kept_ordered Z.ge cutoff_date latest_data_cutoff jobs Hsorted)
    as Hord.
  rewrite Hkept in Hord.
  apply ordered_by_cons_inv in Hord. destruct Hord as ((t' & Ht' & Hall) & _).
  rewrite Ht in Ht'. injection Ht' as <-.
  assert (Hrow : written_from cutoff_date latest_data_cutoff jobs row).
  { apply kept_in. rewrite Hkept. left. reflexivity. }
  destruct Hrow as (j0 & t0 & _ & Hj0 & Ht0 & Hr0).
  pose proof Ht as Hrow.
  rewrite (job_row_time _ _ Hj0), Ht0 in Ht. injection Ht as ->.
  apply in_range_iff in Hr0. destruct Hr0 as [_ Hlat].
  destruct (kept cutoff_date (Some t) jobs) as [|r rs] eqn:E; [reflexivity|].
  exfalso.
  assert (Hr : written_from cutoff_date (Some t) jobs r).
  { apply kept_in. rewrite E. left. reflexivity. }
  destruct Hr as (j & u & Hj & Hjr & Hu & Hru).
  apply in_range_iff in Hru. destruct Hru as [Hcut Hlt].
  specialize (Hlt t eq_refl).
  assert (Hin : In r (row :: rows)).
  { rewrite <- Hkept. apply kept_in. exists j, u.
    split; [exact Hj|]. split; [exact Hjr|]. split; [exact Hu|].
    apply in_range_iff. split; [exact Hcut|].
    intros l Hl. specialize (Hlat l Hl). lia. }
  destruct Hin as [<-|Hin].
  - rewrite (job_row_time _ _ Hjr), Hu in Hrow. injection Hrow as ->. lia.
  - rewrite Forall_forall in Hall. destruct (Hall r Hin) as (u' & Hu' & Hle).
    rewrite (job_row_time _ _ Hjr), Hu in Hu'. injection Hu' as <-. lia.
Qed.

Lemma kept_times cutoff_date latest_data_cutoff jobs row :
  In row (kept cutoff_date latest_data_cutoff jobs) ->
  exists t, row_time row = Some t.
Proof.
  intro H. apply kept_in in H. destruct H as (j & t & _ & Hj & Ht & _).
  exists t. rewrite (job_row_time _ _ Hj). exact Ht.
Qed.

(** The rows kept are rows of jobs of the list. *)
Lemma kept_plain cutoff_date latest_data_cutoff jobs :
  Forall (fun job => forall row, job_row job = Some row -> plain_row row) jobs ->
  plain_rows (kept cutoff_date latest_data_cutoff jobs).
Proof.
  intro H. apply Forall_forall. intros row Hrow.
  apply kept_in in Hrow. destruct Hrow as (job & t & Hin & Hjr & _).
  rewrite Forall_forall in H. exact (H job Hin row Hjr).
Qed.

(** With a cutoff date and a latest time of which one has an offset and
    the other has none, the loop writes nothing: it stops, or raises at a
    comparison. *)
Lemma scan_batch_mixed cutoff_date latest jobs written hit written' :
  ~ comparable cutoff_date latest ->
  scan_batch cutoff_date (Some latest) jobs written = Ok (hit, written') ->
  written' = written.
Proof.
  intro Hmixed.
  destruct jobs as [|job jobs]; [intros [= _ <-]; reflexivity|].
  cbn [scan_batch].
  destruct (parse_datetime (Job.created_at job)) as [job_created|];
    cbn [bind]; [|discriminate].
  destruct (datetime_lt job_created cutoff_date) as [[|]|] eqn:E1;
    cbn [bind]; [intros [= _ <-]; reflexivity | | discriminate].
  destruct (datetime_le job_created latest) as [b|] eqn:E2;
    cbn [bind]; [|discriminate].
  exfalso. apply Hmixed.
  exact (comparable_both _ _ _ (compare_ok_comparable _ _ _ _ E1)
                               (compare_ok_comparable _ _ _ _ E2)).
Qed.

Section Settled.
Context {stable : NewlineStable lib}.

(** The latest time of a data file is that of its copy. *)
Lemma load_latest_copy rows latest_data_cutoff :
  load_latest_data_cutoff (Some rows)
  = Ok (option_map Aware latest_data_cutoff) ->
  load_latest_data_cutoff (Some (text_mode_copy rows))
  = Ok (option_map Aware latest_data_cutoff).
Proof.
  destruct rows as [|row rows]; [exact (fun H => H)|].
  cbn [load_latest_data_cutoff text_mode_copy map].
  destruct row as [|created_at row]; [discriminate|].
  cbn [index nth_error of_option bind map]. unfold parse_datetime.
  destruct (fromisoformat created_at) as [d|] eqn:E; [|discriminate].
  rewrite (fromisoformat_universal_newlines _ _ E). exact (fun H => H).
Qed.

(** A fetch that finds nothing new returns the previous content, as it
    copies it. *)
Lemma fetch_nothing_new fuel remote measure_since csv_data_file
    cutoff_date latest_data_cutoff :
  fromisoformat (measure_since ++ "T00:00:00.0Z") = Some (Aware cutoff_date) ->
  load_latest_data_cutoff csv_data_file
  = Ok (option_map Aware latest_data_cutoff) ->
  (List.length remote < fuel)%nat ->
  newest_first job_time (successful remote) ->
  kept cutoff_date latest_data_cutoff (successful remote) = [] ->
  fetch_jobs_data fuel remote measure_since csv_data_file
  = Some (Ok (Some (previous_content csv_data_file))).
Proof.
  intros Hc Hl Hfuel Hsorted Hkept. unfold fetch_jobs_data.
  rewrite (fetch_new_rows_newest_first _ _ _ _ _ _ Hc Hl Hfuel Hsorted), Hkept.
  reflexivity.
Qed.

(** X7.  A fetch against a remote list that has not changed writes
    nothing new.  When the successful jobs are newest first, the fetch run
    on the store a first fetch returned gives that store as the copy in
    text mode reads it, and from then on the store does not change; it is
    the store of the first fetch already when no row of a remote job holds
    a carriage return. *)
Theorem fetch_twice_same fuel remote measure_since csv_data_file
    cutoff_date latest_data_cutoff :
  fromisoformat (measure_since ++ "T00:00:00.0Z") = Some (Aware cutoff_date) ->
  load_latest_data_cutoff csv_data_file
  = Ok (option_map Aware latest_data_cutoff) ->
  (List.length remote < fuel)%nat ->
  newest_first job_time (successful remote) ->
  exists rows,
    fetch_jobs_data fuel remote measure_since csv_data_file
    = Some (Ok (Some rows)) /\
    fetch_jobs_data fuel remote measure_since (Some rows)
    = Some (Ok (Some (text_mode_copy rows))) /\
    fetch_jobs_data fuel remote measure_since (Some (text_mode_copy rows))
    = Some (Ok (Some (text_mode_copy rows))) /\
    (Forall (fun job => forall row, job_row job = Some row -> plain_row row)
            (successful remote) ->
     text_mode_copy rows = rows).
Proof.
  intros Hc Hl Hfuel Hsorted.
  set (new := kept cutoff_date latest_data_cutoff (successful remote)).
  exists (new ++ previous_content csv_data_file)%list.
  (* the latest time of the store after the first fetch, and what is kept
     after it *)
  assert (Hlatest : exists latest',
            load_latest_data_cutoff
              (Some (new ++ previous_content csv_data_file)%list)
            = Ok (option_map Aware latest') /\
            kept cutoff_date latest' (successful remote) = []).
  { destruct new as [|row rows] eqn:Hkept.
    - exists latest_data_cutoff. split; [|exact Hkept].
      cbn [app]. destruct csv_data_file as [prev|]; cbn [previous_content].
      + apply load_latest_copy, Hl.
      + cbn in Hl. destruct latest_data_cutoff; [discriminate | reflexivity].
    - destruct (kept_times cutoff_date latest_data_cutoff (successful remote) row)
        as (t & Ht); [fold new; rewrite Hkept; left; reflexivity|].
      exists (Some t). split.
      + rewrite <- app_comm_cons. apply load_latest_of_first_row, Ht.
      + exact (kept_after_first _ _ _ _ _ _ Hsorted Hkept Ht). }
  destruct Hlatest as (latest' & Hl' & Hkept').
  split; [|split; [|split]].
  - unfold fetch_jobs_data.
    rewrite (fetch_new_rows_newest_first _ _ _ _ _ _ Hc Hl Hfuel Hsorted).
    reflexivity.
  - exact (fetch_nothing_new _ _ _ _ _ _ Hc Hl' Hfuel Hsorted Hkept').
  - rewrite (fetch_nothing_new _ _ _ _ _ _ Hc (load_latest_copy _ _ Hl')
               Hfuel Hsorted Hkept').
    cbn [previous_content]. rewrite text_mode_copy_idempotent. reflexivity.
  - intro Hplain. apply text_mode_copy_plain, plain_rows_app.
    + apply kept_plain, Hplain.
    + destruct csv_data_file as [prev|]; cbn [previous_content];
        [apply text_mode_copy_is_plain | constructor].
Qed.

(** X8.  A fetch never writes again what the store has: on a store that is
    ordered, with fuel for the pages, it raises or returns new rows before
    the previous content, each created strictly after every previous
    row. *)
Theorem fetch_no_overlap fuel remote measure_since csv_data_file :
  store_ordered csv_data_file ->
  (List.length remote < fuel)%nat ->
  (exists e,
     fetch_jobs_data fuel remote measure_since csv_data_file = Some (Raise e))
  \/
  (exists new,
     fetch_jobs_data fuel remote measure_since csv_data_file
     = Some (Ok (Some (new ++ previous_content csv_data_file)%list)) /\
     forall row old,
       In row new -> In old (previous_content csv_data_file) ->
       exists t u, row_time row = Some t /\ row_time old = Some u /\ t > u).
Proof.
  intros Hstore Hfuel.
  destruct (fetch_jobs_data_cases fuel remote measure_since csv_data_file Hfuel)
    as [He|(rows & Hrows)]; [left; exact He | right].
  destruct (fetch_jobs_data_ok_inv _ _ _ _ _ Hrows) as (cutoff & latest & Hc & Hl).
  destruct (load_latest_ordered Z.ge (fun t u H => H) csv_data_file Hstore)
    as (latest' & Hl' & Hprev).
  rewrite Hl in Hl'. injection Hl' as ->.
  destruct cutoff as [cutoff|cutoff].
  - destruct (fetch_jobs_data_written _ _ _ _ _ _ _ Hc Hl Hrows)
      as (new & Hnew & Hall).
    injection Hnew as ->.
    exists new. split; [exact Hrows|].
    intros row old Hrow Hold.
    destruct (Hprev old Hold) as (l & u & -> & Hu & Hle).
    rewrite Forall_forall in Hall.
    destruct (Hall row Hrow) as (j & t & _ & Hj & Ht & Hr).
    apply in_range_iff in Hr. destruct Hr as [_ Hr]. specialize (Hr l eq_refl).
    exists t, u. rewrite (job_row_time _ _ Hj). repeat split; auto; lia.
  - (* a cutoff date without offset: nothing is written before a previous
       content that is not empty *)
    rewrite (fetch_is_one_pass _ _ _ _ _ _ Hc Hl Hfuel) in Hrows.
    destruct (scan_batch (Naive cutoff) (option_map Aware latest')
                         (successful remote) [])
      as [[hit written]|e] eqn:Hscan; [|discriminate].
    injection Hrows as <-.
    exists written. split.
    + rewrite (fetch_is_one_pass _ _ _ _ _ _ Hc Hl Hfuel), Hscan. reflexivity.
    + intros row old Hrow Hold.
      destruct (Hprev old Hold) as (l & u & -> & Hu & Hle).
      cbn [option_map] in Hscan.
      apply scan_batch_mixed in Hscan; [|exact (fun H => H)].
      subst written. destruct Hrow.
Qed.

End Settled.

End MoreFetch.

Section FetchThenRead.
Context {lib : PyLib}.

(** X11.  What a fetch writes for a job, [get_job_stats] reads back: when
    [float] reads the text of the two durations back, the row of a job is
    well formed and reads as the record of the creation time, the name,
    the durations and the runner description of the job. *)
Theorem job_row_reads_back job row :
  job_row job = Some row ->
  float_reads_back (Job.duration job) ->
  float_reads_back (Job.queued_duration job) ->
  exists r runner,
    read_row row = Some r /\
    Job.runner job = Some runner /\
    rec_created_at r = Job.created_at job /\
    rec_job_name r = Job.name job /\
    (rec_run_duration r == Job.duration job)%Q /\
    (rec_queue_duration r == Job.queued_duration job)%Q /\
    rec_runner_description r = dict_get runner "description" "".
Proof.
  unfold job_row. destruct (Job.runner job) as [runner|]; [|discriminate].
  intros [= <-] (q1 & H1 & E1) (q2 & H2 & E2).
  eexists. exists runner. split.
  - cbn [read_row]. rewrite H1, H2. reflexivity.
  - cbn [rec_created_at rec_job_name rec_run_duration rec_queue_duration
         rec_runner_description].
    split; [reflexivity|]. split; [reflexivity|]. split; [reflexivity|].
    split; [exact E1|]. split; [exact E2 | reflexivity].
Qed.

Lemma job_time_aware job t :
  job_time job = Some t -> fromisoformat (Job.created_at job) = Some (Aware t).
Proof.
  unfold job_time, instant_of.
  destruct (fromisoformat (Job.created_at job)) as [[u|u]|];
    [intros [= ->]; reflexivity | discriminate | discriminate].
Qed.

Lemma aware_comparable t d : aware d -> comparable (Aware t) d.
Proof. destruct d; [intros _; exact I | intros []]. Qed.

Lemma written_row_scannable cutoff_date latest_data_cutoff jobs
    job_name runner row :
  (forall job, In job jobs ->
     float (str_float (Job.duration job)) <> None /\
     float (str_float (Job.queued_duration job)) <> None) ->
  (forall pattern description,
     matcher_name runner = Some pattern -> pattern <> "" ->
     re_fullmatch pattern description <> None) ->
  (forall from, matcher_from runner = Some from -> aware from) ->
  (forall to, matcher_to runner = Some to -> aware to) ->
  written_from cutoff_date latest_data_cutoff jobs row ->
  exists r b, read_row row = Some r /\ contributes job_name runner r = Ok b.
Proof.
  intros Hfloat Hpat Hfrom Hto (job & t & Hin & Hrow & Ht & _).
  destruct (Hfloat job Hin) as [H1 H2].
  unfold job_row in Hrow. destruct (Job.runner job) as [rn|]; [|discriminate].
  injection Hrow as <-.
  destruct (float (str_float (Job.duration job))) as [q1|] eqn:E1; [|congruence].
  destruct (float (str_float (Job.queued_duration job))) as [q2|] eqn:E2;
    [|congruence].
  exists (mkRecord (Job.created_at job) (Job.name job) q1 q2
                   (dict_get rn "description" "")).
  unfold contributes. cbn [rec_job_name rec_created_at rec_runner_description].
  destruct (String.eqb (Job.name job) job_name).
  - eexists. split; [cbn [read_row]; rewrite E1, E2; reflexivity|].
    apply (match_runner_value _ _ _ (Aware t) (job_time_aware _ _ Ht)).
    + intros pattern Hp Hne. apply (Hpat pattern _ Hp Hne).
    + intros from Hf. apply aware_comparable, (Hfrom from Hf).
    + intros to Hu. apply aware_comparable, (Hto to Hu).
  - exists false. split; [cbn [read_row]; rewrite E1, E2; reflexivity|].
    reflexivity.
Qed.

(** X12.  The store a fetch returns can be aggregated: when the since
    date is read as a datetime with an offset, [float] reads the durations
    of the remote jobs, the pattern of the matcher compiles, its bounds
    have an offset, and the previous content can be scanned as the fetch
    copies it, a fetch with fuel for the pages raises or returns a store on
    which [get_job_stats] and [get_measured_jobs] return without
    exception. *)
Theorem fetched_store_can_be_read fuel remote measure_since csv_data_file
    job_name runner :
  (List.length remote < fuel)%nat ->
  (forall cutoff_date,
     fromisoformat (measure_since ++ "T00:00:00.0Z") = Some cutoff_date ->
     aware cutoff_date) ->
  (forall job, In job (successful remote) ->
     float (str_float (Job.duration job)) <> None /\
     float (str_float (Job.queued_duration job)) <> None) ->
  (forall pattern description,
     matcher_name runner = Some pattern -> pattern <> "" ->
     re_fullmatch pattern description <> None) ->
  (forall from, matcher_from runner = Some from -> aware from) ->
  (forall to, matcher_to runner = Some to -> aware to) ->
  scannable job_name runner (previous_content csv_data_file) ->
  (exists e,
     fetch_jobs_data fuel remote measure_since csv_data_file = Some (Raise e))
  \/
  (exists rows,
     fetch_jobs_data fuel remote measure_since csv_data_file
     = Some (Ok (Some rows)) /\
     scannable job_name runner rows /\
     (exists stats, get_job_stats job_name runner (Some rows) = Ok stats) /\
     (exists names, get_measured_jobs (Some rows) = Ok names)).
Proof.
  intros Hfuel Hsince Hfloat Hpat Hfrom Hto Hprev.
  destruct (fetch_jobs_data_cases fuel remote measure_since csv_data_file Hfuel)
    as [He|(rows & Hrows)]; [left; exact He | right].
  exists rows. split; [exact Hrows|].
  destruct (fetch_jobs_data_ok_inv _ _ _ _ _ Hrows) as (cutoff & latest & Hc & Hl).
  assert (Hscan : scannable job_name runner rows).
  { pose proof (Hsince cutoff Hc) as Haware.
    destruct cutoff as [cutoff|cutoff]; [clear Haware | destruct Haware].
    assert (Hlatest : (exists latest', latest = option_map Aware latest') \/
                      (exists l, latest = Some (Naive l))).
    { destruct latest as [[l|l]|];
        [left; exists (Some l) | right; exists l | left; exists None];
        reflexivity. }
    destruct Hlatest as [(latest' & ->)|(l & ->)].
    - destruct (fetch_jobs_data_written _ _ _ _ _ _ _ Hc Hl Hrows)
        as (new & Hnew & Hall).
      injection Hnew as ->.
      apply Forall_app. split; [|exact Hprev].
      eapply Forall_impl; [|exact Hall]. intro row.
      apply written_row_scannable; assumption.
    - rewrite (fetch_is_one_pass _ _ _ _ _ _ Hc Hl Hfuel) in Hrows.
      destruct (scan_batch (Aware cutoff) (Some (Naive l))
                           (successful remote) [])
        as [[hit written]|e] eqn:Escan; [|discriminate].
      injection Hrows as <-.
      apply scan_batch_mixed in Escan; [|exact (fun H => H)].
      subst written. exact Hprev. }
  split; [exact Hscan|]. split.
  - eexists. apply get_job_stats_scannable, Hscan.
  - destruct (job_names_of_ok rows) as (names & Hn & _).
    + eapply Forall_impl; [|exact Hscan].
      intros row (r & _ & Hr & _). rewrite (read_row_job_name _ _ Hr). discriminate.
    + eexists. unfold get_measured_jobs. rewrite Hn. reflexivity.
Qed.

End FetchThenRead.

(** ** The further statements on the examples *)

Lemma fetch_is_one_pass_witness :
  @fetch_jobs_data Ref.lib 6 Examples.remote "2024-03-01" (Some Examples.store)
  = match @scan_batch Ref.lib (Aware 1709251200000000)
            (Some (Aware 1709456400000000))
            (successful Examples.remote) [] with
    | Ok (_, written) => Some (Ok (Some (written ++ Examples.store)%list))
    | Raise e => Some (Raise e)
    end.
Proof.
  apply (@fetch_is_one_pass Ref.lib 6 Examples.remote "2024-03-01"
           (Some Examples.store) (Aware 1709251200000000)
           (Some (Aware 1709456400000000))).
  - vm_compute. reflexivity.
  - vm_compute. reflexivity.
  - simpl. lia.
Defined.

(** A remote list that is not in order: the job of 2024-03-05 comes after
    an old job, and is not written. *)
Lemma fetch_writes_prefix_only_witness :
  @fetch_jobs_data Ref.lib 4
     [Examples.job3; Examples.old_job; Examples.job5] "2024-03-01" None
  = Some (Ok (Some
      (@kept Ref.lib 1709251200000000 None [Examples.job3] ++ [])%list)).
Proof.
  apply (@fetch_writes_prefix_only Ref.lib 4
           [Examples.job3; Examples.old_job; Examples.job5] "2024-03-01" None
           1709251200000000 None).
  - vm_compute. reflexivity.
  - reflexivity.
  - simpl. lia.
  - repeat (apply Forall_cons; [vm_compute; discriminate|]). apply Forall_nil.
Defined.

(** The remote list of a project whose runner description has two lines:
    the first fetch writes the description as the API gives it, the second
    rewrites it, the third changes nothing. *)
Lemma fetch_twice_same_witness :
  exists rows,
    @fetch_jobs_data Ref.lib 2 [Examples.two_line_job] "2024-03-01" None
    = Some (Ok (Some rows)) /\
    @fetch_jobs_data Ref.lib 2 [Examples.two_line_job] "2024-03-01" (Some rows)
    = Some (Ok (Some (text_mode_copy rows))) /\
    @fetch_jobs_data Ref.lib 2 [Examples.two_line_job] "2024-03-01"
                     (Some (text_mode_copy rows))
    = Some (Ok (Some (text_mode_copy rows))) /\
    rows = [Examples.crlf_build] /\
    text_mode_copy rows = [Examples.lf_build].
Proof.
  destruct (@fetch_twice_same Ref.lib Ref_newline_stable 2
              [Examples.two_line_job] "2024-03-01" None
              1709251200000000 None) as (rows & H1 & H2 & H3 & _).
  - vm_compute. reflexivity.
  - reflexivity.
  - simpl. lia.
  - in_order.
  - exists rows. split; [exact H1|]. split; [exact H2|]. split; [exact H3|].
    assert (E : rows = [Examples.crlf_build]).
    { vm_compute in H1. injection H1 as <-. reflexivity. }
    split; [exact E|]. rewrite E. vm_compute. reflexivity.
Defined.

Lemma fetch_no_overlap_witness :
  (exists e,
     @fetch_jobs_data Ref.lib 6 Examples.remote "2024-03-01"
                      (Some Examples.store) = Some (Raise e))
  \/
  (exists new,
     @fetch_jobs_data Ref.lib 6 Examples.remote "2024-03-01"
                      (Some Examples.store)
     = Some (Ok (Some (new ++ Examples.store)%list)) /\
     forall row old,
       In row new -> In old Examples.store ->
       exists t u, @row_time Ref.lib row = Some t /\
                   @row_time Ref.lib old = Some u /\ t > u).
Proof.
  apply (@fetch_no_overlap Ref.lib Ref_newline_stable 6 Examples.remote
           "2024-03-01" (Some Examples.store)).
  - in_order.
  - simpl. lia.
Defined.

Lemma job_row_reads_back_witness :
  exists r runner,
    @read_row Ref.lib
       ["2024-03-05T09:00:00.000Z"; "build"; "success"; "10.0"; "2.0";
        "shared-1"; "10.0.0.7"; "instance_type"; "docker,linux";
        "https://gitlab.example/group/project/-/jobs/1"] = Some r /\
    Job.runner Examples.job5 = Some runner /\
    rec_created_at r = Job.created_at Examples.job5 /\
    rec_job_name r = Job.name Examples.job5 /\
    (rec_run_duration r == Job.duration Examples.job5)%Q /\
    (rec_queue_duration r == Job.queued_duration Examples.job5)%Q /\
    rec_runner_description r = dict_get runner "description" "".
Proof.
  apply (@job_row_reads_back Ref.lib Examples.job5).
  - vm_compute. reflexivity.
  - eexists. split; vm_compute; reflexivity.
  - eexists. split; vm_compute; reflexivity.
Defined.

Lemma fetched_store_can_be_read_witness :
  (exists e,
     @fetch_jobs_data Ref.lib 6 Examples.remote "2024-03-01"
                      (Some Examples.store) = Some (Raise e))
  \/
  (exists rows,
     @fetch_jobs_data Ref.lib 6 Examples.remote "2024-03-01"
                      (Some Examples.store) = Some (Ok (Some rows)) /\
     @scannable Ref.lib "build" Examples.shared_runner rows /\
     (exists stats,
        @get_job_stats Ref.lib "build" Examples.shared_runner (Some rows)
        = Ok stats) /\
     (exists names, get_measured_jobs (Some rows) = Ok names)).
Proof.
  apply (@fetched_store_can_be_read Ref.lib 6 Examples.remote "2024-03-01"
           (Some Examples.store) "build" Examples.shared_runner).
  - simpl. lia.
  - intros cutoff_date H. vm_compute in H. injection H as <-. exact I.
  - intros job Hjob. simpl in Hjob.
    repeat (destruct Hjob as [<-|Hjob];
            [split; vm_compute; discriminate|]).
    destruct Hjob.
  - intros pattern description H _. injection H as <-.
    unfold re_fullmatch, Ref.lib, Ref.re_fullmatch.
    vm_compute Ref.compile. discriminate.
  - intros from H. injection H as <-. exact I.
  - intros to H. injection H as <-. exact I.
  - scan_examples.
Defined.

(** * Further properties: the configuration *)

Section MoreConfig.
Context {lib : PyLib}.

Lemma Zrange_in n : forall lo y,
  lo <= y < lo + Z.of_nat n -> In y (Zrange lo n).
Proof.
  induction n as [|n IH]; intros lo y H; [lia|].
  cbn [Zrange]. destruct (Z.eq_dec lo y) as [->|Hne]; [left; reflexivity|].
  right. apply IH. lia.
Qed.

(** Every month from February of the year 1 to December of the year 9999,
    by computation. *)
Lemma last_month_ok_all :
  forallb (fun y =>
             forallb (fun m => (y =? 1) && (m =? 1) || last_month_ok y m)
                     (Zrange 1 12))
          (Zrange 1 (Z.to_nat 9999)) = true.
Proof. vm_compute. reflexivity. Qed.

Lemma last_month_ok_valid y m :
  1 <= y <= 9999 -> 1 <= m <= 12 -> (y, m) <> (1, 1) ->
  last_month_ok y m = true.
Proof.
  intros Hy Hm Hne.
  pose proof last_month_ok_all as H.
  rewrite forallb_forall in H.
  assert (Hin : In y (Zrange 1 (Z.to_nat 9999))) by (apply Zrange_in; lia).
  specialize (H y Hin). rewrite forallb_forall in H.
  assert (Hin' : In m (Zrange 1 12)) by (apply Zrange_in; lia).
  specialize (H m Hin').
  apply orb_true_iff in H. destruct H as [H|H]; [|exact H].
  apply andb_true_iff in H. destruct H as [H1 H2].
  apply Z.eqb_eq in H1, H2. subst. congruence.
Qed.

(** X13.  Without [since] in the file, the fetch measures from the first
    day of the month before today: [load_config] gives as [measure_since]
    the text [YYYY-MM-01] of the previous month, December of the year
    before when today is in January. *)
Theorem default_since_is_previous_month today data runners_configs :
  Date.valid today ->
  1001 <= Date.year today ->
  data_since data = None ->
  load_runners (get_default (data_runners data) []) = inr runners_configs ->
  exists config,
    load_config today data = inr config /\
    measure_since config
    = Date.strftime_Y_m_01
        (Date.mk (fst (previous_month (Date.year today) (Date.month today)))
                 (snd (previous_month (Date.year today) (Date.month today)))
                 1).
Proof.
  intros (Hy & Hm & _) Hy' Hsince Hrunners.
  pose proof (last_month_ok_valid (Date.year today) (Date.month today) Hy Hm)
    as Hok.
  unfold last_month_ok in Hok. unfold load_config, Date.replace_day.
  destruct (Date.sub_days (Date.mk (Date.year today) (Date.month today) 1) 1)
    as [d|].
  - rewrite Hrunners, Hsince. eexists. split; [reflexivity|].
    cbn [measure_since get_default].
    destruct (previous_month (Date.year today) (Date.month today)) as [y' m'].
    assert (H : (Date.year d =? y') && (Date.month d =? m')
                && (Date.day d =? Ref.days_in_month y' m') = true).
    { apply Hok. intro E. injection E as E1 E2. lia. }
    apply andb_true_iff in H. destruct H as [H _].
    apply andb_true_iff in H. destruct H as [H1 H2].
    apply Z.eqb_eq in H1, H2. unfold Date.strftime_Y_m_01. cbn [fst snd Date.year Date.month].
    rewrite H1, H2. reflexivity.
  - exfalso. assert (false = true); [|discriminate].
    apply Hok. intro E. injection E as E1 E2. lia.
Qed.

(** X14.  A runner configured without filter matches every job:
    [load_config] reads a table whose first filter sets nothing (or that
    has no filter) as a runner that [match_runner] accepts every record
    with, whatever its runner description and creation time. *)
Theorem runner_without_filter_accepts_all table :
  no_filter table ->
  exists runner,
    load_runner table = inr runner /\
    name runner = table_name table /\
    forall job_created_at description created_at,
      fromisoformat job_created_at = Some created_at ->
      match_runner job_created_at description runner = Ok true.
Proof.
  unfold no_filter, load_runner.
  destruct (get_default (table_filters table) []) as [|f fs].
  - intros _. eexists. split; [reflexivity|]. split; [reflexivity|].
    intros c d t Hc.
    rewrite (match_runner_value c d _ t Hc); [reflexivity | | |].
    + intros pattern H. discriminate.
    + intros from H. discriminate.
    + intros to H. discriminate.
  - intros (Hp & Hf & Ht). unfold load_timestamp. rewrite Hf, Ht.
    eexists. split; [reflexivity|]. split; [reflexivity|].
    intros c d t Hc.
    rewrite (match_runner_value c d _ t Hc).
    + unfold name_accepts, from_accepts, to_accepts.
      cbn [matcher_name matcher_from matcher_to].
      unfold truthy_str in Hp.
      destruct (name_match_pattern f) as [p|]; [|reflexivity].
      apply negb_false_iff in Hp. rewrite Hp. reflexivity.
    + cbn [matcher_name]. intros pattern H Hne.
      unfold truthy_str in Hp. rewrite H in Hp.
      apply negb_false_iff, String.eqb_eq in Hp. contradiction.
    + intros from H. discriminate.
    + intros to H. discriminate.
Qed.

End MoreConfig.

Lemma default_since_is_previous_month_witness :
  exists config,
    @load_config Ref.lib (Date.mk 2024 1 15)
       (mkConfigData None None
          (Some [mkRunnerTable "shared"
                   (Some [mkFilterTable (Some "shared-.*")
                            (Some "2024-03-01T09:00:00.000Z") None])]))
    = inr config /\
    measure_since config = "2023-12-01".
Proof.
  apply (@default_since_is_previous_month Ref.lib (Date.mk 2024 1 15)
           (mkConfigData None None
              (Some [mkRunnerTable "shared"
                       (Some [mkFilterTable (Some "shared-.*")
                                (Some "2024-03-01T09:00:00.000Z") None])]))
           [mkRunner "shared" (Some "shared-.*")
                     (Some (Aware 1709283600000000)) None]).
  - vm_compute. repeat split; discriminate.
  - simpl. lia.
  - reflexivity.
  - vm_compute. reflexivity.
Defined.

Lemma runner_without_filter_accepts_all_witness :
  exists runner,
    @load_runner Ref.lib
       (mkRunnerTable "any" (Some [mkFilterTable (Some "") None (Some "")]))
    = inr runner /\
    name runner = "any" /\
    forall job_created_at description created_at,
      Ref.fromisoformat job_created_at = Some created_at ->
      @match_runner Ref.lib job_created_at description runner = Ok true.
Proof.
  apply (@runner_without_filter_accepts_all Ref.lib
           (mkRunnerTable "any" (Some [mkFilterTable (Some "") None (Some "")]))).
  vm_compute. repeat split; reflexivity.
Defined.

(** * Further properties: the program and the report *)

Section Dict.
Context {V : Type}.

Lemma dfind_dset_same (d : list (string * V)) key v :
  dfind (dset d key v) key = Some v.
Proof.
  induction d as [|[k w] d IH]; cbn [dset dfind].
  - rewrite String.eqb_refl. reflexivity.
  - destruct (String.eqb k key) eqn:E; cbn [dfind].
    + rewrite String.eqb_refl. reflexivity.
    + rewrite E. exact IH.
Qed.

Lemma dfind_dset_other (d : list (string * V)) key key' v :
  key <> key' -> dfind (dset d key v) key' = dfind d key'.
Proof.
  intro Hne. induction d as [|[k w] d IH]; cbn [dset dfind].
  - destruct (String.eqb_spec key key'); [contradiction | reflexivity].
  - destruct (String.eqb_spec k key) as [->|Hk]; cbn [dfind].
    + destruct (String.eqb_spec key key'); [contradiction | reflexivity].
    + destruct (String.eqb k key'); [reflexivity | exact IH].
Qed.

Lemma dset_dset (d : list (string * V)) key v v' :
  dset (dset d key v) key v' = dset d key v'.
Proof.
  induction d as [|[k w] d IH]; cbn [dset].
  - rewrite String.eqb_refl. reflexivity.
  - destruct (String.eqb k key) eqn:E; cbn [dset].
    + rewrite String.eqb_refl. reflexivity.
    + rewrite E, IH. reflexivity.
Qed.

Lemma dset_found (d : list (string * V)) key v :
  dfind d key = Some v -> dset d key v = d.
Proof.
  induction d as [|[k w] d IH]; cbn [dset dfind]; [discriminate|].
  destruct (String.eqb_spec k key) as [->|Hk].
  - intros [= ->]. reflexivity.
  - intro H. rewrite (IH H). reflexivity.
Qed.

Lemma keys_dset (d : list (string * V)) key v :
  map fst (dset d key v) = add_key (map fst d) key.
Proof.
  unfold add_key. induction d as [|[k w] d IH]; cbn [dset map fst existsb].
  - reflexivity.
  - rewrite (String.eqb_sym key k).
    destruct (String.eqb_spec k key) as [->|Hk]; cbn [orb map fst].
    + reflexivity.
    + rewrite IH. destruct (existsb (String.eqb key) (map fst d));
        reflexivity.
Qed.

Lemma in_dset (d : list (string * V)) key v k w :
  In (k, w) (dset d key v) -> (k, w) = (key, v) \/ In (k, w) d.
Proof.
  induction d as [|[k' w'] d IH]; cbn [dset].
  - intros [H|[]]. left. symmetry. exact H.
  - destruct (String.eqb k' key).
    + intros [H|H]; [left; symmetry; exact H | right; right; exact H].
    + intros [H|H]; [right; left; exact H|].
      destruct (IH H) as [E|Hin]; [left; exact E | right; right; exact Hin].
Qed.

End Dict.

Lemma add_key_fresh keys key :
  ~ In key keys -> add_key keys key = (keys ++ [key])%list.
Proof.
  intro H. unfold add_key.
  destruct (existsb (String.eqb key) keys) eqn:E; [|reflexivity].
  apply existsb_exists in E. destruct E as (x & Hx & E).
  apply String.eqb_eq in E. subst x. contradiction.
Qed.

Lemma fold_add_key_NoDup keys : forall acc,
  NoDup (acc ++ keys) -> fold_left add_key keys acc = (acc ++ keys)%list.
Proof.
  induction keys as [|k keys IH]; intros acc H; cbn [fold_left].
  - symmetry. apply app_nil_r.
  - rewrite add_key_fresh.
    + rewrite IH; rewrite <- app_assoc; [reflexivity | exact H].
    + apply NoDup_remove_2 in H. intro Hin. apply H.
      apply in_or_app. left. exact Hin.
Qed.

Lemma distinct_keys_NoDup keys : NoDup keys -> distinct_keys keys = keys.
Proof. intro H. apply (fold_add_key_NoDup keys []). exact H. Qed.

Section ProgramLoops.
Context {lib : PyLib} {report : PyReport}.

(** The loop over the runners sets the dictionary of the job. *)
Lemma crunch_runners_spec runner_list repo job_name csv_data_file :
  forall (runner_stats : RunnerStats) (jobs : JobDict) (d : RunnerDict),
    dfind runner_stats repo = Some jobs ->
    dfind jobs job_name = Some d ->
    crunch_runners runner_list repo job_name csv_data_file runner_stats =
      (d' <-- runner_dict runner_list job_name csv_data_file d ;;
       inr (dset runner_stats repo (dset jobs job_name d'))).
Proof.
  induction runner_list as [|runner rl IH]; intros rs jobs d Hjobs Hd;
    cbn [crunch_runners runner_dict mbind].
  - rewrite (dset_found jobs job_name d Hd), (dset_found rs repo jobs Hjobs).
    reflexivity.
  - destruct (get_job_stats job_name runner csv_data_file) as [st|e];
      cbn [lift mbind]; [|reflexivity].
    unfold set_runner. rewrite Hjobs, Hd. cbn [mbind].
    rewrite (IH _ (dset jobs job_name (dset d (name runner) (rounded st)))
                (dset d (name runner) (rounded st)));
      [| apply dfind_dset_same | apply dfind_dset_same].
    destruct (runner_dict rl job_name csv_data_file
                (dset d (name runner) (rounded st))) as [e|d'];
      cbn [mbind]; [reflexivity|].
    rewrite !dset_dset. reflexivity.
Qed.

(** The loop over the job names sets the dictionary of the repository. *)
Lemma crunch_jobs_spec project_jobs runner_list repo csv_data_file :
  forall (runner_stats : RunnerStats) (jobs : JobDict),
    dfind runner_stats repo = Some jobs ->
    crunch_jobs project_jobs runner_list repo csv_data_file runner_stats =
      (jobs' <-- job_dict project_jobs runner_list csv_data_file jobs ;;
       inr (dset runner_stats repo jobs')).
Proof.
  induction project_jobs as [|job_name pj IH]; intros rs jobs Hjobs;
    cbn [crunch_jobs job_dict mbind].
  - rewrite (dset_found rs repo jobs Hjobs). reflexivity.
  - unfold set_job. rewrite Hjobs. cbn [mbind].
    rewrite (crunch_runners_spec runner_list repo job_name csv_data_file
               _ (dset jobs job_name []) []);
      [| apply dfind_dset_same | apply dfind_dset_same].
    destruct (runner_dict runner_list job_name csv_data_file []) as [e|d];
      cbn [mbind]; [reflexivity|].
    rewrite !dset_dset.
    rewrite (IH _ (dset jobs job_name d)); [|apply dfind_dset_same].
    destruct (job_dict pj runner_list csv_data_file (dset jobs job_name d))
      as [e|jobs']; cbn [mbind]; [reflexivity|].
    rewrite dset_dset. reflexivity.
Qed.

(** The keys of the dictionary of a job: the names of the runners. *)
Lemma runner_dict_keys runner_list job_name csv_data_file :
  forall (d d' : RunnerDict),
    runner_dict runner_list job_name csv_data_file d = inr d' ->
    map fst d' = fold_left add_key (map name runner_list) (map fst d).
Proof.
  induction runner_list as [|runner rl IH]; intros d d' H;
    cbn [runner_dict map fold_left] in *.
  - injection H as <-. reflexivity.
  - destruct (get_job_stats job_name runner csv_data_file) as [st|e];
      cbn [lift mbind] in H; [|discriminate].
    rewrite (IH _ _ H), keys_dset. reflexivity.
Qed.

(** The values of the dictionary of a job: under a name, the rounded
    statistics of the last runner of that name. *)
Lemma runner_dict_values runner_list job_name csv_data_file :
  forall (d d' : RunnerDict) n v,
    runner_dict runner_list job_name csv_data_file d = inr d' ->
    dfind d' n = Some v ->
    (exists before runner after job_stats,
       runner_list = (before ++ runner :: after)%list /\
       name runner = n /\
       (forall r, In r after -> name r <> n) /\
       get_job_stats job_name runner csv_data_file = Ok job_stats /\
       v = rounded job_stats)
    \/
    ((forall r, In r runner_list -> name r <> n) /\ dfind d n = Some v).
Proof.
  induction runner_list as [|runner rl IH]; intros d d' n v H Hv;
    cbn [runner_dict] in H.
  - injection H as <-. right. split; [intros r [] | exact Hv].
  - destruct (get_job_stats job_name runner csv_data_file) as [st|e] eqn:Est;
      cbn [lift mbind] in H; [|discriminate].
    destruct (IH _ _ n v H Hv)
      as [(before & r & after & js & -> & Hn & Hafter & Hjs & ->) | [Hnone Hd]].
    + left. exists (runner :: before), r, after, js. auto.
    + destruct (String.eqb_spec (name runner) n) as [E|E].
      * left. exists [], runner, rl, st.
        rewrite E, dfind_dset_same in Hd. injection Hd as <-. auto.
      * right. rewrite dfind_dset_other in Hd by exact E.
        split; [|exact Hd]. intros r [<-|Hr]; [exact E | apply Hnone, Hr].
Qed.

(** The dictionary of a repository: what was there, or a job name of the
    list with the dictionary of its runners. *)
Lemma job_dict_items project_jobs runner_list csv_data_file :
  forall (jobs jobs' : JobDict) job_name (d : RunnerDict),
    job_dict project_jobs runner_list csv_data_file jobs = inr jobs' ->
    In (job_name, d) jobs' ->
    In (job_name, d) jobs \/
    (In job_name project_jobs /\
     runner_dict runner_list job_name csv_data_file [] = inr d).
Proof.
  induction project_jobs as [|j pj IH]; intros jobs jobs' job_name d H Hin;
    cbn [job_dict] in H.
  - injection H as <-. left. exact Hin.
  - destruct (runner_dict runner_list j csv_data_file []) as [e|dj] eqn:Ej;
      cbn [mbind] in H; [discriminate|].
    destruct (IH _ _ _ _ H Hin) as [Hold|[Hj Hd]].
    + apply in_dset in Hold. destruct Hold as [E|Hold]; [|left; exact Hold].
      injection E as -> ->. right. split; [left; reflexivity | exact Ej].
    + right. split; [right; exact Hj | exact Hd].
Qed.

Lemma job_dict_keys project_jobs runner_list csv_data_file :
  forall (jobs jobs' : JobDict),
    job_dict project_jobs runner_list csv_data_file jobs = inr jobs' ->
    map fst jobs' = fold_left add_key project_jobs (map fst jobs).
Proof.
  induction project_jobs as [|j pj IH]; intros jobs jobs' H;
    cbn [job_dict fold_left] in *.
  - injection H as <-. reflexivity.
  - destruct (runner_dict runner_list j csv_data_file []) as [e|dj];
      cbn [mbind] in H; [discriminate|].
    rewrite (IH _ _ H), keys_dset. reflexivity.
Qed.

End ProgramLoops.

Section ProgramStatements.
Context {lib : PyLib} {report : PyReport}.

(** X15.  With [--no-fetch] the program cannot aggregate: the variable
    [csv_data_files] is assigned by the fetch only, so [main] raises
    [UnboundLocalError] as soon as one repository is configured, whatever
    the data files hold; without repository it writes empty reports. *)
Theorem main_no_fetch_unbound config remote_of files :
  main true config remote_of files =
    match repos config with
    | [] => inr ([], make_html_table [], files)
    | _ :: _ => inl UnboundLocalError
    end.
Proof.
  unfold main. cbn [mbind fst snd].
  destruct (repos config) as [|repo repo_list]; reflexivity.
Qed.

Lemma fetch_repos_names remote_of since repo_list :
  forall (csv_data_files : list (string * string)) files csv_data_files' files',
    fetch_repos remote_of since repo_list csv_data_files files
    = inr (csv_data_files', files') ->
    (forall k v, dfind csv_data_files k = Some v -> v = k) ->
    forall k v, dfind csv_data_files' k = Some v -> v = k.
Proof.
  induction repo_list as [|repo rl IH]; intros cdf files cdf' files' H Hinv;
    cbn [fetch_repos] in H.
  - injection H as <- _. exact Hinv.
  - destruct (run_fetch (remote_of (path repo)) since (dfind files (path repo)))
      as [rows|e]; cbn [lift mbind] in H; [|discriminate].
    apply (IH _ _ _ _ H). intros k v Hk.
    destruct (String.eqb_spec (path repo) k) as [<-|Hne].
    + rewrite dfind_dset_same in Hk. congruence.
    + rewrite dfind_dset_other in Hk by exact Hne. apply Hinv, Hk.
Qed.

(** The items of [runner_stats] after the loop over the repositories. *)
Lemma crunch_repos_items repo_list runner_list
    (csv_data_files : list (string * string)) files :
  (forall k v, dfind csv_data_files k = Some v -> v = k) ->
  forall (runner_stats runner_stats' : RunnerStats) repo (jobs : JobDict),
    crunch_repos repo_list runner_list (Some csv_data_files) files runner_stats
    = inr runner_stats' ->
    In (repo, jobs) runner_stats' ->
    In (repo, jobs) runner_stats \/
    ((exists r, In r repo_list /\ path r = repo) /\
     exists names,
       get_measured_jobs (dfind files repo) = Ok names /\
       job_dict names runner_list (dfind files repo) [] = inr jobs).
Proof.
  intro Hinv.
  induction repo_list as [|r rl IH]; intros rs rs' repo jobs H Hin;
    cbn [crunch_repos] in H.
  - injection H as <-. left. exact Hin.
  - destruct (dfind csv_data_files (path r)) as [f|] eqn:Ef; [|discriminate].
    rewrite (Hinv _ _ Ef) in H.
    destruct (get_measured_jobs (dfind files (path r))) as [names|e] eqn:En;
      cbn [lift mbind] in H; [|discriminate].
    rewrite (crunch_jobs_spec names runner_list (path r) _ _ [])
      in H by apply dfind_dset_same.
    destruct (job_dict names runner_list (dfind files (path r)) [])
      as [e|jobs'] eqn:Ej; cbn [mbind] in H; [discriminate|].
    rewrite dset_dset in H.
    destruct (IH _ _ _ _ H Hin) as [Hold|[(r' & Hr' & Hp) Hnew]].
    + apply in_dset in Hold. destruct Hold as [E|Hold]; [|left; exact Hold].
      injection E as -> ->. right. split.
      * exists r. split; [left; reflexivity | reflexivity].
      * exists names. auto.
    + right. split; [|exact Hnew]. exists r'. split; [right; exact Hr' | exact Hp].
Qed.

Lemma crunch_repos_keys repo_list runner_list
    (csv_data_files : list (string * string)) files :
  (forall k v, dfind csv_data_files k = Some v -> v = k) ->
  forall (runner_stats runner_stats' : RunnerStats),
    crunch_repos repo_list runner_list (Some csv_data_files) files runner_stats
    = inr runner_stats' ->
    map fst runner_stats'
    = fold_left add_key (map path repo_list) (map fst runner_stats).
Proof.
  intro Hinv.
  induction repo_list as [|r rl IH]; intros rs rs' H;
    cbn [crunch_repos map fold_left] in *.
  - injection H as <-. reflexivity.
  - destruct (dfind csv_data_files (path r)) as [f|] eqn:Ef; [|discriminate].
    rewrite (Hinv _ _ Ef) in H.
    destruct (get_measured_jobs (dfind files (path r))) as [names|e];
      cbn [lift mbind] in H; [|discriminate].
    rewrite (crunch_jobs_spec names runner_list (path r) _ _ [])
      in H by apply dfind_dset_same.
    destruct (job_dict names runner_list (dfind files (path r)) [])
      as [e|jobs']; cbn [mbind] in H; [discriminate|].
    rewrite dset_dset in H.
    rewrite (IH _ _ H), keys_dset. reflexivity.
Qed.

(** The fetch of the program is [fetch_jobs_data] with fuel for the
    pages. *)
Lemma run_fetch_is_fetch_jobs_data remote since csv_data_file :
  fetch_jobs_data (S (List.length remote)) remote since csv_data_file =
    Some match run_fetch remote since csv_data_file with
         | Ok rows => Ok (Some rows)
         | Raise e => Raise e
         end.
Proof.
  destruct (fetch_jobs_data_fuel (S (List.length remote)) (S (List.length remote))
              remote since csv_data_file (Nat.lt_succ_diag_r _)
              (Nat.lt_succ_diag_r _)) as [_ Hsome].
  unfold fetch_jobs_data, run_fetch in *.
  destruct (fetch_new_rows (S (List.length remote)) remote since csv_data_file)
    as [[new|e]|]; [reflexivity | reflexivity | congruence].
Qed.

Lemma main_items no_fetch config remote_of files stats html files' :
  main no_fetch config remote_of files = inr (stats, html, files') ->
  html = make_html_table stats /\
  map fst stats = distinct_keys (map path (repos config)) /\
  forall repo (jobs : JobDict),
    In (repo, jobs) stats ->
    (exists r, In r (repos config) /\ path r = repo) /\
    exists names,
      get_measured_jobs (dfind files' repo) = Ok names /\
      job_dict names (runners config) (dfind files' repo) [] = inr jobs.
Proof.
  unfold main. intro H.
  destruct no_fetch; cbn [mbind fst snd] in H.
  - destruct (repos config) as [|r rl]; cbn [crunch_repos mbind] in H;
      [|discriminate].
    injection H as <- <- <-.
    split; [reflexivity|]. split; [reflexivity | intros ? ? []].
  - destruct (fetch_repos remote_of (measure_since config) (repos config) [] files)
      as [e|[cdf fs]] eqn:Ef; cbn [mbind fst snd] in H; [discriminate|].
    destruct (crunch_repos (repos config) (runners config) (Some cdf) fs [])
      as [e|rs] eqn:Ec; cbn [mbind] in H; [discriminate|].
    injection H as <- <- <-. split; [reflexivity|].
    assert (Hinv : forall k v, dfind cdf k = Some v -> v = k).
    { apply (fetch_repos_names _ _ _ _ _ _ _ Ef). intros k v Hk. discriminate. }
    split; [exact (crunch_repos_keys _ _ _ _ Hinv _ _ Ec)|].
    intros repo jobs Hin.
    destruct (crunch_repos_items _ _ _ _ Hinv _ _ _ _ Ec Hin) as [[]|Hnew].
    exact Hnew.
Qed.

Lemma get_measured_jobs_NoDup csv_data_file names :
  get_measured_jobs csv_data_file = Ok names -> NoDup names.
Proof.
  unfold get_measured_jobs. destruct csv_data_file as [rows|]; [|discriminate].
  destruct (job_names_of rows) as [ns|]; cbn [bind]; [|discriminate].
  intros [= <-]. apply sorted_NoDup, sorted_set_sorted.
Qed.

(** X16.  What [main] writes to [runner_statistics.json]: the paths of
    the configured repositories without repeats; under every
    repository, the job names [get_measured_jobs] gives for its data file,
    in that order; under every job the names of the configured runners
    without repeats, in the order of their first occurrence; and under a
    runner name the rounded statistics [get_job_stats] returns for the last
    runner of that name. *)
Theorem main_statistics_shape no_fetch config remote_of files
    stats html files' :
  main no_fetch config remote_of files = inr (stats, html, files') ->
  map fst stats = distinct_keys (map path (repos config)) /\
  forall repo (jobs : JobDict),
    In (repo, jobs) stats ->
    exists names,
      get_measured_jobs (dfind files' repo) = Ok names /\
      map fst jobs = names /\
      forall job_name (d : RunnerDict),
        In (job_name, d) jobs ->
        map fst d = distinct_keys (map name (runners config)) /\
        forall n v,
          dfind d n = Some v ->
          exists before runner after job_stats,
            runners config = (before ++ runner :: after)%list /\
            name runner = n /\
            (forall r, In r after -> name r <> n) /\
            get_job_stats job_name runner (dfind files' repo) = Ok job_stats /\
            v = rounded job_stats.
Proof.
  intros H.
  destruct (main_items _ _ _ _ _ _ _ H) as (_ & Hkeys & Hitems).
  split; [exact Hkeys|]. intros repo jobs Hin.
  destruct (Hitems repo jobs Hin) as (_ & names & Hnames & Hjobs).
  exists names. split; [exact Hnames|]. split.
  - rewrite (job_dict_keys _ _ _ _ _ Hjobs). cbn [map].
    apply distinct_keys_NoDup, (get_measured_jobs_NoDup _ _ Hnames).
  - intros job_name d Hd.
    destruct (job_dict_items _ _ _ _ _ _ _ Hjobs Hd) as [[]|[_ Hrd]].
    split; [exact (runner_dict_keys _ _ _ _ _ Hrd)|].
    intros n v Hv.
    destruct (runner_dict_values _ _ _ _ _ _ _ Hrd Hv) as [Hlast|[_ Hnone]];
      [exact Hlast | discriminate].
Qed.

(** X17.  The tables of the report are rectangular: in the three tables
    [make_html_table] builds for a repository from what [main] computed,
    every row has as many cells as there are headers, although the headers
    are read off the first job only. *)
Theorem report_tables_rectangular no_fetch config remote_of files
    stats html files' :
  main no_fetch config remote_of files = inr (stats, html, files') ->
  html = make_html_table stats /\
  forall repo (jobs : JobDict) field row,
    In (repo, jobs) stats ->
    In row (table_rows field jobs) ->
    List.length row = List.length (table_headers jobs).
Proof.
  intro H. destruct (main_items _ _ _ _ _ _ _ H) as (Hhtml & _ & Hitems).
  split; [exact Hhtml|].
  intros repo jobs field row Hin Hrow.
  destruct (Hitems repo jobs Hin) as (_ & names & _ & Hjobs).
  assert (Hkeys : forall job_name (d : RunnerDict),
             In (job_name, d) jobs ->
             List.length d
             = List.length (distinct_keys (map name (runners config)))).
  { intros job_name d Hd.
    destruct (job_dict_items _ _ _ _ _ _ _ Hjobs Hd) as [[]|[_ Hrd]].
    pose proof (runner_dict_keys _ _ _ _ _ Hrd) as Hk. cbn [map] in Hk.
    unfold distinct_keys. rewrite <- Hk. symmetry. apply length_map. }
  unfold table_rows in Hrow. apply in_map_iff in Hrow.
  destruct Hrow as ([job_name d] & <- & Hd).
  cbn [fst snd List.length]. rewrite length_map, (Hkeys _ _ Hd).
  unfold table_headers. destruct jobs as [|[j0 d0] jobs]; [destruct Hd|].
  cbn [List.length]. rewrite length_map.
  rewrite (Hkeys j0 d0 (or_introl eq_refl)). reflexivity.
Qed.

Lemma run_fetch_suffix remote since csv_data_file rows :
  run_fetch remote since csv_data_file = Ok rows ->
  exists new, rows = (new ++ previous_content csv_data_file)%list.
Proof.
  unfold run_fetch.
  destruct (fetch_new_rows (S (List.length remote)) remote since csv_data_file)
    as [[new|e]|]; try discriminate.
  intros [= <-]. exists new. reflexivity.
Qed.

Lemma fetch_repos_keeps_rows remote_of since repo_list :
  forall (csv_data_files : list (string * string)) (files : Files)
         csv_data_files' files' p rows,
    fetch_repos remote_of since repo_list csv_data_files files
    = inr (csv_data_files', files') ->
    dfind files p = Some rows ->
    exists new previous,
      dfind files' p = Some (new ++ previous)%list /\
      (previous = rows \/ previous = text_mode_copy rows) /\
      ((forall r, In r repo_list -> path r <> p) ->
       new = [] /\ previous = rows).
Proof.
  induction repo_list as [|repo rl IH]; intros cdf files cdf' files' p rows H Hp;
    cbn [fetch_repos] in H.
  - injection H as _ <-. exists [], rows. auto.
  - destruct (run_fetch (remote_of (path repo)) since (dfind files (path repo)))
      as [rows1|e] eqn:Ef; cbn [lift mbind] in H; [|discriminate].
    destruct (String.eqb_spec (path repo) p) as [E|Hne].
    + destruct (run_fetch_suffix _ _ _ _ Ef) as (new1 & ->).
      rewrite E in H. unfold Files in *. rewrite Hp in H.
      cbn [previous_content] in H.
      destruct (IH _ _ _ _ p (new1 ++ text_mode_copy rows)%list H
                   (dfind_dset_same _ _ _))
        as (new & previous & Hnew & [-> | ->] & _).
      * exists (new ++ new1)%list, (text_mode_copy rows). split.
        -- rewrite Hnew, app_assoc. reflexivity.
        -- split; [right; reflexivity|].
           intro Hnone. exfalso. exact (Hnone repo (or_introl eq_refl) E).
      * exists (new ++ text_mode_copy new1)%list, (text_mode_copy rows). split.
        -- rewrite Hnew, text_mode_copy_app, text_mode_copy_idempotent,
                   app_assoc.
           reflexivity.
        -- split; [right; reflexivity|].
           intro Hnone. exfalso. exact (Hnone repo (or_introl eq_refl) E).
    + destruct (IH _ _ _ _ p rows H) as (new & previous & Hnew & Hprev & Hnil).
      * rewrite dfind_dset_other by exact Hne. exact Hp.
      * exists new, previous. split; [exact Hnew|]. split; [exact Hprev|].
        intro Hnone. apply Hnil. intros r Hr. apply Hnone. right. exact Hr.
Qed.

(** X18.  The program never loses what a data file holds: after [main],
    every data file that was there starts with new rows, if any, followed
    by all its previous rows in their order, each as it was or as the copy
    in text mode gives it, and the file of a path that is not a configured
    repository is as before. *)
Theorem main_keeps_data_files no_fetch config remote_of files
    stats html files' p rows :
  main no_fetch config remote_of files = inr (stats, html, files') ->
  dfind files p = Some rows ->
  exists new previous,
    dfind files' p = Some (new ++ previous)%list /\
    (previous = rows \/ previous = text_mode_copy rows) /\
    ((forall r, In r (repos config) -> path r <> p) ->
     new = [] /\ previous = rows).
Proof.
  unfold main. intros H Hp.
  destruct no_fetch; cbn [mbind fst snd] in H.
  - destruct (crunch_repos (repos config) (runners config) None files [])
      as [e|rs]; cbn [mbind] in H; [discriminate|].
    injection H as _ _ <-. exists [], rows. auto.
  - destruct (fetch_repos remote_of (measure_since config) (repos config) [] files)
      as [e|[cdf fs]] eqn:Ef; cbn [mbind fst snd] in H; [discriminate|].
    destruct (crunch_repos (repos config) (runners config) (Some cdf) fs [])
      as [e|rs]; cbn [mbind] in H; [discriminate|].
    injection H as _ _ <-.
    exact (fetch_repos_keeps_rows _ _ _ _ _ _ _ _ _ Ef Hp).
Qed.

End ProgramStatements.

Lemma main_statistics_shape_witness :
  exists stats html files',
    @main Ref.lib RefReport.report false ProgramExample.config
          ProgramExample.remote_of []
    = inr (stats, html, files') /\
    forall repo (jobs : JobDict),
      In (repo, jobs) stats ->
      exists names,
        get_measured_jobs (dfind files' repo) = Ok names /\
        map fst jobs = names /\
        forall job_name (d : RunnerDict),
          In (job_name, d) jobs -> map fst d = ["shared"; "any"].
Proof.
  destruct (@main Ref.lib RefReport.report false ProgramExample.config
                  ProgramExample.remote_of [])
    as [e|[[stats html] files']] eqn:E; [vm_compute in E; discriminate|].
  exists stats, html, files'. split; [reflexivity|].
  intros repo jobs Hin.
  destruct (proj2 (@main_statistics_shape Ref.lib RefReport.report
                     _ _ _ _ _ _ _ E) repo jobs Hin)
    as (names & H1 & H2 & H3).
  exists names. split; [exact H1|]. split; [exact H2|].
  intros job_name d Hd. exact (proj1 (H3 job_name d Hd)).
Defined.

Lemma report_tables_rectangular_witness :
  exists stats html files',
    @main Ref.lib RefReport.report false ProgramExample.config
          ProgramExample.remote_of []
    = inr (stats, html, files') /\
    forall repo (jobs : JobDict) field row,
      In (repo, jobs) stats ->
      In row (table_rows field jobs) ->
      List.length row = List.length (table_headers jobs).
Proof.
  destruct (@main Ref.lib RefReport.report false ProgramExample.config
                  ProgramExample.remote_of [])
    as [e|[[stats html] files']] eqn:E; [vm_compute in E; discriminate|].
  exists stats, html, files'. split; [reflexivity|].
  exact (proj2 (@report_tables_rectangular Ref.lib RefReport.report
                  _ _ _ _ _ _ _ E)).
Defined.

(** The data file of the example project holds a row whose runner
    description ends its first line by [\r\n]: after [main] the rows that
    were there follow the new ones, as they were or as the copy gives
    them. *)
Lemma main_keeps_data_files_witness :
  exists stats html files' new previous,
    @main Ref.lib RefReport.report false ProgramExample.config
          ProgramExample.remote_of
          [("group/project", [Examples.crlf_build; Examples.build2])]
    = inr (stats, html, files') /\
    dfind files' "group/project" = Some (new ++ previous)%list /\
    (previous = [Examples.crlf_build; Examples.build2] \/
     previous = [Examples.lf_build; Examples.build2]).
Proof.
  destruct (@main Ref.lib RefReport.report false ProgramExample.config
                  ProgramExample.remote_of
                  [("group/project", [Examples.crlf_build; Examples.build2])])
    as [e|[[stats html] files']] eqn:E; [vm_compute in E; discriminate|].
  destruct (@main_keeps_data_files Ref.lib RefReport.report _ _ _ _ _ _ _
              "group/project" [Examples.crlf_build; Examples.build2] E)
    as (new & previous & Hnew & Hprev & _).
  - reflexivity.
  - exists stats, html, files', new, previous.
    split; [reflexivity|]. split; [exact Hnew | exact Hprev].
Defined.
